(** * Turkey Agricultural Land API: the scoring pipeline of [Backend/main.py]

    A shallow embedding of the water-source loader, the nearest-water scan,
    the attribute estimators, the suitability scorer and the batch analysis
    endpoint, followed by the properties proved about them.

    Conventions of the embedding.
    - Python [float] values are rationals ([Q]) with exact arithmetic and the
      usual order; [int] values are [Z].  The initial [float('inf')] of the
      nearest-water scan is the [None] of an [option Q]; the scan is modelled
      a second time, in [Fp], over all float values, not-a-number and the
      infinities included, and the two models are proved to agree on the
      finite ones.
    - Python dictionaries with a fixed set of keys are records; dictionaries
      read with [.get] are [gmap string string].
    - [np.sqrt], [np.random.uniform], [json.dump]/[json.load], the file
      system, the HTTP call and the wall clock are outside the repository:
      the square root and the JSON codec are section variables, the random
      generator is an explicit stream of draws threaded through the code, and
      the file system and the network are explicit inputs and outputs.  The
      text format of the cache file, as the loader asks for it
      ([ensure_ascii=False], [indent=2]), is written out in [Json]. *)

From Stdlib Require Import ZArith QArith Qround Qabs String Ascii List Lia.
From Stdlib Require Import DecimalString Lqa Qpower.
From stdpp Require Import base option list strings gmap.

Local Open Scope string_scope.
Local Open Scope Z_scope.

(** ** Numbers *)

Module Num.

(** [a < b] on floats. *)
Definition Qltb (a b : Q) : bool := negb (Qle_bool b a).

(** Python's [round(x)]: nearest integer, ties to the even one. *)
Definition py_round (q : Q) : Z :=
  let f := Qfloor q in
  match Qcompare (q - inject_Z f) (1 # 2) with
  | Lt => f
  | Gt => f + 1
  | Eq => if Z.even f then f else f + 1
  end.

(** Python's [round(x, 1)] and [round(x, 2)], on the exact value. *)
Definition py_round1 (q : Q) : Q := Qmake (py_round (q * 10)) 10.
Definition py_round2 (q : Q) : Q := Qmake (py_round (q * 100)) 100.

End Num.

(** ** Text *)

Module Text.

(** [str(n)] for an [int]. *)
Definition str_int (z : Z) : string := NilZero.string_of_int (Z.to_int z).

Fixpoint zeros (n : nat) : string :=
  match n with
  | O => ""
  | S k => "0" +:+ zeros k
  end.

(** The decimal digits of [n >= 0], left-padded with zeros to width [d]. *)
Definition pad_digits (d : nat) (n : Z) : string :=
  let s := str_int n in
  zeros (d - String.length s) +:+ s.

(** [format(x, '.<d>f')] for [d >= 1]: ties-to-even rounding of the exact
    value to [d] decimals, the sign kept also when the digits are zero. *)
Definition fmt_f (d : nat) (q : Q) : string :=
  let scale := 10 ^ Z.of_nat d in
  let n := Num.py_round (Qabs q * inject_Z scale) in
  (if Num.Qltb q 0 then "-" else "")
    +:+ str_int (n / scale) +:+ "." +:+ pad_digits d (n mod scale).

(** The least number of decimals, between 1 and [1 + fuel], at which the
    decimal expansion of [q] ends. *)
Fixpoint decimals_needed (fuel : nat) (d : nat) (q : Q) : nat :=
  match fuel with
  | O => d
  | S k =>
      let x := (q * inject_Z (10 ^ Z.of_nat d))%Q in
      if Qeq_bool x (inject_Z (Qfloor x)) then d else decimals_needed k (S d) q
  end.

(** [str(x)] for a [float] of moderate size: the shortest decimal numeral,
    with at least one digit after the point (up to 17 digits). *)
Definition str_float (q : Q) : string := fmt_f (decimals_needed 16 1 q) q.

Definition lower_ascii (c : ascii) : ascii :=
  let n := nat_of_ascii c in
  if (andb (Nat.leb 65 n) (Nat.leb n 90)) then ascii_of_nat (n + 32) else c.

(** [s.lower()], on the ASCII letters. *)
Fixpoint lower (s : string) : string :=
  match s with
  | EmptyString => EmptyString
  | String c s' => String (lower_ascii c) (lower s')
  end.

(** [k in s] for strings. *)
Fixpoint is_substring (k s : string) : bool :=
  orb (String.prefix k s)
      match s with
      | EmptyString => false
      | String _ s' => is_substring k s'
      end.

(** [sep.join(parts)]. *)
Fixpoint join (sep : string) (parts : list string) : string :=
  match parts with
  | [] => ""
  | [p] => p
  | p :: rest => p +:+ sep +:+ join sep rest
  end.

End Text.

(** ** Data model *)

(** One entry of the water-source list: the dictionary with keys
    ['lat'], ['lon'], ['name'], ['type'], ['source']. *)
Record WaterFeature := mkWaterFeature {
  wf_lat : Q;
  wf_lon : Q;
  wf_name : string;
  wf_type : string;
  wf_source : string
}.

(** The dictionary returned by [calculate_distance_to_nearest_water]. *)
Record NearestWater := mkNearestWater {
  nw_name : string;
  nw_type : string;
  nw_distance_km : Q
}.

(** The [enhanced_row] dictionary as the scorer receives it.  Every key is
    always present; [landcover_type] is read with [row.get], so it is the one
    optional field. *)
Record AttrRow := mkAttrRow {
  latitude : Q;
  longitude : Q;
  elevation_m : Z;
  slope_percent : Q;
  water_distance_km : Q;
  nearest_water_name : string;
  nearest_water_type : string;
  urban_distance_km : Q;
  soil_type : string;
  soil_ph : Q;
  soil_productivity : string;
  annual_precipitation_mm : Z;
  sunshine_hours : Z;
  climate_type : string;
  landcover_type : option string;
  region_name : string;
  data_source : string
}.

(** [enhanced_row] after the four [suitability_*] keys have been added. *)
Record EnhancedRow := mkEnhancedRow {
  attrs : AttrRow;
  suitability_score : Z;
  suitability_reasons : string;
  detailed_reasons : string;
  suitability_category : string
}.

(** ** Suitability scorer *)

Module Scorer.

(** The three accumulators [score], [reasons], [details]. *)
Record Tally := mkTally {
  score : Z;
  reasons : list string;
  details : list string
}.

Definition empty_tally : Tally := mkTally 0 [] [].

(** [score += pts; reasons.append(reason); details.append(detail)] *)
Definition award (pts : Z) (reason detail : string) (t : Tally) : Tally :=
  mkTally (score t + pts) (reasons t ++ [reason]) (details t ++ [detail]).

(** The points each criterion adds to the score: the conditions of the
    source with the reasons and details left out. *)
Definition water_points (d : Q) : Z :=
  if Qle_bool d 5 then 25 else if Qle_bool d 10 then 18 else 0.

Definition slope_points (s : Q) : Z :=
  if Qle_bool s 5 then 20 else if Qle_bool s 10 then 15 else 0.

Definition elevation_points (e : Z) : Z :=
  if e <=? 800 then 15 else if e <=? 1500 then 10 else 0.

Definition soil_points (q : string) : Z :=
  if String.eqb q "high" then 10 else if String.eqb q "medium-high" then 7 else 0.

Definition precipitation_points (p : Z) : Z :=
  if (400 <=? p) && (p <=? 800) then 8 else 0.

Definition sunshine_points (s : Z) : Z :=
  if (1800 <=? s) && (s <=? 2800) then 7 else 0.

Definition landcover_keywords : list string :=
  ["farm"; "agricultural"; "orchard"; "vineyard"].

(** [str(row.get('landcover_type', '')).lower()] *)
Definition lc_type_of (row : AttrRow) : string :=
  Text.lower (default "" (landcover_type row)).

(** [any(keyword in lc_type for keyword in [...])] *)
Definition landcover_match (lc_type : string) : bool :=
  existsb (fun keyword => Text.is_substring keyword lc_type) landcover_keywords.

Definition landcover_points (lc_type : string) : Z :=
  if landcover_match lc_type then 8 else 0.

Definition water_detail (row : AttrRow) (grade : string) : string :=
  "💧 Water: " +:+ Text.fmt_f 1 (water_distance_km row) +:+ "km ("
    +:+ nearest_water_name row +:+ ") - " +:+ grade.

Definition slope_detail (row : AttrRow) (grade : string) : string :=
  "📐 Slope: " +:+ Text.fmt_f 1 (slope_percent row) +:+ "% - " +:+ grade.

Definition elevation_detail (row : AttrRow) (grade : string) : string :=
  "⛰ Elevation: " +:+ Text.str_int (elevation_m row) +:+ "m - " +:+ grade.

Definition soil_detail (row : AttrRow) (grade : string) : string :=
  "🌱 Soil: " +:+ soil_type row +:+ " (pH:" +:+ Text.str_float (soil_ph row)
    +:+ ") - " +:+ grade.

Definition score_water (row : AttrRow) (t : Tally) : Tally :=
  let water_dist_km := water_distance_km row in
  if Qle_bool water_dist_km 5 then
    award 25 "very close to water" (water_detail row "EXCELLENT") t
  else if Qle_bool water_dist_km 10 then
    award 18 "close to water" (water_detail row "GOOD") t
  else t.

Definition score_slope (row : AttrRow) (t : Tally) : Tally :=
  let slope := slope_percent row in
  if Qle_bool slope 5 then
    award 20 "low slope" (slope_detail row "EXCELLENT") t
  else if Qle_bool slope 10 then
    award 15 "medium slope" (slope_detail row "GOOD") t
  else t.

Definition score_elevation (row : AttrRow) (t : Tally) : Tally :=
  let elevation := elevation_m row in
  if elevation <=? 800 then
    award 15 "low elevation" (elevation_detail row "EXCELLENT") t
  else if elevation <=? 1500 then
    award 10 "medium elevation" (elevation_detail row "GOOD") t
  else t.

Definition score_soil (row : AttrRow) (t : Tally) : Tally :=
  let soil_quality := soil_productivity row in
  if String.eqb soil_quality "high" then
    award 10 "fertile soil" (soil_detail row "EXCELLENT") t
  else if String.eqb soil_quality "medium-high" then
    award 7 "good soil" (soil_detail row "GOOD") t
  else t.

Definition score_precipitation (row : AttrRow) (t : Tally) : Tally :=
  let precipitation := annual_precipitation_mm row in
  if (400 <=? precipitation) && (precipitation <=? 800) then
    award 8 "ideal precipitation"
      ("🌧 Precipitation: " +:+ Text.str_int precipitation +:+ "mm - EXCELLENT") t
  else t.

Definition score_sunshine (row : AttrRow) (t : Tally) : Tally :=
  let sunshine := sunshine_hours row in
  if (1800 <=? sunshine) && (sunshine <=? 2800) then
    award 7 "ideal sunshine"
      ("☀ Sunshine: " +:+ Text.str_int sunshine +:+ " hours - EXCELLENT") t
  else t.

Definition score_landcover (row : AttrRow) (t : Tally) : Tally :=
  let lc_type := lc_type_of row in
  if landcover_match lc_type then
    award 8 "existing agricultural land"
      ("🏞 Landcover: " +:+ lc_type +:+ " - BONUS") t
  else t.

(** The tally after the seven criteria, in the order of the source. *)
Definition tally_of (row : AttrRow) : Tally :=
  score_landcover row
    (score_sunshine row
      (score_precipitation row
        (score_soil row
          (score_elevation row
            (score_slope row
              (score_water row empty_tally)))))).

(** [calculate_comprehensive_suitability(row)]: the triple
    [(score, ", ".join(reasons), " | ".join(details))]. *)
Definition calculate_comprehensive_suitability (row : AttrRow)
  : Z * string * string :=
  let t := tally_of row in
  (score t, Text.join ", " (reasons t), Text.join " | " (details t)).

(** [categorize_suitability(score)] *)
Definition categorize_suitability (score : Z) : string :=
  if 80 <=? score then "HIGHLY PRODUCTIVE"
  else if 70 <=? score then "PRODUCTIVE"
  else if 60 <=? score then "MODERATELY PRODUCTIVE"
  else "LOW PRODUCTIVITY".

(** The order of the four labels, from worst to best. *)
Definition category_rank (c : string) : nat :=
  if String.eqb c "HIGHLY PRODUCTIVE" then 3
  else if String.eqb c "PRODUCTIVE" then 2
  else if String.eqb c "MODERATELY PRODUCTIVE" then 1
  else 0.

End Scorer.

(** The invariant of the three accumulators: a reason is recorded exactly
    with points, no reason is empty, and every award is of at least 7
    points. *)
Definition tally_ok (t : Scorer.Tally) : Prop :=
  (Scorer.score t = 0 <-> Scorer.reasons t = [])
  /\ (Scorer.score t = 0 \/ 7 <= Scorer.score t)
  /\ Forall (fun reason => reason <> "") (Scorer.reasons t).

(** ** Random draws *)

Module Rand.

(** The generator: the successive values of [random_sample()]. *)
Definition Rng := nat -> Q.

(** A computation drawing from the generator. *)
Definition M (A : Type) := Rng -> A * Rng.

Definition ret {A} (a : A) : M A := fun g => (a, g).

Definition bind {A B} (m : M A) (k : A -> M B) : M B :=
  fun g => let '(a, g') := m g in k a g'.

(** [np.random.uniform(low, high)]: [low + (high - low) * random_sample()]. *)
Definition uniform (low high : Q) : M Q :=
  fun g => ((low + (high - low) * g 0%nat)%Q, fun n => g (S n)).

Definition run {A} (m : M A) (g : Rng) : A := fst (m g).

End Rand.

Notation "'draw' x ':=' m 'in' k" := (Rand.bind m (fun x => k))
  (at level 10, x name, m at level 100, k at level 200).

(** ** Nearest-water scan and attribute estimators *)

Record ClimateData := mkClimateData {
  cd_annual_precipitation_mm : Z;
  cd_sunshine_hours : Z;
  cd_average_temperature : Q;
  cd_climate_type : string
}.

Record SoilData := mkSoilData {
  sd_soil_type : string;
  sd_soil_ph : Q;
  sd_organic_matter : Q;
  sd_productivity : string
}.

(** [get_climate_data(lat, lon)] *)
Definition get_climate_data (lat lon : Q) : ClimateData :=
  if Num.Qltb lat 37 then mkClimateData 650 2950 (185 # 10) "Mediterranean"
  else if Num.Qltb lat 39 then mkClimateData 380 2650 (112 # 10) "Continental"
  else if Num.Qltb lat 41 then mkClimateData 850 1950 14 "Black Sea"
  else mkClimateData 450 2450 (85 # 10) "Severe Continental".

(** [estimate_soil_quality(lat, lon, elevation)] *)
Definition estimate_soil_quality (lat lon elevation : Q) : SoilData :=
  if Num.Qltb elevation 200 then mkSoilData "Loamy" (68 # 10) (23 # 10) "high"
  else if Num.Qltb elevation 500 then mkSoilData "Clay-Loamy" (71 # 10) (18 # 10) "medium-high"
  else if Num.Qltb elevation 1000 then mkSoilData "Loamy-Sandy" (65 # 10) (12 # 10) "medium"
  else mkSoilData "Stony-Sandy" (58 # 10) (7 # 10) "low".

(** [quick_elevation_estimate(lat, lon)] *)
Definition quick_elevation_estimate (lat lon : Q) : Rand.M Q :=
  if Num.Qltb lat 37 then Rand.uniform 50 300
  else if Num.Qltb lat 39 then Rand.uniform 800 1200
  else if Num.Qltb lat 41 then Rand.uniform 200 800
  else Rand.uniform 1000 1800.

(** [quick_slope_estimate(elevation, lat, lon)] *)
Definition quick_slope_estimate (elevation lat lon : Q) : Rand.M Q :=
  if Num.Qltb elevation 200 then Rand.uniform 1 3
  else if Num.Qltb elevation 500 then Rand.uniform 2 6
  else if Num.Qltb elevation 1000 then Rand.uniform 5 10
  else Rand.uniform 8 20.

(** [min(xs)] for a non-empty list [x :: xs]: the first least element. *)
Definition py_min (x : Q) (xs : list Q) : Q :=
  fold_left (fun m y => if Num.Qltb y m then y else m) xs x.

Section Geometry.

(** [np.sqrt] *)
Variable np_sqrt : Q -> Q.

(** [np.sqrt((lat - a) ** 2 + (lon - b) ** 2) * 111] *)
Definition planar_km (lat lon a b : Q) : Q :=
  (np_sqrt ((lat - a) ^ 2 + (lon - b) ^ 2) * 111)%Q.

(** The distance computed in the loop body for one water source. *)
Definition water_km (lat lon : Q) (water : WaterFeature) : Q :=
  planar_km lat lon (wf_lat water) (wf_lon water).

(** The loop state: [min_distance] ([None] is [float('inf')]) and
    [nearest_water]. *)
Definition ScanState : Type := option Q * NearestWater.

Definition placeholder : NearestWater := mkNearestWater "unknown" "unknown" 0.

(** [distance_km < min_distance] *)
Definition below (distance_km : Q) (min_distance : option Q) : bool :=
  match min_distance with
  | None => true
  | Some m => Num.Qltb distance_km m
  end.

(** One iteration of [for water in water_sources]. *)
Definition scan_step (lat lon : Q) (st : ScanState) (water : WaterFeature)
  : ScanState :=
  let distance_km := water_km lat lon water in
  if below distance_km (fst st) then
    (Some distance_km,
     mkNearestWater (wf_name water) (wf_type water) distance_km)
  else st.

(** [calculate_distance_to_nearest_water(lat, lon, water_sources)] *)
Definition calculate_distance_to_nearest_water
  (lat lon : Q) (water_sources : list WaterFeature) : NearestWater :=
  snd (fold_left (scan_step lat lon) water_sources (None, placeholder)).

Definition cities : list (Q * Q) :=
  [ (399 # 10, 328 # 10); (41, 289 # 10); (384 # 10, 271 # 10); (369 # 10, 353 # 10) ]%Q.

(** [calculate_realistic_urban_distance(lat, lon)] *)
Definition calculate_realistic_urban_distance (lat lon : Q) : Rand.M Q :=
  let dists := map (fun c => planar_km lat lon (fst c) (snd c)) cities in
  let min_dist := match dists with
                  | [] => 0%Q
                  | d :: ds => py_min d ds
                  end in
  draw jitter := Rand.uniform (8 # 10) (12 # 10) in
  Rand.ret (min_dist * 1000 * jitter)%Q.

(** [not (36.0 <= lat <= 42.0) and (26.0 <= lon <= 45.0)], with Python's
    precedence: [not] binds tighter than [and]. *)
Definition bounding_check (lat lon : Q) : bool :=
  negb (Qle_bool 36 lat && Qle_bool lat 42)
  && (Qle_bool 26 lon && Qle_bool lon 45).

(** [coord_data]: the triple [(lat, lon, original_data)]. *)
Definition CoordData : Type := Q * Q * gmap string string.

(** [analyze_coordinate_with_real_water(coord_data, water_sources)] *)
Definition analyze_coordinate_with_real_water
  (coord_data : CoordData) (water_sources : list WaterFeature)
  : Rand.M (option EnhancedRow) :=
  let '(lat, lon, original_data) := coord_data in
  if bounding_check lat lon then Rand.ret None
  else
    draw elevation := quick_elevation_estimate lat lon in
    draw slope := quick_slope_estimate elevation lat lon in
    let nearest_water :=
      calculate_distance_to_nearest_water lat lon water_sources in
    draw urban_dist_m := calculate_realistic_urban_distance lat lon in
    let urban_dist_km := (urban_dist_m / 1000)%Q in
    let climate_data := get_climate_data lat lon in
    let soil_data := estimate_soil_quality lat lon elevation in
    let enhanced_row := {|
      latitude := lat;
      longitude := lon;
      elevation_m := Num.py_round elevation;
      slope_percent := Num.py_round1 slope;
      water_distance_km := Num.py_round1 (nw_distance_km nearest_water);
      nearest_water_name := nw_name nearest_water;
      nearest_water_type := nw_type nearest_water;
      urban_distance_km := Num.py_round1 urban_dist_km;
      soil_type := sd_soil_type soil_data;
      soil_ph := sd_soil_ph soil_data;
      soil_productivity := sd_productivity soil_data;
      annual_precipitation_mm := cd_annual_precipitation_mm climate_data;
      sunshine_hours := cd_sunshine_hours climate_data;
      climate_type := cd_climate_type climate_data;
      landcover_type := Some (default "agriculture" (original_data !! "type"));
      region_name := default "" (original_data !! "name");
      data_source := default "OSM" (original_data !! "source")
    |} in
    let '(score, reasons, detailed_reasons) :=
      Scorer.calculate_comprehensive_suitability enhanced_row in
    Rand.ret (Some {|
      attrs := enhanced_row;
      suitability_score := score;
      suitability_reasons := reasons;
      detailed_reasons := detailed_reasons;
      suitability_category := Scorer.categorize_suitability score
    |}).

End Geometry.

(** ** The invariant of the nearest-water scan *)

Section ScanInvariant.

Variable np_sqrt : Q -> Q.
Variables lat lon : Q.

(** The entry of the result built from the water source [f]. *)
Definition entry_of (f : WaterFeature) : NearestWater :=
  mkNearestWater (wf_name f) (wf_type f) (water_km np_sqrt lat lon f).

(** The water source at position [i] of [l] is [f], it is at least as close
    as every source of [l], and strictly closer than those before it. *)
Definition first_nearest (l : list WaterFeature) (i : nat) (f : WaterFeature)
  : Prop :=
  l !! i = Some f
  /\ (forall g, g ∈ l ->
        (water_km np_sqrt lat lon f <= water_km np_sqrt lat lon g)%Q)
  /\ (forall j g, (j < i)%nat -> l !! j = Some g ->
        (water_km np_sqrt lat lon f < water_km np_sqrt lat lon g)%Q).

(** What the loop state is after the sources [l] have been scanned. *)
Definition scanned (l : list WaterFeature) (st : ScanState) : Prop :=
  match l with
  | [] => st = (None, placeholder)
  | _ =>
      exists i f,
        first_nearest l i f
        /\ st = (Some (water_km np_sqrt lat lon f), entry_of f)
  end.

End ScanInvariant.

(** ** The nearest-water scan over all float values *)

(** The scan again, for coordinates that range over every value of a Python
    [float]: the numbers (exact, as above), the two infinities and
    not-a-number, with the IEEE 754 rules for them.  Here the comparison
    [distance_km < min_distance] can fail on every water source. *)
Module Fp.

Inductive Float :=
| Num (q : Q)
| PosInf
| NegInf
| NaN.

(** [-a] *)
Definition neg (a : Float) : Float :=
  match a with
  | Num q => Num (- q)
  | PosInf => NegInf
  | NegInf => PosInf
  | NaN => NaN
  end.

(** [a + b] *)
Definition add (a b : Float) : Float :=
  match a, b with
  | NaN, _ | _, NaN => NaN
  | Num x, Num y => Num (x + y)
  | PosInf, NegInf | NegInf, PosInf => NaN
  | PosInf, _ | _, PosInf => PosInf
  | NegInf, _ | _, NegInf => NegInf
  end.

(** [a - b] *)
Definition sub (a b : Float) : Float := add a (neg b).

(** An infinity times the number [x]. *)
Definition mul_inf (positive : bool) (x : Q) : Float :=
  if Qeq_bool x 0 then NaN
  else if xorb positive (Num.Qltb x 0) then PosInf
  else NegInf.

(** [a * b] *)
Definition mul (a b : Float) : Float :=
  match a, b with
  | NaN, _ | _, NaN => NaN
  | Num x, Num y => Num (x * y)
  | Num x, PosInf | PosInf, Num x => mul_inf true x
  | Num x, NegInf | NegInf, Num x => mul_inf false x
  | PosInf, PosInf | NegInf, NegInf => PosInf
  | PosInf, NegInf | NegInf, PosInf => NegInf
  end.

(** [a ** 2] *)
Definition square (a : Float) : Float :=
  match a with
  | Num q => Num (q ^ 2)
  | PosInf | NegInf => PosInf
  | NaN => NaN
  end.

(** [a < b]: false as soon as one side is not-a-number. *)
Definition lt (a b : Float) : bool :=
  match a, b with
  | Num x, Num y => Num.Qltb x y
  | Num _, PosInf | NegInf, Num _ | NegInf, PosInf => true
  | _, _ => false
  end.

(** A water source whose coordinates are any floats. *)
Record Source := mkSource {
  s_lat : Float;
  s_lon : Float;
  s_name : string;
  s_type : string
}.


(** The dictionary returned by the scan. *)
Record Nearest := mkNearest {
  n_name : string;
  n_type : string;
  n_distance_km : Float
}.


Definition placeholder : Nearest := mkNearest "unknown" "unknown" (Num 0).

Section Scan.

(** [np.sqrt] on the non-negative numbers. *)
Variable np_sqrt : Q -> Q.

(** [np.sqrt(a)] *)
Definition sqrt (a : Float) : Float :=
  match a with
  | Num q => if Num.Qltb q 0 then NaN else Num (np_sqrt q)
  | PosInf => PosInf
  | NegInf | NaN => NaN
  end.

(** [np.sqrt((lat - water['lat']) ** 2 + (lon - water['lon']) ** 2) * 111] *)
Definition distance_km (lat lon : Float) (water : Source) : Float :=
  mul (sqrt (add (square (sub lat (s_lat water)))
                 (square (sub lon (s_lon water)))))
      (Num 111).

(** The loop state: [min_distance] and [nearest_water]. *)
Definition ScanState : Type := Float * Nearest.

(** One iteration of [for water in water_sources]. *)
Definition scan_step (lat lon : Float) (st : ScanState) (water : Source)
  : ScanState :=
  let d := distance_km lat lon water in
  if lt d (fst st) then (d, mkNearest (s_name water) (s_type water) d)
  else st.

(** [calculate_distance_to_nearest_water(lat, lon, water_sources)] *)
Definition calculate_distance_to_nearest_water
  (lat lon : Float) (water_sources : list Source) : Nearest :=
  snd (fold_left (scan_step lat lon) water_sources (PosInf, placeholder)).

(** The source at position [i] of [l] is [f]; its distance is below
    [+inf]; no source of [l] is strictly nearer; and it is strictly nearer
    than every source before it whose distance is below [+inf]. *)
Definition first_nearest (lat lon : Float) (l : list Source) (i : nat)
  (f : Source) : Prop :=
  l !! i = Some f
  /\ lt (distance_km lat lon f) PosInf = true
  /\ (forall g, g ∈ l ->
        lt (distance_km lat lon g) (distance_km lat lon f) = false)
  /\ (forall j g, (j < i)%nat -> l !! j = Some g ->
        lt (distance_km lat lon g) PosInf = true ->
        lt (distance_km lat lon f) (distance_km lat lon g) = true).

(** What the loop state is after the sources [l] have been scanned. *)
Definition scanned (lat lon : Float) (l : list Source) (st : ScanState) : Prop :=
  (st = (PosInf, placeholder)
   /\ forall g, g ∈ l -> lt (distance_km lat lon g) PosInf = false)
  \/ (exists i f,
        first_nearest lat lon l i f
        /\ st = (distance_km lat lon f,
                 mkNearest (s_name f) (s_type f) (distance_km lat lon f))).

End Scan.

End Fp.

(** ** Water-source loader *)

(** One entry of [data['elements']]: the optional ['center'] and the optional
    ['tags'] dictionary. *)
Record Element := mkElement {
  el_center : option (Q * Q);
  el_tags : option (gmap string string)
}.

(** The cache file: missing, present but failing to open or read, or present
    with some text. *)
Inductive CacheFile :=
| CacheAbsent
| CacheUnreadable
| CacheContent (text : string).

(** What [requests.post] gives: an exception, or a response with its status
    code and, when [response.json()] and [data['elements']] succeed, the
    elements. *)
Inductive HttpOutcome :=
| RequestRaises
| Responded (status_code : Z) (elements : option (list Element)).

(** What the attempt to write the cache does: it succeeds, or it raises and
    leaves some file state behind. *)
Inductive WriteOutcome :=
| WriteSucceeds
| WriteFails (left_behind : CacheFile).

(** The [if]/[elif] cascade over [tags] that picks [water_type]. *)
Definition water_type_of (tags : gmap string string) : string :=
  match tags !! "waterway" with
  | Some waterway =>
      if String.eqb waterway "river" then "river"
      else if String.eqb waterway "stream" then "stream"
      else if String.eqb waterway "dam" then "dam"
      else ""
  | None =>
      if bool_decide (tags !! "natural" = Some "water") then "lake"
      else match tags !! "water" with
           | Some water =>
               if String.eqb water "lake" then "lake"
               else if String.eqb water "reservoir" then "reservoir"
               else ""
           | None => ""
           end
  end.

(** The body of [for element in data['elements']]: the feature appended for
    this element, if any. *)
Definition feature_of_element (element : Element) : option WaterFeature :=
  match el_center element with
  | None => None
  | Some (lat, lon) =>
      let tags := default ∅ (el_tags element) in
      let name := default "Unnamed" (tags !! "name") in
      let water_type := water_type_of tags in
      if String.eqb water_type "" then None
      else Some (mkWaterFeature lat lon name water_type "OpenStreetMap")
  end.

(** The five types a water source can have. *)
Definition recognised_type (t : string) : Prop :=
  t = "river" \/ t = "stream" \/ t = "dam" \/ t = "lake" \/ t = "reservoir".

Section Loader.

(** [json.dump(_, f, ensure_ascii=False, indent=2)] and [json.load(f)]
    ([None] when the text does not parse). *)
Variable json_dump : list WaterFeature -> string.
Variable json_load : string -> option (list WaterFeature).

(** The part of the loader after the cache check: the request and the
    write of the cache. *)
Definition fetch_from_osm (cache : CacheFile) (http : HttpOutcome)
  (write : WriteOutcome) : list WaterFeature * CacheFile :=
  match http with
  | RequestRaises => ([], cache)
  | Responded status_code body =>
      if status_code =? 200 then
        match body with
        | None => ([], cache)
        | Some elements =>
            let water_sources := omap feature_of_element elements in
            (water_sources,
             match write with
             | WriteSucceeds => CacheContent (json_dump water_sources)
             | WriteFails left_behind => left_behind
             end)
        end
      else ([], cache)
  end.

(** [get_all_water_sources_from_osm()]: the list returned and the cache
    file afterwards. *)
Definition get_all_water_sources_from_osm (cache : CacheFile)
  (http : HttpOutcome) (write : WriteOutcome)
  : list WaterFeature * CacheFile :=
  match cache with
  | CacheContent text =>
      match json_load text with
      | Some cached_data => (cached_data, cache)
      | None => fetch_from_osm cache http write
      end
  | _ => fetch_from_osm cache http write
  end.

End Loader.

(** ** The JSON text of the cache file *)

(** The text [json.dump(water_sources, f, ensure_ascii=False, indent=2)]
    writes for a list of water sources, and the reading of such a text by
    [json.load(f)].  Texts are byte strings (the file is UTF-8, and with
    [ensure_ascii=False] the bytes of a character outside ASCII are written
    as they are); a number is the rational its numeral denotes, kept in
    lowest terms. *)
Module Json.

Definition quote : ascii := ascii_of_nat 34.
Definition backslash : ascii := ascii_of_nat 92.
Definition newline : string := String (ascii_of_nat 10) "".

(** *** Strings *)

Definition hex_digit (n : nat) : ascii :=
  if (n <? 10)%nat then ascii_of_nat (48 + n) else ascii_of_nat (87 + n).

(** The replacement of one character inside a string literal: the quote,
    the backslash and the control characters are escaped, the short escapes
    first, [\u00xx] for the other characters below 0x20. *)
Definition escape_char (c : ascii) : string :=
  let n := nat_of_ascii c in
  if (n =? 34)%nat then String backslash (String quote "")
  else if (n =? 92)%nat then String backslash (String backslash "")
  else if (n =? 10)%nat then String backslash "n"
  else if (n =? 13)%nat then String backslash "r"
  else if (n =? 9)%nat then String backslash "t"
  else if (n =? 8)%nat then String backslash "b"
  else if (n =? 12)%nat then String backslash "f"
  else if (n <? 32)%nat then
    String backslash
      ("u00" +:+ String (hex_digit (n / 16)) (String (hex_digit (n mod 16)) ""))
  else String c "".

Fixpoint escape (s : string) : string :=
  match s with
  | "" => ""
  | String c s' => escape_char c +:+ escape s'
  end.

(** A string literal. *)
Definition string_text (s : string) : string :=
  String quote "" +:+ escape s +:+ String quote "".

Definition hex_value (c : ascii) : option nat :=
  let n := nat_of_ascii c in
  if ((48 <=? n) && (n <=? 57))%nat then Some (n - 48)%nat
  else if ((97 <=? n) && (n <=? 102))%nat then Some (n - 87)%nat
  else if ((65 <=? n) && (n <=? 70))%nat then Some (n - 55)%nat
  else None.

(** The character a short escape stands for. *)
Definition unescape (e : ascii) : option ascii :=
  let n := nat_of_ascii e in
  if (n =? 34)%nat then Some quote
  else if (n =? 92)%nat then Some backslash
  else if (n =? 47)%nat then Some "/"%char
  else if (n =? 110)%nat then Some (ascii_of_nat 10)
  else if (n =? 114)%nat then Some (ascii_of_nat 13)
  else if (n =? 116)%nat then Some (ascii_of_nat 9)
  else if (n =? 98)%nat then Some (ascii_of_nat 8)
  else if (n =? 102)%nat then Some (ascii_of_nat 12)
  else None.

(** The characters of a string literal after its opening quote, up to the
    closing quote, and the text after it.  A raw control character ends the
    reading with an error, as does a [\u] escape of a character outside
    ASCII, which the writer never produces. *)
Fixpoint parse_chars (s : string) : option (string * string) :=
  match s with
  | "" => None
  | String c s' =>
      if Ascii.eqb c quote then Some ("", s')
      else if Ascii.eqb c backslash then
        match s' with
        | String e s'' =>
            if Ascii.eqb e "u" then
              match s'' with
              | String h1 (String h2 (String h3 (String h4 rest))) =>
                  match hex_value h1, hex_value h2, hex_value h3, hex_value h4 with
                  | Some d1, Some d2, Some d3, Some d4 =>
                      let code := (((d1 * 16 + d2) * 16 + d3) * 16 + d4)%nat in
                      if (code <? 128)%nat then
                        match parse_chars rest with
                        | Some (body, after) =>
                            Some (String (ascii_of_nat code) body, after)
                        | None => None
                        end
                      else None
                  | _, _, _, _ => None
                  end
              | _ => None
              end
            else
              match unescape e with
              | Some d =>
                  match parse_chars s'' with
                  | Some (body, after) => Some (String d body, after)
                  | None => None
                  end
              | None => None
              end
        | "" => None
        end
      else if (nat_of_ascii c <? 32)%nat then None
      else
        match parse_chars s' with
        | Some (body, after) => Some (String c body, after)
        | None => None
        end
  end.

Definition parse_string (s : string) : option (string * string) :=
  match s with
  | String c s' => if Ascii.eqb c quote then parse_chars s' else None
  | "" => None
  end.

(** *** Numbers *)

Definition digit_char (d : Z) : ascii := ascii_of_nat (48 + Z.to_nat d).

(** The last [w] decimal digits of [n >= 0]. *)
Fixpoint fixed_digits (w : nat) (n : Z) : string :=
  match w with
  | O => ""
  | S k => String (digit_char ((n / 10 ^ Z.of_nat k) mod 10)) (fixed_digits k n)
  end.

(** The number of digits of [n >= 0], at least [w]. *)
Fixpoint width_from (fuel w : nat) (n : Z) : nat :=
  match fuel with
  | O => w
  | S k => if n <? 10 ^ Z.of_nat w then w else width_from k (S w) n
  end.

Definition int_text (n : Z) : string :=
  fixed_digits (width_from (S (Z.to_nat (Z.log2 n))) 1 n) n.

(** The least number of decimals, from [d] on, at which the decimal
    expansion of [q] ends, if it does within [fuel] more. *)
Fixpoint decimals_from (fuel d : nat) (q : Q) : nat :=
  match fuel with
  | O => d
  | S k =>
      if (Qnum q * 10 ^ Z.of_nat d) mod Zpos (Qden q) =? 0 then d
      else decimals_from k (S d) q
  end.

(** At least one digit follows the point; a denominator below [2 ^ k]
    needs no more than [k] of them. *)
Definition decimals (q : Q) : nat :=
  decimals_from (S (Z.to_nat (Z.log2 (Zpos (Qden q))))) 1 q.

(** The decimal expansion of [q] ends after [d] decimals. *)
Definition ends_at (d : nat) (q : Q) : Prop :=
  (Qnum q * 10 ^ Z.of_nat d) mod Zpos (Qden q) = 0.

(** [q] has a finite decimal expansion, as every [float] has. *)
Definition finite_decimal (q : Q) : Prop := exists d, ends_at d q.

Definition is_decimal (q : Q) : Prop := ends_at (decimals q) q.

(** The numeral of a [float] of moderate size, for which [repr] uses no
    exponent: its sign, its integer digits, the point and its decimals, at
    least one. *)
Definition number_text (q : Q) : string :=
  let d := decimals q in
  let n := Z.abs (Qnum q * 10 ^ Z.of_nat d / Zpos (Qden q)) in
  (if Qnum q <? 0 then "-" else "")
    +:+ int_text (n / 10 ^ Z.of_nat d) +:+ "." +:+ fixed_digits d n.

Definition is_digit (c : ascii) : bool :=
  let n := nat_of_ascii c in ((48 <=? n) && (n <=? 57))%nat.

(** The longest prefix of digits, and the text after it. *)
Fixpoint read_digits (s : string) : string * string :=
  match s with
  | "" => ("", "")
  | String c s' =>
      if is_digit c then
        let '(digits, rest) := read_digits s' in (String c digits, rest)
      else ("", s)
  end.

Fixpoint digits_value (s : string) (acc : Z) : Z :=
  match s with
  | "" => acc
  | String c s' => digits_value s' (acc * 10 + Z.of_nat (nat_of_ascii c - 48))
  end.

(** A numeral without sign or exponent: digits, and optionally a point
    followed by digits. *)
Definition parse_unsigned (s : string) : option (Q * string) :=
  let '(int_digits, s) := read_digits s in
  match int_digits with
  | "" => None
  | String _ _ =>
      let whole := digits_value int_digits 0 in
      match s with
      | String c s' =>
          if Ascii.eqb c "." then
            let '(frac_digits, rest) := read_digits s' in
            match frac_digits with
            | "" => None
            | String _ _ =>
                Some (Qmake (digits_value frac_digits whole)
                        (Z.to_pos (10 ^ Z.of_nat (String.length frac_digits))),
                      rest)
            end
          else Some (inject_Z whole, s)
      | "" => Some (inject_Z whole, s)
      end
  end.

(** A numeral, with its optional minus sign; the number in lowest terms. *)
Definition parse_number (s : string) : option (Q * string) :=
  match s with
  | String c s' =>
      if Ascii.eqb c "-" then
        '(q, rest) ← parse_unsigned s'; Some (Qred (- q), rest)
      else
        '(q, rest) ← parse_unsigned s; Some (Qred q, rest)
  | "" => None
  end.

(** *** Layout *)

Definition is_blank (c : ascii) : bool :=
  let n := nat_of_ascii c in
  ((n =? 32) || (n =? 10) || (n =? 13) || (n =? 9))%nat.

Fixpoint all_blank (s : string) : bool :=
  match s with
  | "" => true
  | String c s' => is_blank c && all_blank s'
  end.

Fixpoint skip_blanks (s : string) : string :=
  match s with
  | "" => ""
  | String c s' => if is_blank c then skip_blanks s' else s
  end.

Fixpoint strip_prefix (token s : string) : option string :=
  match token with
  | "" => Some s
  | String c token' =>
      match s with
      | String d s' => if Ascii.eqb c d then strip_prefix token' s' else None
      | "" => None
      end
  end.

(** The text after [token], which may follow some blanks. *)
Definition expect (token s : string) : option string :=
  strip_prefix token (skip_blanks s).

(** *** The list of water sources *)

Definition member_text (key value : string) : string :=
  "    " +:+ string_text key +:+ ":" +:+ " " +:+ value.

(** One dictionary, at indent 2, its keys in insertion order. *)
Definition feature_text (w : WaterFeature) : string :=
  "  " +:+ "{" +:+ newline
  +:+ member_text "lat" (number_text (wf_lat w)) +:+ "," +:+ newline
  +:+ member_text "lon" (number_text (wf_lon w)) +:+ "," +:+ newline
  +:+ member_text "name" (string_text (wf_name w)) +:+ "," +:+ newline
  +:+ member_text "type" (string_text (wf_type w)) +:+ "," +:+ newline
  +:+ member_text "source" (string_text (wf_source w)) +:+ newline
  +:+ "  " +:+ "}".

(** The dictionaries of a list, a comma and a line break between them. *)
Definition features_text (water_sources : list WaterFeature) : string :=
  Text.join ("," +:+ newline) (feature_text <$> water_sources).

(** [json.dump(water_sources, f, ensure_ascii=False, indent=2)]. *)
Definition dump (water_sources : list WaterFeature) : string :=
  match water_sources with
  | [] => "[]"
  | _ => "[" +:+ newline +:+ features_text water_sources +:+ newline +:+ "]"
  end.

Definition parse_member {A : Type} (key : string)
  (value : string -> option (A * string)) (s : string) : option (A * string) :=
  s ← expect (string_text key) s;
  s ← expect ":" s;
  value (skip_blanks s).

(** One dictionary with the five keys of a water source. *)
Definition parse_feature (s : string) : option (WaterFeature * string) :=
  s ← expect "{" s;
  '(lat, s) ← parse_member "lat" parse_number s;
  s ← expect "," s;
  '(lon, s) ← parse_member "lon" parse_number s;
  s ← expect "," s;
  '(name, s) ← parse_member "name" parse_string s;
  s ← expect "," s;
  '(type, s) ← parse_member "type" parse_string s;
  s ← expect "," s;
  '(source, s) ← parse_member "source" parse_string s;
  s ← expect "}" s;
  Some (mkWaterFeature lat lon name type source, s).

(** The dictionaries of a non-empty list, up to the closing bracket and the
    end of the text. *)
Fixpoint parse_features (fuel : nat) (s : string) : option (list WaterFeature) :=
  match fuel with
  | O => None
  | S k =>
      '(w, s) ← parse_feature s;
      match expect "," s with
      | Some s => ws ← parse_features k s; Some (w :: ws)
      | None =>
          s ← expect "]" s;
          if String.eqb (skip_blanks s) "" then Some [w] else None
      end
  end.

(** [json.load(f)] for a text holding a list of water sources, each a
    dictionary with the five keys in the order they are written, laid out
    with any blanks; [None] for any other text. *)
Definition load (text : string) : option (list WaterFeature) :=
  s ← expect "[" text;
  match expect "]" s with
  | Some s => if String.eqb (skip_blanks s) "" then Some [] else None
  | None => parse_features (String.length text) s
  end.

(** The coordinates of a water source have finite decimal expansions. *)
Definition decimal_feature (w : WaterFeature) : Prop :=
  finite_decimal (wf_lat w) /\ finite_decimal (wf_lon w).

(** The coordinates of a water source are fractions in lowest terms. *)
Definition lowest_terms (w : WaterFeature) : Prop :=
  Qred (wf_lat w) = wf_lat w /\ Qred (wf_lon w) = wf_lon w.

(** The dictionary as [json.load] gives it back: the same numbers, in
    lowest terms, and the same strings. *)
Definition reloaded (w : WaterFeature) : WaterFeature :=
  mkWaterFeature (Qred (wf_lat w)) (Qred (wf_lon w))
    (wf_name w) (wf_type w) (wf_source w).

(** Two dictionaries with equal values under every key. *)
Definition same_feature (w w' : WaterFeature) : Prop :=
  (wf_lat w == wf_lat w')%Q /\ (wf_lon w == wf_lon w')%Q
  /\ wf_name w = wf_name w' /\ wf_type w = wf_type w'
  /\ wf_source w = wf_source w'.

End Json.

(** ** Coordinates from the CSV files *)

(** A data frame: its column names and its rows, each row read by column
    name. *)
Record DataFrame := mkDataFrame {
  df_columns : list string;
  df_rows : list (string -> Q)
}.

Inductive CsvFile :=
| CsvMissing
| CsvUnreadable
| CsvFrame (df : DataFrame).

Definition csv_files : list string :=
  [ "osm_tarim_alanlari.csv"; "turkiye_detayli_tarim_alanlari.csv";
    "AKILLI_tarimsal_analiz.csv" ].

Definition has_column (df : DataFrame) (c : string) : bool :=
  bool_decide (c ∈ df_columns df).

Definition coordinates_of_frame (df : DataFrame) : list (Q * Q) :=
  if has_column df "lat" && has_column df "lon" then
    map (fun row => (row "lat", row "lon")) (df_rows df)
  else if has_column df "latitude" && has_column df "longitude" then
    map (fun row => (row "latitude", row "longitude")) (df_rows df)
  else [].

Definition sample_coordinates : list (Q * Q) :=
  [ (399334 # 10000, 328597 # 10000); (410082 # 10000, 289784 # 10000);
    (384237 # 10000, 271428 # 10000); (369864 # 10000, 353253 # 10000);
    (401885 # 10000, 290610 # 10000); (379144 # 10000, 402306 # 10000);
    (412867 # 10000, 363300 # 10000); (368000 # 10000, 346333 # 10000);
    (390571 # 10000, 361713 # 10000); (407214 # 10000, 418005 # 10000);
    (407522 # 10000, 418280 # 10000) ]%Q.

(** [load_coordinates_from_csv()], the disk being the state of each named
    file. *)
Definition load_coordinates_from_csv (disk : string -> CsvFile) : list (Q * Q) :=
  let all_coordinates :=
    flat_map (fun csv_file =>
                match disk csv_file with
                | CsvFrame df => coordinates_of_frame df
                | _ => []
                end) csv_files in
  match all_coordinates with
  | [] => sample_coordinates
  | _ => all_coordinates
  end.

(** [l[:n]] for an [int] [n]; a negative [n] counts from the end. *)
Definition py_slice_to {A} (n : Z) (l : list A) : list A :=
  if 0 <=? n then take (Z.to_nat n) l
  else take (Z.to_nat (Z.of_nat (length l) + n)) l.

(** ** Batch analysis endpoint *)

(** A number that is an [int] or a [float] at run time. *)
Inductive PyNum :=
| PyInt (z : Z)
| PyFloat (q : Q).

Definition str_num (n : PyNum) : string :=
  match n with
  | PyInt z => Text.str_int z
  | PyFloat q => Text.str_float q
  end.

(** One entry of [top_areas_formatted]. *)
Module Area.
Record AreaDetail := mk {
  rank : Z;
  coordinates : string;
  score : Z;
  category : string;
  water : string;
  slope : string;
  elevation : string;
  soil : string;
  precipitation : string;
  sunshine : string;
  details : string
}.
End Area.

Record Summary := mkSummary {
  total_analyzed : Z;
  productive_areas : Z;
  success_rate : PyNum
}.

(** The dictionary returned by the endpoint: the two-key failure answer, or
    the full answer. *)
Inductive Response :=
| Failure (message : string)
| Success (message analysis_type : string) (summary : Summary)
    (top_areas : list Area.AreaDetail) (processing_time : Q)
    (visual_output : string).

(** [response.get('summary')] and [response.get('top_areas', [])]. *)
Definition response_summary (r : Response) : option Summary :=
  match r with
  | Success _ _ summary _ _ _ => Some summary
  | Failure _ => None
  end.

Definition response_top_areas (r : Response) : list Area.AreaDetail :=
  match r with
  | Success _ _ _ top_areas _ _ => top_areas
  | Failure _ => []
  end.

Definition nl : string := String (ascii_of_nat 10) "".

Fixpoint repeat_string (s : string) (n : nat) : string :=
  match n with
  | O => ""
  | S k => s +:+ repeat_string s k
  end.

(** The dictionary built for one [area] at position [i] of
    [enumerate(suitable_areas[:10], 1)]. *)
Definition format_area (i : Z) (area : EnhancedRow) : Area.AreaDetail :=
  let row := attrs area in
  {| Area.rank := i;
     Area.coordinates :=
       Text.fmt_f 4 (latitude row) +:+ ", " +:+ Text.fmt_f 4 (longitude row);
     Area.score := suitability_score area;
     Area.category := suitability_category area;
     Area.water :=
       Text.str_float (water_distance_km row) +:+ "km ("
         +:+ nearest_water_name row +:+ ")";
     Area.slope := Text.str_float (slope_percent row) +:+ "%";
     Area.elevation := Text.str_int (elevation_m row) +:+ "m";
     Area.soil :=
       soil_type row +:+ " (pH:" +:+ Text.str_float (soil_ph row) +:+ ")";
     Area.precipitation := Text.str_int (annual_precipitation_mm row) +:+ "mm";
     Area.sunshine := Text.str_int (sunshine_hours row) +:+ " hours";
     Area.details := detailed_reasons area |}.

(** The loop [for i, area in enumerate(suitable_areas[:10], 1)]. *)
Definition format_top_areas (suitable_areas : list EnhancedRow)
  : list Area.AreaDetail :=
  imap (fun i area => format_area (Z.of_nat i + 1) area) (take 10 suitable_areas).

Definition render_area (area : Area.AreaDetail) : string :=
  "📍 " +:+ Text.str_int (Area.rank area) +:+ ". " +:+ Area.coordinates area +:+ nl
  +:+ "   🎯 PRODUCTIVITY SCORE: " +:+ Text.str_int (Area.score area) +:+ "/100" +:+ nl
  +:+ "   📈 CATEGORY: " +:+ Area.category area +:+ nl
  +:+ "   💧 WATER: " +:+ Area.water area +:+ nl
  +:+ "   📐 SLOPE: " +:+ Area.slope area +:+ nl
  +:+ "   ⛰ ELEVATION: " +:+ Area.elevation area +:+ nl
  +:+ "   🌱 SOIL: " +:+ Area.soil area +:+ nl
  +:+ "   🌧 PRECIPITATION: " +:+ Area.precipitation area +:+ nl
  +:+ "   ☀ SUNSHINE: " +:+ Area.sunshine area +:+ nl
  +:+ "   📝 DETAILS: " +:+ Area.details area +:+ nl +:+ nl.

(** [create_visual_output(analysis_result)], the argument being the three
    keys of [analysis_data]. *)
Definition create_visual_output (summary : Summary)
  (top_areas : list Area.AreaDetail) (processing_time : Q) : string :=
  "🌾 COMPREHENSIVE AGRICULTURAL PRODUCTIVITY ANALYSIS" +:+ nl
  +:+ repeat_string "=" 65 +:+ nl
  +:+ "📊 COMPREHENSIVE PRODUCTIVITY REPORT:" +:+ nl
  +:+ "Total analyzed: " +:+ Text.str_int (total_analyzed summary) +:+ nl
  +:+ "Productive areas: " +:+ Text.str_int (productive_areas summary) +:+ nl
  +:+ "Success rate: " +:+ str_num (success_rate summary) +:+ "%" +:+ nl +:+ nl
  +:+ "🏆 TOP 3 MOST PRODUCTIVE AREAS:" +:+ nl +:+ nl
  +:+ String.concat "" (map render_area (take 3 top_areas))
  +:+ "⏱ Total time: " +:+ Text.str_float processing_time +:+ " seconds" +:+ nl.

(** The futures yielded by [as_completed], given the order in which the
    tasks finish (positions in the list of submitted tasks). *)
Definition as_completed {A} (order : list nat) (futures : list A) : list A :=
  omap (fun i => futures !! i) order.

(** The loop [for future in as_completed(...)], from the state
    [(suitable_areas, processed)]; it stops at the [break]. *)
Fixpoint collect (max_areas : Z) (completed : list (option EnhancedRow))
  (suitable_areas : list EnhancedRow) (processed : Z)
  : list EnhancedRow * Z :=
  match completed with
  | [] => (suitable_areas, processed)
  | result :: rest =>
      let processed := processed + 1 in
      match result with
      | Some row =>
          if 60 <=? suitability_score row then
            let suitable_areas := (suitable_areas ++ [row])%list in
            if max_areas <=? Z.of_nat (length suitable_areas) then
              (suitable_areas, processed)
            else collect max_areas rest suitable_areas processed
          else collect max_areas rest suitable_areas processed
      | None => collect max_areas rest suitable_areas processed
      end
  end.

(** The qualifying results among the completed ones, in completion order:
    the rows with a score of at least 60. *)
Definition qualifying (completed : list (option EnhancedRow))
  : list EnhancedRow :=
  omap (fun result : option EnhancedRow =>
          match result with
          | Some row => if 60 <=? suitability_score row then Some row else None
          | None => None
          end) completed.

(** [round(len(suitable_areas) / processed * 100, 2) if processed > 0 else 0] *)
Definition success_rate_of (n_suitable processed : Z) : PyNum :=
  if 0 <? processed then
    PyFloat (Num.py_round2 (inject_Z n_suitable / inject_Z processed * 100)%Q)
  else PyInt 0.

(** [ThreadPoolExecutor(max_workers=6)] *)
Definition max_workers : Z := 6.

(** Everything the endpoint reads from outside during one request. *)
Record Env := mkEnv {
  env_cache : CacheFile;
  env_http : HttpOutcome;
  env_write : WriteOutcome;
  env_disk : string -> CsvFile;
  (** the draws seen by the task submitted at each position *)
  env_rng : nat -> Rand.Rng;
  (** the order in which the tasks finish *)
  env_completion : list nat;
  (** [time.time() - start_time] *)
  env_elapsed : Q
}.

Section Endpoint.

Variable np_sqrt : Q -> Q.
Variable json_dump : list WaterFeature -> string.
Variable json_load : string -> option (list WaterFeature).

(** The results of the submitted tasks, in submission order. *)
Definition run_tasks (env : Env) (water_sources : list WaterFeature)
  (coordinates : list (Q * Q)) : list (option EnhancedRow) :=
  let coord_list :=
    map (fun c => (fst c, snd c, (∅ : gmap string string))) coordinates in
  imap (fun i coord =>
          Rand.run (analyze_coordinate_with_real_water np_sqrt coord water_sources)
                   (env_rng env i))
       coord_list.

(** The coordinates analysed: the loaded ones, cut to [sample_size]. *)
Definition sampled_coordinates (sample_size : Z) (env : Env) : list (Q * Q) :=
  let coordinates := load_coordinates_from_csv (env_disk env) in
  if sample_size <? Z.of_nat (length coordinates) then
    py_slice_to sample_size coordinates
  else coordinates.

(** The state [(suitable_areas, processed)] when the loop over the
    completed futures ends. *)
Definition analysis_loop (max_areas sample_size : Z) (env : Env)
  (water_sources : list WaterFeature) : list EnhancedRow * Z :=
  let futures := run_tasks env water_sources (sampled_coordinates sample_size env) in
  collect max_areas (as_completed (env_completion env) futures) [] 0.

(** The catalog the endpoint works with: what the loader returns. *)
Definition catalog_of (env : Env) : list WaterFeature :=
  (get_all_water_sources_from_osm json_dump json_load
     (env_cache env) (env_http env) (env_write env)).1.

(** [comprehensive_real_analysis(max_areas, sample_size)] *)
Definition comprehensive_real_analysis (max_areas sample_size : Z) (env : Env)
  : Response :=
  let water_sources :=
    fst (get_all_water_sources_from_osm json_dump json_load
           (env_cache env) (env_http env) (env_write env)) in
  match water_sources with
  | [] => Failure "Water sources could not be retrieved"
  | _ =>
      let '(suitable_areas, processed) :=
        analysis_loop max_areas sample_size env water_sources in
      let processing_time := env_elapsed env in
      let top_areas_formatted := format_top_areas suitable_areas in
      let summary := {|
        total_analyzed := processed;
        productive_areas := Z.of_nat (length suitable_areas);
        success_rate :=
          success_rate_of (Z.of_nat (length suitable_areas)) processed
      |} in
      let visual_output :=
        create_visual_output summary top_areas_formatted
          (Num.py_round2 processing_time) in
      Success "Comprehensive real-data analysis completed"
        "REAL_DATA_ANALYSIS" summary top_areas_formatted processing_time
        visual_output
  end.

End Endpoint.

(** ** The rule table of the scorer, as the specification words it *)

Module RuleTable.

(** Water distance: 25 points up to 5 km, 18 points up to 10 km. *)
Definition water_tier (d : Q) (w : Z) : Prop :=
  ((d <= 5)%Q /\ w = 25)
  \/ (~ (d <= 5)%Q /\ (d <= 10)%Q /\ w = 18)
  \/ (~ (d <= 10)%Q /\ w = 0).

(** Slope: 20 points up to 5 %, 15 points up to 10 %. *)
Definition slope_tier (x : Q) (s : Z) : Prop :=
  ((x <= 5)%Q /\ s = 20)
  \/ (~ (x <= 5)%Q /\ (x <= 10)%Q /\ s = 15)
  \/ (~ (x <= 10)%Q /\ s = 0).

(** Elevation: 15 points up to 800 m, 10 points up to 1500 m. *)
Definition elevation_tier (m : Z) (e : Z) : Prop :=
  (m <= 800 /\ e = 15) \/ (800 < m <= 1500 /\ e = 10) \/ (1500 < m /\ e = 0).

(** Soil productivity: 10 points for high, 7 points for medium-high. *)
Definition soil_tier (label : string) (q : Z) : Prop :=
  (label = "high" /\ q = 10)
  \/ (label = "medium-high" /\ q = 7)
  \/ (label <> "high" /\ label <> "medium-high" /\ q = 0).

(** Precipitation: 8 points within 400..800 mm. *)
Definition precipitation_tier (mm : Z) (p : Z) : Prop :=
  (400 <= mm <= 800 /\ p = 8) \/ (~ 400 <= mm <= 800 /\ p = 0).

(** Sunshine: 7 points within 1800..2800 hours. *)
Definition sunshine_tier (hours : Z) (h : Z) : Prop :=
  (1800 <= hours <= 2800 /\ h = 7) \/ (~ 1800 <= hours <= 2800 /\ h = 0).

(** Landcover: 8 points when the lower-cased label contains one of the
    keywords. *)
Definition landcover_tier (label : string) (l : Z) : Prop :=
  ((exists k, In k ["farm"; "agricultural"; "orchard"; "vineyard"]
              /\ Text.is_substring k (Text.lower label) = true) /\ l = 8)
  \/ ((forall k, In k ["farm"; "agricultural"; "orchard"; "vineyard"]
                 -> Text.is_substring k (Text.lower label) = false) /\ l = 0).

End RuleTable.

(** ** Sample inputs *)

Module Samples.

(** A row with the attributes of the worked example of the scorer. *)
Definition farmland_row : AttrRow :=
  mkAttrRow (399334 # 10000) (328597 # 10000) 100 2 3 "Kizilirmak" "river"
    (12 # 10) "Loamy" (68 # 10) "high" 600 2000 "Continental"
    (Some "Farmland") "" "OSM".

(** A square root on the rationals, rounded down to six decimals. *)
Definition sqrt_6dp (q : Q) : Q :=
  Qmake (Z.sqrt (Qnum q * Zpos (Qden q) * 10 ^ 12)) (Qden q * 10 ^ 6).

(** A JSON codec for lists of water sources, in the layout of
    [json.dump(_, indent=2)], for names without quotes or escapes. *)
Definition dq : string := String (ascii_of_nat 34) "".

Definition json_string (s : string) : string := dq +:+ s +:+ dq.

Definition json_member (key value : string) : string :=
  "    " +:+ json_string key +:+ ": " +:+ value.

Definition json_feature (w : WaterFeature) : string :=
  "  {" +:+ nl
  +:+ json_member "lat" (Text.str_float (wf_lat w)) +:+ "," +:+ nl
  +:+ json_member "lon" (Text.str_float (wf_lon w)) +:+ "," +:+ nl
  +:+ json_member "name" (json_string (wf_name w)) +:+ "," +:+ nl
  +:+ json_member "type" (json_string (wf_type w)) +:+ "," +:+ nl
  +:+ json_member "source" (json_string (wf_source w)) +:+ nl
  +:+ "  }".

Definition json_dump (ws : list WaterFeature) : string :=
  match ws with
  | [] => "[]"
  | _ => "[" +:+ nl +:+ Text.join ("," +:+ nl) (map json_feature ws) +:+ nl +:+ "]"
  end.

Definition is_blank (c : ascii) : bool :=
  let n := nat_of_ascii c in
  (n =? 32)%nat || (n =? 10)%nat || (n =? 13)%nat || (n =? 9)%nat.

Definition is_digit (c : ascii) : bool :=
  let n := nat_of_ascii c in (48 <=? n)%nat && (n <=? 57)%nat.

Fixpoint skip_blanks (s : string) : string :=
  match s with
  | String c s' => if is_blank c then skip_blanks s' else s
  | EmptyString => s
  end.

Fixpoint string_drop (n : nat) (s : string) : string :=
  match n, s with
  | S k, String _ s' => string_drop k s'
  | _, _ => s
  end.

(** The rest of [s] after blanks and the token [tok]. *)
Definition expect (tok : string) (s : string) : option string :=
  let s := skip_blanks s in
  if String.prefix tok s then Some (string_drop (String.length tok) s) else None.

(** The longest prefix of characters satisfying [p], and the rest. *)
Fixpoint read_while (p : ascii -> bool) (s : string) : string * string :=
  match s with
  | String c s' =>
      if p c then let '(taken, rest) := read_while p s' in (String c taken, rest)
      else (EmptyString, s)
  | EmptyString => (EmptyString, s)
  end.

Fixpoint digits_value (s : string) (acc : Z) : Z :=
  match s with
  | String c s' => digits_value s' (10 * acc + Z.of_nat (nat_of_ascii c - 48))
  | EmptyString => acc
  end.

(** A JSON number of the shape [-?digits.digits]. *)
Definition parse_number (s : string) : option (Q * string) :=
  let s := skip_blanks s in
  let '(negative, s) :=
    match s with
    | String "-" s' => (true, s')
    | _ => (false, s)
    end in
  let '(int_digits, s) := read_while is_digit s in
  match int_digits, s with
  | String _ _, String "." s' =>
      let '(frac_digits, rest) := read_while is_digit s' in
      let k := String.length frac_digits in
      let n := digits_value frac_digits (digits_value int_digits 0) in
      Some (Qmake (if negative then - n else n) (Pos.pow 10 (Pos.of_nat k)), rest)
  | _, _ => None
  end.

Definition parse_string (s : string) : option (string * string) :=
  match expect dq s with
  | Some s =>
      let '(body, rest) :=
        read_while (fun c => negb (Ascii.eqb c (ascii_of_nat 34))) s in
      match expect dq rest with
      | Some rest => Some (body, rest)
      | None => None
      end
  | None => None
  end.

Definition parse_member {A} (key : string)
  (value : string -> option (A * string)) (s : string) : option (A * string) :=
  s ← expect (json_string key) s; s ← expect ":" s; value s.

Definition parse_feature (s : string) : option (WaterFeature * string) :=
  s ← expect "{" s;
  '(lat, s) ← parse_member "lat" parse_number s; s ← expect "," s;
  '(lon, s) ← parse_member "lon" parse_number s; s ← expect "," s;
  '(name, s) ← parse_member "name" parse_string s; s ← expect "," s;
  '(type, s) ← parse_member "type" parse_string s; s ← expect "," s;
  '(source, s) ← parse_member "source" parse_string s;
  s ← expect "}" s;
  Some (mkWaterFeature lat lon name type source, s).

Fixpoint parse_features (fuel : nat) (s : string) : option (list WaterFeature) :=
  match fuel with
  | O => None
  | S fuel =>
      '(w, s) ← parse_feature s;
      match expect "," s with
      | Some s => ws ← parse_features fuel s; Some (w :: ws)
      | None =>
          s ← expect "]" s;
          if String.eqb (skip_blanks s) "" then Some [w] else None
      end
  end.

Definition json_load (text : string) : option (list WaterFeature) :=
  s ← expect "[" text;
  match expect "]" s with
  | Some s => if String.eqb (skip_blanks s) "" then Some [] else None
  | None => parse_features (String.length text) s
  end.

(** Two water sources, the first at the first fallback coordinate. *)
Definition two_sources : list WaterFeature :=
  [ mkWaterFeature (399334 # 10000) (328597 # 10000) "Ankara Cayi" "river"
      "OpenStreetMap";
    mkWaterFeature (410082 # 10000) (289784 # 10000) "Halic" "lake"
      "OpenStreetMap" ].

(** Three elements of an answer of the query service: a named river, an
    unnamed reservoir, and a way with no recognised tag. *)
Definition three_elements : list Element :=
  [ mkElement (Some (398 # 10, 331 # 10))
      (Some (<["waterway" := "river"]> (<["name" := "Kizilirmak"]> ∅)));
    mkElement (Some (405 # 10, 301 # 10))
      (Some (<["water" := "reservoir"]> ∅));
    mkElement (Some (371 # 10, 352 # 10))
      (Some (<["highway" := "path"]> ∅)) ].

(** A generator whose draws are all [u]. *)
Definition constant_rng (u : Q) : Rand.Rng := fun _ => u.

(** A request served from a cache holding [two_sources]; no CSV file exists,
    every draw is 0, and the tasks finish in submission order. *)
Definition cached_env : Env :=
  mkEnv (CacheContent (json_dump two_sources)) RequestRaises WriteSucceeds
    (fun _ => CsvMissing) (fun _ => constant_rng 0) (seq 0 11) (1234 # 1000).

(** The row computed at the first fallback coordinate over [two_sources]
    when every draw is 1/2. *)
Definition ankara_row : EnhancedRow :=
  mkEnhancedRow
    (mkAttrRow (399334 # 10000) (328597 # 10000) 500 (75 # 10) (0 # 10)
       "Ankara Cayi" "river" (76 # 10) "Loamy-Sandy" (65 # 10) "medium"
       850 1950 "Black Sea" (Some "agriculture") "" "OSM")
    62 "very close to water, medium slope, low elevation, ideal sunshine"
    "💧 Water: 0.0km (Ankara Cayi) - EXCELLENT | 📐 Slope: 7.5% - GOOD | ⛰ Elevation: 500m - EXCELLENT | ☀ Sunshine: 1950 hours - EXCELLENT"
    "MODERATELY PRODUCTIVE".

(** The row computed at the same coordinate, with the same draws, over an
    empty catalog. *)
Definition unknown_water_row : EnhancedRow :=
  mkEnhancedRow
    (mkAttrRow (399334 # 10000) (328597 # 10000) 500 (75 # 10) (0 # 10)
       "unknown" "unknown" (76 # 10) "Loamy-Sandy" (65 # 10) "medium"
       850 1950 "Black Sea" (Some "agriculture") "" "OSM")
    62 "very close to water, medium slope, low elevation, ideal sunshine"
    "💧 Water: 0.0km (unknown) - EXCELLENT | 📐 Slope: 7.5% - GOOD | ⛰ Elevation: 500m - EXCELLENT | ☀ Sunshine: 1950 hours - EXCELLENT"
    "MODERATELY PRODUCTIVE".

(** A disk on which only the second CSV file exists, with the columns
    [latitude] and [longitude] and two rows. *)
Definition one_csv_disk (csv_file : string) : CsvFile :=
  if String.eqb csv_file "turkiye_detayli_tarim_alanlari.csv" then
    CsvFrame
      (mkDataFrame ["name"; "latitude"; "longitude"]
         [ (fun c => if String.eqb c "latitude" then 38 else 27);
           (fun c => if String.eqb c "latitude" then 40 else 33) ]%Q)
  else CsvMissing.

(** The same request, the second task finishing before the first. *)
Definition reordered_env : Env :=
  mkEnv (CacheContent (json_dump two_sources)) RequestRaises WriteSucceeds
    (fun _ => CsvMissing) (fun _ => constant_rng 0)
    [1; 0; 2; 3; 4; 5; 6; 7; 8; 9; 10]%nat (1234 # 1000).

(** A request that finds no cache and whose query fails: the catalog is
    empty. *)
Definition empty_catalog_env : Env :=
  mkEnv CacheAbsent RequestRaises WriteSucceeds
    (fun _ => CsvMissing) (fun _ => constant_rng 0) (seq 0 11) (1234 # 1000).

End Samples.

(** * Properties *)

(** ** The scorer *)

Section ScorerFacts.

Import Scorer.

Lemma score_water_points row t :
  score (score_water row t) = score t + water_points (water_distance_km row).
Proof.
  unfold score_water, water_points.
  destruct (Qle_bool (water_distance_km row) 5); [reflexivity|].
  destruct (Qle_bool (water_distance_km row) 10); simpl; lia.
Qed.

Lemma score_slope_points row t :
  score (score_slope row t) = score t + slope_points (slope_percent row).
Proof.
  unfold score_slope, slope_points.
  destruct (Qle_bool (slope_percent row) 5); [reflexivity|].
  destruct (Qle_bool (slope_percent row) 10); simpl; lia.
Qed.

Lemma score_elevation_points row t :
  score (score_elevation row t) = score t + elevation_points (elevation_m row).
Proof.
  unfold score_elevation, elevation_points.
  destruct (elevation_m row <=? 800); [reflexivity|].
  destruct (elevation_m row <=? 1500); simpl; lia.
Qed.

Lemma score_soil_points row t :
  score (score_soil row t) = score t + soil_points (soil_productivity row).
Proof.
  unfold score_soil, soil_points.
  destruct (String.eqb (soil_productivity row) "high"); [reflexivity|].
  destruct (String.eqb (soil_productivity row) "medium-high"); simpl; lia.
Qed.

Lemma score_precipitation_points row t :
  score (score_precipitation row t)
  = score t + precipitation_points (annual_precipitation_mm row).
Proof.
  unfold score_precipitation, precipitation_points.
  destruct ((400 <=? annual_precipitation_mm row)
            && (annual_precipitation_mm row <=? 800)); simpl; lia.
Qed.

Lemma score_sunshine_points row t :
  score (score_sunshine row t) = score t + sunshine_points (sunshine_hours row).
Proof.
  unfold score_sunshine, sunshine_points.
  destruct ((1800 <=? sunshine_hours row) && (sunshine_hours row <=? 2800));
    simpl; lia.
Qed.

Lemma score_landcover_points row t :
  score (score_landcover row t) = score t + landcover_points (lc_type_of row).
Proof.
  unfold score_landcover, landcover_points.
  destruct (landcover_match (lc_type_of row)); simpl; lia.
Qed.

(** The score is the sum of the seven per-criterion contributions. *)
Lemma score_decomposition row :
  (calculate_comprehensive_suitability row).1.1
  = water_points (water_distance_km row)
    + slope_points (slope_percent row)
    + elevation_points (elevation_m row)
    + soil_points (soil_productivity row)
    + precipitation_points (annual_precipitation_mm row)
    + sunshine_points (sunshine_hours row)
    + landcover_points (lc_type_of row).
Proof.
  unfold calculate_comprehensive_suitability, tally_of. cbn [fst].
  rewrite score_landcover_points, score_sunshine_points,
    score_precipitation_points, score_soil_points, score_elevation_points,
    score_slope_points, score_water_points.
  reflexivity.
Qed.

Lemma water_points_tier d :
  water_points d = 25 \/ water_points d = 18 \/ water_points d = 0.
Proof.
  unfold water_points. destruct (Qle_bool d 5); [tauto|].
  destruct (Qle_bool d 10); tauto.
Qed.

Lemma slope_points_tier x :
  slope_points x = 20 \/ slope_points x = 15 \/ slope_points x = 0.
Proof.
  unfold slope_points. destruct (Qle_bool x 5); [tauto|].
  destruct (Qle_bool x 10); tauto.
Qed.

Lemma elevation_points_tier e :
  elevation_points e = 15 \/ elevation_points e = 10 \/ elevation_points e = 0.
Proof.
  unfold elevation_points. destruct (e <=? 800); [tauto|].
  destruct (e <=? 1500); tauto.
Qed.

Lemma soil_points_tier q :
  soil_points q = 10 \/ soil_points q = 7 \/ soil_points q = 0.
Proof.
  unfold soil_points. destruct (String.eqb q "high"); [tauto|].
  destruct (String.eqb q "medium-high"); tauto.
Qed.

Lemma precipitation_points_tier p :
  precipitation_points p = 8 \/ precipitation_points p = 0.
Proof. unfold precipitation_points. destruct (_ && _); tauto. Qed.

Lemma sunshine_points_tier h :
  sunshine_points h = 7 \/ sunshine_points h = 0.
Proof. unfold sunshine_points. destruct (_ && _); tauto. Qed.

Lemma landcover_points_tier lc :
  landcover_points lc = 8 \/ landcover_points lc = 0.
Proof. unfold landcover_points. destruct (landcover_match lc); tauto. Qed.

Lemma water_points_spec d : RuleTable.water_tier d (water_points d).
Proof.
  unfold RuleTable.water_tier, water_points.
  destruct (Qle_bool d 5) eqn:H5.
  - left. split; [by apply Qle_bool_iff|done].
  - right. assert (~ (d <= 5)%Q) by (rewrite <- Qle_bool_iff; congruence).
    destruct (Qle_bool d 10) eqn:H10.
    + left. repeat split; [done|by apply Qle_bool_iff].
    + right. split; [|done]. rewrite <- Qle_bool_iff; congruence.
Qed.

Lemma slope_points_spec x : RuleTable.slope_tier x (slope_points x).
Proof.
  unfold RuleTable.slope_tier, slope_points.
  destruct (Qle_bool x 5) eqn:H5.
  - left. split; [by apply Qle_bool_iff|done].
  - right. assert (~ (x <= 5)%Q) by (rewrite <- Qle_bool_iff; congruence).
    destruct (Qle_bool x 10) eqn:H10.
    + left. repeat split; [done|by apply Qle_bool_iff].
    + right. split; [|done]. rewrite <- Qle_bool_iff; congruence.
Qed.

Lemma elevation_points_spec m : RuleTable.elevation_tier m (elevation_points m).
Proof.
  unfold RuleTable.elevation_tier, elevation_points.
  destruct (Z.leb_spec m 800); [left; lia|].
  destruct (Z.leb_spec m 1500); [right; left; lia|right; right; lia].
Qed.

Lemma soil_points_spec label : RuleTable.soil_tier label (soil_points label).
Proof.
  unfold RuleTable.soil_tier, soil_points.
  destruct (String.eqb_spec label "high"); [left; done|].
  destruct (String.eqb_spec label "medium-high"); [right; left; done|].
  right; right; done.
Qed.

Lemma precipitation_points_spec mm :
  RuleTable.precipitation_tier mm (precipitation_points mm).
Proof.
  unfold RuleTable.precipitation_tier, precipitation_points.
  destruct (Z.leb_spec 400 mm), (Z.leb_spec mm 800); simpl;
    [left|right|right|right]; split; lia.
Qed.

Lemma sunshine_points_spec hours :
  RuleTable.sunshine_tier hours (sunshine_points hours).
Proof.
  unfold RuleTable.sunshine_tier, sunshine_points.
  destruct (Z.leb_spec 1800 hours), (Z.leb_spec hours 2800); simpl;
    [left|right|right|right]; split; lia.
Qed.

Lemma landcover_points_spec label :
  RuleTable.landcover_tier label (landcover_points (Text.lower label)).
Proof.
  unfold RuleTable.landcover_tier, landcover_points, landcover_match,
    landcover_keywords.
  destruct (existsb _ _) eqn:E.
  - left. split; [|done]. apply existsb_exists in E. exact E.
  - right. split; [|done]. intros k Hk.
    destruct (Text.is_substring k (Text.lower label)) eqn:Ek; [|done].
    assert (existsb (fun keyword => Text.is_substring keyword (Text.lower label))
              ["farm"; "agricultural"; "orchard"; "vineyard"] = true)
      by (apply existsb_exists; eauto).
    congruence.
Qed.

End ScorerFacts.

(** C1.  For every row, the score returned by
    [calculate_comprehensive_suitability] is [w + s + e + q + p + h + l],
    where each summand is the contribution of one criterion of the rule table
    and takes at most one tier: [w] is 25, 18 or 0 (water), [s] is 20, 15 or 0
    (slope), [e] is 15, 10 or 0 (elevation), [q] is 10, 7 or 0 (soil), [p] is
    8 or 0 (precipitation), [h] is 7 or 0 (sunshine), [l] is 8 or 0
    (landcover); hence the score lies between 0 and 93. *)
Theorem C1_score_tier_sum (row : AttrRow) :
  exists w s e q p h l : Z,
    (RuleTable.water_tier (water_distance_km row) w
       /\ (w = 25 \/ w = 18 \/ w = 0)) /\
    (RuleTable.slope_tier (slope_percent row) s
       /\ (s = 20 \/ s = 15 \/ s = 0)) /\
    (RuleTable.elevation_tier (elevation_m row) e
       /\ (e = 15 \/ e = 10 \/ e = 0)) /\
    (RuleTable.soil_tier (soil_productivity row) q
       /\ (q = 10 \/ q = 7 \/ q = 0)) /\
    (RuleTable.precipitation_tier (annual_precipitation_mm row) p
       /\ (p = 8 \/ p = 0)) /\
    (RuleTable.sunshine_tier (sunshine_hours row) h
       /\ (h = 7 \/ h = 0)) /\
    (RuleTable.landcover_tier (default "" (landcover_type row)) l
       /\ (l = 8 \/ l = 0)) /\
    (Scorer.calculate_comprehensive_suitability row).1.1
      = w + s + e + q + p + h + l /\
    0 <= (Scorer.calculate_comprehensive_suitability row).1.1 <= 93.
Proof.
  exists (Scorer.water_points (water_distance_km row)),
    (Scorer.slope_points (slope_percent row)),
    (Scorer.elevation_points (elevation_m row)),
    (Scorer.soil_points (soil_productivity row)),
    (Scorer.precipitation_points (annual_precipitation_mm row)),
    (Scorer.sunshine_points (sunshine_hours row)),
    (Scorer.landcover_points (Scorer.lc_type_of row)).
  rewrite score_decomposition.
  pose proof (water_points_tier (water_distance_km row)).
  pose proof (slope_points_tier (slope_percent row)).
  pose proof (elevation_points_tier (elevation_m row)).
  pose proof (soil_points_tier (soil_productivity row)).
  pose proof (precipitation_points_tier (annual_precipitation_mm row)).
  pose proof (sunshine_points_tier (sunshine_hours row)).
  pose proof (landcover_points_tier (Scorer.lc_type_of row)).
  pose proof (water_points_spec (water_distance_km row)).
  pose proof (slope_points_spec (slope_percent row)).
  pose proof (elevation_points_spec (elevation_m row)).
  pose proof (soil_points_spec (soil_productivity row)).
  pose proof (precipitation_points_spec (annual_precipitation_mm row)).
  pose proof (sunshine_points_spec (sunshine_hours row)).
  pose proof (landcover_points_spec (default "" (landcover_type row))).
  repeat split; try assumption; lia.
Qed.

(** ** The categories *)

Lemma categorize_cases (score : Z) :
  (80 <= score /\ Scorer.categorize_suitability score = "HIGHLY PRODUCTIVE")
  \/ (70 <= score < 80 /\ Scorer.categorize_suitability score = "PRODUCTIVE")
  \/ (60 <= score < 70
       /\ Scorer.categorize_suitability score = "MODERATELY PRODUCTIVE")
  \/ (score < 60 /\ Scorer.categorize_suitability score = "LOW PRODUCTIVITY").
Proof.
  unfold Scorer.categorize_suitability.
  destruct (Z.leb_spec 80 score); [left; split; [lia|done]|].
  destruct (Z.leb_spec 70 score); [right; left; split; [lia|done]|].
  destruct (Z.leb_spec 60 score); [right; right; left; split; [lia|done]|].
  right; right; right; split; [lia|done].
Qed.

(** C2.  [categorize_suitability] is a function on all scores that returns
    "HIGHLY PRODUCTIVE" exactly when [score >= 80], "PRODUCTIVE" exactly when
    [70 <= score < 80], "MODERATELY PRODUCTIVE" exactly when
    [60 <= score < 70] and "LOW PRODUCTIVITY" exactly when [score < 60]; it
    is non-decreasing in the score for the order of the labels; and it maps
    80, 79 and 59 to "HIGHLY PRODUCTIVE", "PRODUCTIVE" and
    "LOW PRODUCTIVITY". *)
Theorem C2_categorize_thresholds :
  (forall score,
     Scorer.categorize_suitability score = "HIGHLY PRODUCTIVE" <-> 80 <= score) /\
  (forall score,
     Scorer.categorize_suitability score = "PRODUCTIVE" <-> 70 <= score < 80) /\
  (forall score,
     Scorer.categorize_suitability score = "MODERATELY PRODUCTIVE"
     <-> 60 <= score < 70) /\
  (forall score,
     Scorer.categorize_suitability score = "LOW PRODUCTIVITY" <-> score < 60) /\
  (forall s1 s2,
     s1 <= s2 ->
     (Scorer.category_rank (Scorer.categorize_suitability s1)
      <= Scorer.category_rank (Scorer.categorize_suitability s2))%nat) /\
  Scorer.categorize_suitability 80 = "HIGHLY PRODUCTIVE" /\
  Scorer.categorize_suitability 79 = "PRODUCTIVE" /\
  Scorer.categorize_suitability 59 = "LOW PRODUCTIVITY".
Proof.
  split; [|split; [|split; [|split; [|split]]]].
  - intros score. destruct (categorize_cases score) as [[? E]|[[? E]|[[? E]|[? E]]]];
      rewrite E; split; intros; first [done | lia].
  - intros score. destruct (categorize_cases score) as [[? E]|[[? E]|[[? E]|[? E]]]];
      rewrite E; split; intros; first [done | lia].
  - intros score. destruct (categorize_cases score) as [[? E]|[[? E]|[[? E]|[? E]]]];
      rewrite E; split; intros; first [done | lia].
  - intros score. destruct (categorize_cases score) as [[? E]|[[? E]|[[? E]|[? E]]]];
      rewrite E; split; intros; first [done | lia].
  - intros s1 s2 Hle.
    destruct (categorize_cases s1) as [[? E1]|[[? E1]|[[? E1]|[? E1]]]];
      destruct (categorize_cases s2) as [[? E2]|[[? E2]|[[? E2]|[? E2]]]];
      rewrite E1, E2; cbn; lia.
  - repeat split.
Qed.

(** ** The worked example *)

(** C9.  A row with water distance 3 km, slope 2 %, elevation 100 m, soil
    productivity "high", precipitation 600 mm, 2000 sunshine hours and
    landcover "Farmland" gets the score 93 = 25+20+15+10+8+7+8, and 93 is in
    the category "HIGHLY PRODUCTIVE". *)
Theorem C9_worked_example (row : AttrRow) :
  (water_distance_km row == 3)%Q ->
  (slope_percent row == 2)%Q ->
  elevation_m row = 100 ->
  soil_productivity row = "high" ->
  annual_precipitation_mm row = 600 ->
  sunshine_hours row = 2000 ->
  landcover_type row = Some "Farmland" ->
  (Scorer.calculate_comprehensive_suitability row).1.1 = 93
  /\ 93 = 25 + 20 + 15 + 10 + 8 + 7 + 8
  /\ Scorer.categorize_suitability
       (Scorer.calculate_comprehensive_suitability row).1.1
     = "HIGHLY PRODUCTIVE".
Proof.
  intros Hw Hs He Hq Hp Hh Hl.
  assert (E : (Scorer.calculate_comprehensive_suitability row).1.1 = 93).
  { rewrite score_decomposition.
    unfold Scorer.lc_type_of. rewrite He, Hq, Hp, Hh, Hl.
    assert (Scorer.water_points (water_distance_km row) = 25) as ->.
    { unfold Scorer.water_points.
      assert (Qle_bool (water_distance_km row) 5 = true) as ->; [|done].
      apply Qle_bool_iff. rewrite Hw. discriminate. }
    assert (Scorer.slope_points (slope_percent row) = 20) as ->.
    { unfold Scorer.slope_points.
      assert (Qle_bool (slope_percent row) 5 = true) as ->; [|done].
      apply Qle_bool_iff. rewrite Hs. discriminate. }
    reflexivity. }
  rewrite E. repeat split.
Qed.

(** The worked example at a concrete row. *)
Lemma C9_worked_example_witness :
  (Scorer.calculate_comprehensive_suitability Samples.farmland_row).1.1 = 93
  /\ 93 = 25 + 20 + 15 + 10 + 8 + 7 + 8
  /\ Scorer.categorize_suitability
       (Scorer.calculate_comprehensive_suitability Samples.farmland_row).1.1
     = "HIGHLY PRODUCTIVE".
Proof.
  apply (C9_worked_example Samples.farmland_row); reflexivity.
Defined.

(** ** The nearest-water scan *)

Section ScanFacts.

Variable np_sqrt : Q -> Q.
Variables lat lon : Q.

Lemma Qltb_lt a b : Num.Qltb a b = true <-> (a < b)%Q.
Proof.
  unfold Num.Qltb. rewrite negb_true_iff.
  split.
  - intros H. apply Qnot_le_lt. rewrite <- Qle_bool_iff. congruence.
  - intros H. destruct (Qle_bool b a) eqn:E; [|done].
    apply Qle_bool_iff in E. exfalso. by apply (Qlt_not_le a b).
Qed.

Lemma Qltb_ge a b : Num.Qltb a b = false <-> (b <= a)%Q.
Proof.
  unfold Num.Qltb. rewrite negb_false_iff. apply Qle_bool_iff.
Qed.

Lemma first_nearest_start x : first_nearest np_sqrt lat lon [x] 0 x.
Proof.
  repeat split.
  - intros g Hg. apply list_elem_of_singleton in Hg. subst g. apply Qle_refl.
  - intros j g Hj. lia.
Qed.

Lemma first_nearest_replace l i f x :
  first_nearest np_sqrt lat lon l i f ->
  (water_km np_sqrt lat lon x < water_km np_sqrt lat lon f)%Q ->
  first_nearest np_sqrt lat lon (l ++ [x]) (length l) x.
Proof.
  intros (Hi & Hmin & Hfirst) E. repeat split.
  - by rewrite list_lookup_middle.
  - intros g Hg. apply elem_of_app in Hg as [Hg|Hg].
    + apply Qlt_le_weak. eapply Qlt_le_trans; [exact E|by apply Hmin].
    + apply list_elem_of_singleton in Hg. subst g. apply Qle_refl.
  - intros j g Hj Hg. rewrite lookup_app_l in Hg by done.
    eapply Qlt_le_trans; [exact E|]. apply Hmin.
    eapply list_elem_of_lookup_2; eauto.
Qed.

Lemma first_nearest_keep l i f x :
  first_nearest np_sqrt lat lon l i f ->
  (water_km np_sqrt lat lon f <= water_km np_sqrt lat lon x)%Q ->
  first_nearest np_sqrt lat lon (l ++ [x]) i f.
Proof.
  intros (Hi & Hmin & Hfirst) E. repeat split.
  - rewrite lookup_app_l; [done|]. by eapply lookup_lt_Some.
  - intros g Hg. apply elem_of_app in Hg as [Hg|Hg].
    + by apply Hmin.
    + apply list_elem_of_singleton in Hg. by subst g.
  - intros j g Hj Hg. apply (Hfirst j g Hj).
    rewrite lookup_app_l in Hg; [done|].
    apply lookup_lt_Some in Hi. lia.
Qed.

Lemma scanned_cons y l st :
  scanned np_sqrt lat lon (y :: l) st
  <-> exists i f, first_nearest np_sqrt lat lon (y :: l) i f
                  /\ st = (Some (water_km np_sqrt lat lon f),
                           entry_of np_sqrt lat lon f).
Proof. reflexivity. Qed.

Lemma scanned_snoc l st x :
  scanned np_sqrt lat lon l st ->
  scanned np_sqrt lat lon (l ++ [x]) (scan_step np_sqrt lat lon st x).
Proof.
  intros H. destruct l as [|y l'].
  - simpl in H. subst st. exists 0%nat, x.
    split; [apply first_nearest_start|reflexivity].
  - apply scanned_cons in H as (i & f & Hf & ->).
    change ((y :: l') ++ [x])%list with (y :: (l' ++ [x]))%list.
    apply scanned_cons.
    change (y :: (l' ++ [x]))%list with ((y :: l') ++ [x])%list.
    unfold scan_step. cbn [fst below].
    destruct (Num.Qltb (water_km np_sqrt lat lon x) (water_km np_sqrt lat lon f))
      eqn:E.
    + apply Qltb_lt in E. exists (length (y :: l')), x.
      split; [by eapply first_nearest_replace|reflexivity].
    + apply Qltb_ge in E. exists i, f.
      split; [by eapply first_nearest_keep|reflexivity].
Qed.

Lemma scanned_fold l :
  scanned np_sqrt lat lon l
    (fold_left (scan_step np_sqrt lat lon) l (None, placeholder)).
Proof.
  induction l as [|x l IH] using rev_ind; [reflexivity|].
  rewrite fold_left_app. cbn [fold_left]. by apply scanned_snoc.
Qed.

End ScanFacts.


(** *** The scan over all float values *)






Section FloatScanFacts.

Variable np_sqrt : Q -> Q.
Variables lat lon : Fp.Float.



End FloatScanFacts.






(** A source at an infinite latitude is skipped: its distance is [+inf],
    which is not below the initial [min_distance]. *)
Example infinite_source_skipped :
  Fp.calculate_distance_to_nearest_water Samples.sqrt_6dp
    (Fp.Num 40) (Fp.Num 30)
    [ Fp.mkSource Fp.PosInf (Fp.Num 30) "far" "lake";
      Fp.mkSource (Fp.Num 40) (Fp.Num 31) "east" "river" ]
  = Fp.mkNearest "east" "river" (Fp.Num (Samples.sqrt_6dp 1 * 111)%Q).
Proof. vm_compute. reflexivity. Qed.

(** On a tie the first of the equally near sources is returned. *)
Example nearest_water_tie :
  calculate_distance_to_nearest_water Samples.sqrt_6dp 40 30
    [ mkWaterFeature 40 31 "east" "river" "OpenStreetMap";
      mkWaterFeature 40 29 "west" "lake" "OpenStreetMap" ]
  = mkNearestWater "east" "river" (Samples.sqrt_6dp ((40 - 40) ^ 2 + (30 - 31) ^ 2) * 111)%Q.
Proof. reflexivity. Qed.

(** ** The per-coordinate analysis *)

Section AnalysisFacts.

Variable np_sqrt : Q -> Q.

Lemma bounding_check_true lat lon :
  bounding_check lat lon = true
  <-> (~ (36 <= lat /\ lat <= 42) /\ (26 <= lon /\ lon <= 45))%Q.
Proof.
  unfold bounding_check.
  rewrite andb_true_iff, negb_true_iff, andb_false_iff, andb_true_iff.
  rewrite !Qle_bool_iff.
  split.
  - intros [[H|H] Hlon]; (split; [|exact Hlon]); intros [H1 H2];
      apply Qle_bool_iff in H1, H2; congruence.
  - intros [Hlat Hlon]. split; [|exact Hlon].
    destruct (Qle_bool 36 lat) eqn:E1; [|by left].
    destruct (Qle_bool lat 42) eqn:E2; [|by right].
    exfalso. apply Hlat. by rewrite <- !Qle_bool_iff.
Qed.

(** Outside the rejected region the analysis returns an enhanced row, built
    from the scorer's triple for its attributes. *)
Lemma analyze_accepts lat lon original_data water_sources g :
  bounding_check lat lon = false ->
  exists row,
    Rand.run (analyze_coordinate_with_real_water np_sqrt
                (lat, lon, original_data) water_sources) g = Some row
    /\ latitude (attrs row) = lat
    /\ longitude (attrs row) = lon
    /\ landcover_type (attrs row)
       = Some (default "agriculture" (original_data !! "type"))
    /\ suitability_score row
       = (Scorer.calculate_comprehensive_suitability (attrs row)).1.1
    /\ suitability_reasons row
       = (Scorer.calculate_comprehensive_suitability (attrs row)).1.2
    /\ detailed_reasons row
       = (Scorer.calculate_comprehensive_suitability (attrs row)).2
    /\ suitability_category row
       = Scorer.categorize_suitability (suitability_score row).
Proof.
  intros Hb. unfold analyze_coordinate_with_real_water, Rand.run.
  rewrite Hb. unfold Rand.bind.
  destruct (quick_elevation_estimate lat lon g) as [elevation g1].
  destruct (quick_slope_estimate elevation lat lon g1) as [slope g2].
  destruct (calculate_realistic_urban_distance np_sqrt lat lon g2) as [urban g3].
  match goal with
  | |- context [Scorer.calculate_comprehensive_suitability ?r] =>
      set (enhanced_row := r)
  end.
  destruct (Scorer.calculate_comprehensive_suitability enhanced_row)
    as [[score reasons] detailed] eqn:E.
  eexists. split; [reflexivity|]. cbn [attrs suitability_score
    suitability_reasons detailed_reasons suitability_category].
  rewrite E. repeat split.
Qed.

Lemma analyze_rejects lat lon original_data water_sources g :
  bounding_check lat lon = true ->
  Rand.run (analyze_coordinate_with_real_water np_sqrt
              (lat, lon, original_data) water_sources) g = None.
Proof.
  intros Hb. unfold analyze_coordinate_with_real_water, Rand.run.
  by rewrite Hb.
Qed.

End AnalysisFacts.

(** C4.  [analyze_coordinate_with_real_water] returns [None] exactly when the
    latitude is outside [36, 42] and the longitude is inside [26, 45];
    consequently a coordinate whose longitude is outside [26, 45] is never
    rejected, whatever its latitude. *)
Theorem C4_bounding_check (np_sqrt : Q -> Q) (lat lon : Q)
  (original_data : gmap string string) (water_sources : list WaterFeature)
  (g : Rand.Rng) :
  (Rand.run (analyze_coordinate_with_real_water np_sqrt
               (lat, lon, original_data) water_sources) g = None
   <-> (~ (36 <= lat /\ lat <= 42) /\ (26 <= lon /\ lon <= 45))%Q)
  /\ (~ (26 <= lon /\ lon <= 45)%Q ->
      is_Some (Rand.run (analyze_coordinate_with_real_water np_sqrt
                           (lat, lon, original_data) water_sources) g)).
Proof.
  assert (Hiff :
    Rand.run (analyze_coordinate_with_real_water np_sqrt
                (lat, lon, original_data) water_sources) g = None
    <-> (~ (36 <= lat /\ lat <= 42) /\ (26 <= lon /\ lon <= 45))%Q).
  { rewrite <- bounding_check_true.
    destruct (bounding_check lat lon) eqn:Hb.
    - split; [done|]. intros _. by apply analyze_rejects.
    - destruct (analyze_accepts np_sqrt lat lon original_data water_sources g Hb)
        as (row & -> & _).
      split; discriminate. }
  split; [exact Hiff|].
  intros Hlon.
  destruct (bounding_check lat lon) eqn:Hb.
  - apply bounding_check_true in Hb. tauto.
  - destruct (analyze_accepts np_sqrt lat lon original_data water_sources g Hb)
      as (row & -> & _).
    by eexists.
Qed.

(** A point on the equator at longitude 100 is analysed; a point at latitude
    50 and longitude 30 is rejected. *)
Example far_point_analysed :
  is_Some (Rand.run (analyze_coordinate_with_real_water Samples.sqrt_6dp
                       (0%Q, 100%Q, ∅) Samples.two_sources)
             (Samples.constant_rng 0)).
Proof. vm_compute. by eexists. Qed.

Example north_point_rejected :
  Rand.run (analyze_coordinate_with_real_water Samples.sqrt_6dp
              (50%Q, 30%Q, ∅) Samples.two_sources) (Samples.constant_rng 0)
  = None.
Proof. reflexivity. Qed.

(** ** The collection loop and the endpoint *)

Lemma collect_elem max_areas completed acc n row :
  row ∈ (collect max_areas completed acc n).1 ->
  row ∈ acc \/ (Some row ∈ completed /\ 60 <= suitability_score row).
Proof.
  revert acc n. induction completed as [|result rest IH]; intros acc n H.
  - by left.
  - cbn [collect] in H. destruct result as [r|].
    + destruct (Z.leb_spec 60 (suitability_score r)) as [Hs|Hs].
      * assert (Hin : row ∈ (acc ++ [r])%list ->
                      row ∈ acc \/ (Some row ∈ Some r :: rest
                                     /\ 60 <= suitability_score row)).
        { intros Hin. apply elem_of_app in Hin as [Hin|Hin]; [by left|].
          apply list_elem_of_singleton in Hin. subst r. right.
          split; [apply list_elem_of_here|done]. }
        destruct (max_areas <=? Z.of_nat (length (acc ++ [r])%list)).
        -- by apply Hin.
        -- apply IH in H as [H|[H ?]]; [by apply Hin|].
           right. split; [by apply list_elem_of_further|done].
      * apply IH in H as [H|[H ?]]; [by left|].
        right. split; [by apply list_elem_of_further|done].
    + apply IH in H as [H|[H ?]]; [by left|].
      right. split; [by apply list_elem_of_further|done].
Qed.

Lemma collect_length max_areas completed acc n :
  Z.of_nat (length (collect max_areas completed acc n).1)
  <= Z.max (Z.of_nat (length acc) + 1) max_areas.
Proof.
  revert acc n. induction completed as [|result rest IH]; intros acc n.
  - cbn. lia.
  - cbn [collect]. destruct result as [r|]; [|apply IH].
    destruct (60 <=? suitability_score r); [|apply IH].
    destruct (Z.leb_spec max_areas (Z.of_nat (length (acc ++ [r])%list)))
      as [Hm|Hm].
    + cbn [fst]. rewrite length_app in *. cbn [length] in *. lia.
    + specialize (IH (acc ++ [r])%list (n + 1)).
      rewrite length_app in *. cbn [length] in *. lia.
Qed.

Lemma collect_processed max_areas completed acc n :
  n <= (collect max_areas completed acc n).2 <= n + Z.of_nat (length completed).
Proof.
  revert acc n. induction completed as [|result rest IH]; intros acc n.
  - cbn. lia.
  - cbn [collect length].
    destruct result as [r|]; [|specialize (IH acc (n + 1)); lia].
    destruct (60 <=? suitability_score r); [|specialize (IH acc (n + 1)); lia].
    destruct (max_areas <=? Z.of_nat (length (acc ++ [r])%list)).
    + cbn [snd]. lia.
    + specialize (IH (acc ++ [r])%list (n + 1)). lia.
Qed.

(** The loop accepts the qualifying results in completion order, up to the
    point where it stops. *)
Lemma collect_prefix max_areas completed acc n :
  exists accepted,
    (collect max_areas completed acc n).1 = (acc ++ accepted)%list
    /\ accepted `prefix_of` qualifying completed.
Proof.
  revert acc n. induction completed as [|result rest IH]; intros acc n.
  - exists []. split; [by rewrite app_nil_r|done].
  - cbn [collect]. unfold qualifying. cbn [omap list_omap].
    fold (qualifying rest).
    destruct result as [r|]; [|apply IH].
    destruct (60 <=? suitability_score r); [|apply IH].
    destruct (max_areas <=? Z.of_nat (length (acc ++ [r])%list)).
    + exists [r]. split; [done|]. apply prefix_cons, prefix_nil.
    + destruct (IH (acc ++ [r])%list (n + 1)) as (accepted & -> & Hpre).
      exists (r :: accepted). split; [by rewrite <- app_assoc|].
      by apply prefix_cons.
Qed.

Lemma as_completed_elem {A} (order : list nat) (futures : list A) x :
  x ∈ as_completed order futures -> x ∈ futures.
Proof.
  unfold as_completed. intros H. apply list_elem_of_omap in H as (i & _ & Hi).
  by eapply list_elem_of_lookup_2.
Qed.

Section EndpointFacts.

Variable np_sqrt : Q -> Q.
Variable json_dump : list WaterFeature -> string.
Variable json_load : string -> option (list WaterFeature).

(** Every submitted task analyses a coordinate with the empty
    [original_data]. *)
Lemma run_tasks_elem env water_sources coordinates result :
  result ∈ run_tasks np_sqrt env water_sources coordinates ->
  exists lat lon g,
    result = Rand.run (analyze_coordinate_with_real_water np_sqrt
                         (lat, lon, ∅) water_sources) g.
Proof.
  unfold run_tasks. intros H.
  apply list_elem_of_lookup in H as [i Hi].
  rewrite list_lookup_imap in Hi.
  destruct (_ !! i) as [coord|] eqn:Ec; [|done].
  change (map ?f coordinates) with (f <$> coordinates) in Ec.
  rewrite list_lookup_fmap in Ec.
  destruct (coordinates !! i) as [[lat lon]|]; [|done].
  cbn in Ec, Hi. injection Ec as <-. injection Hi as <-.
  by exists lat, lon, (env_rng env i).
Qed.

Lemma endpoint_failure max_areas sample_size env :
  catalog_of json_dump json_load env = [] ->
  comprehensive_real_analysis np_sqrt json_dump json_load
    max_areas sample_size env
  = Failure "Water sources could not be retrieved".
Proof.
  unfold comprehensive_real_analysis, catalog_of. by intros ->.
Qed.

Lemma endpoint_success max_areas sample_size env :
  catalog_of json_dump json_load env <> [] ->
  comprehensive_real_analysis np_sqrt json_dump json_load
    max_areas sample_size env
  = let loop := analysis_loop np_sqrt max_areas sample_size env
                  (catalog_of json_dump json_load env) in
    let summary :=
      mkSummary loop.2 (Z.of_nat (length loop.1))
        (success_rate_of (Z.of_nat (length loop.1)) loop.2) in
    Success "Comprehensive real-data analysis completed" "REAL_DATA_ANALYSIS"
      summary (format_top_areas loop.1) (env_elapsed env)
      (create_visual_output summary (format_top_areas loop.1)
         (Num.py_round2 (env_elapsed env))).
Proof.
  unfold comprehensive_real_analysis, catalog_of. intros H.
  destruct (get_all_water_sources_from_osm _ _ _ _ _).1 as [|w ws] eqn:E;
    [done|].
  by destruct (analysis_loop np_sqrt max_areas sample_size env (w :: ws)).
Qed.

(** What a full answer of the endpoint is made of. *)
Lemma endpoint_summary_inv max_areas sample_size env summary :
  response_summary
    (comprehensive_real_analysis np_sqrt json_dump json_load
       max_areas sample_size env) = Some summary ->
  catalog_of json_dump json_load env <> []
  /\ total_analyzed summary
     = (analysis_loop np_sqrt max_areas sample_size env
          (catalog_of json_dump json_load env)).2
  /\ productive_areas summary
     = Z.of_nat (length (analysis_loop np_sqrt max_areas sample_size env
                           (catalog_of json_dump json_load env)).1)
  /\ success_rate summary
     = success_rate_of (productive_areas summary) (total_analyzed summary).
Proof.
  intros H. destruct (catalog_of json_dump json_load env) as [|w ws] eqn:E.
  - rewrite endpoint_failure in H; done.
  - rewrite endpoint_success in H by (rewrite E; done).
    rewrite E in H. cbv zeta in H. cbn [response_summary] in H.
    injection H as <-. cbn. done.
Qed.

Lemma endpoint_top_areas max_areas sample_size env :
  response_top_areas
    (comprehensive_real_analysis np_sqrt json_dump json_load
       max_areas sample_size env)
  = match catalog_of json_dump json_load env with
    | [] => []
    | _ => format_top_areas
             (analysis_loop np_sqrt max_areas sample_size env
                (catalog_of json_dump json_load env)).1
    end.
Proof.
  destruct (catalog_of json_dump json_load env) as [|w ws] eqn:E.
  - by rewrite endpoint_failure.
  - rewrite endpoint_success by (rewrite E; done). by rewrite E.
Qed.

End EndpointFacts.

(** ** The cap on accepted results *)

(** C5, as stated, fails: with [max_areas = -5] the request of
    [Samples.cached_env] accepts one result, which is more than
    [max_areas + max_workers - 1 = 0]. *)
Lemma C5_counterexample :
  productive_areas
    <$> response_summary
          (comprehensive_real_analysis Samples.sqrt_6dp Samples.json_dump
             Samples.json_load (-5) 5000 Samples.cached_env)
  = Some 1
  /\ ~ (1 <= -5 + max_workers - 1).
Proof. split; [vm_compute; reflexivity|]. unfold max_workers. lia. Qed.

(** C5, amended.  For every run that produces a summary, the number of
    accepted results (the length of [suitable_areas], reported as
    [productive_areas]) never exceeds [max(max_areas, 1)]; so, for
    [max_areas >= -4], it never exceeds [max_areas + max_workers - 1] with
    [max_workers = 6].  A result is accepted only when its score is at least
    60. *)
Theorem C5_accepted_count (np_sqrt : Q -> Q)
  (json_dump : list WaterFeature -> string)
  (json_load : string -> option (list WaterFeature))
  (max_areas sample_size : Z) (env : Env) (summary : Summary) :
  response_summary
    (comprehensive_real_analysis np_sqrt json_dump json_load
       max_areas sample_size env) = Some summary ->
  productive_areas summary
    = Z.of_nat (length (analysis_loop np_sqrt max_areas sample_size env
                          (catalog_of json_dump json_load env)).1)
  /\ productive_areas summary <= Z.max max_areas 1
  /\ (-4 <= max_areas ->
      productive_areas summary <= max_areas + max_workers - 1)
  /\ (forall row,
        row ∈ (analysis_loop np_sqrt max_areas sample_size env
                 (catalog_of json_dump json_load env)).1 ->
        60 <= suitability_score row).
Proof.
  intros H.
  apply endpoint_summary_inv in H as (_ & _ & Hp & _).
  pose proof (collect_length max_areas
                (as_completed (env_completion env)
                   (run_tasks np_sqrt env (catalog_of json_dump json_load env)
                      (sampled_coordinates sample_size env))) [] 0) as Hlen.
  cbn [length] in Hlen.
  fold (analysis_loop np_sqrt max_areas sample_size env
          (catalog_of json_dump json_load env)) in Hlen.
  split; [exact Hp|]. rewrite Hp. unfold max_workers.
  split; [lia|]. split; [lia|].
  intros row Hrow. unfold analysis_loop in Hrow.
  apply collect_elem in Hrow as [Hrow|[_ Hs]]; [|exact Hs].
  by apply elem_of_nil in Hrow.
Qed.

(** The cap at the request of [Samples.cached_env] with [max_areas = -5]:
    one result is accepted, which is [max(max_areas, 1)]. *)
Lemma C5_accepted_count_witness :
  productive_areas (mkSummary 1 1 (PyFloat (10000 # 100))) <= Z.max (-5) 1.
Proof.
  apply (C5_accepted_count Samples.sqrt_6dp Samples.json_dump Samples.json_load
           (-5) 5000 Samples.cached_env (mkSummary 1 1 (PyFloat (10000 # 100)))).
  vm_compute. reflexivity.
Defined.

(** ** Empty inputs *)

Lemma load_coordinates_nonempty disk : load_coordinates_from_csv disk <> [].
Proof.
  unfold load_coordinates_from_csv.
  destruct (flat_map _ csv_files); discriminate.
Qed.

Lemma collect_nil max_areas acc n : collect max_areas [] acc n = (acc, n).
Proof. reflexivity. Qed.

(** C6, as stated, fails for the empty catalog: the request of
    [Samples.empty_catalog_env] has an empty catalog and is answered by the
    two-key failure dictionary, which has no summary. *)
Lemma C6_counterexample :
  catalog_of Samples.json_dump Samples.json_load Samples.empty_catalog_env = []
  /\ comprehensive_real_analysis Samples.sqrt_6dp Samples.json_dump
       Samples.json_load 100 5000 Samples.empty_catalog_env
     = Failure "Water sources could not be retrieved"
  /\ ~ (exists summary,
          response_summary
            (comprehensive_real_analysis Samples.sqrt_6dp Samples.json_dump
               Samples.json_load 100 5000 Samples.empty_catalog_env)
          = Some summary
          /\ total_analyzed summary = 0
          /\ success_rate summary = PyInt 0).
Proof.
  split; [reflexivity|]. split; [reflexivity|].
  intros (summary & H & _). discriminate H.
Qed.

(** C6, amended.  With an empty catalog the endpoint returns at its guard,
    before any coordinate is loaded: the answer is the failure dictionary
    with the message "Water sources could not be retrieved", and it has no
    summary.  With a non-empty catalog and an empty coordinate list no task
    is submitted and the answer is the full one, with [total_analyzed = 0],
    [productive_areas = 0], the guarded [success_rate = 0] and no top area.
    The coordinate list loaded from the CSV files is never empty (the
    fallback list takes its place); it is empty after the cut to
    [sample_size = 0]. *)
Theorem C6_empty_inputs (np_sqrt : Q -> Q)
  (json_dump : list WaterFeature -> string)
  (json_load : string -> option (list WaterFeature))
  (max_areas sample_size : Z) (env : Env) :
  (catalog_of json_dump json_load env = [] ->
   comprehensive_real_analysis np_sqrt json_dump json_load
     max_areas sample_size env
   = Failure "Water sources could not be retrieved")
  /\ (catalog_of json_dump json_load env <> [] ->
      sampled_coordinates sample_size env = [] ->
      exists visual_output,
        comprehensive_real_analysis np_sqrt json_dump json_load
          max_areas sample_size env
        = Success "Comprehensive real-data analysis completed"
            "REAL_DATA_ANALYSIS" (mkSummary 0 0 (PyInt 0)) []
            (env_elapsed env) visual_output)
  /\ load_coordinates_from_csv (env_disk env) <> []
  /\ sampled_coordinates 0 env = [].
Proof.
  split; [apply endpoint_failure|].
  split; [|split; [apply load_coordinates_nonempty|]].
  - intros Hcat Hcoords. rewrite endpoint_success by done.
    unfold analysis_loop, run_tasks. rewrite Hcoords.
    cbn [map imap]. unfold as_completed.
    assert (omap (fun i : nat => (@nil (option EnhancedRow)) !! i)
              (env_completion env) = []) as ->.
    { induction (env_completion env) as [|i order IH]; [done|].
      cbn [omap list_omap]. by rewrite lookup_nil. }
    rewrite collect_nil. cbv zeta. cbn [fst snd length].
    eexists. reflexivity.
  - unfold sampled_coordinates.
    pose proof (load_coordinates_nonempty (env_disk env)) as Hne.
    destruct (load_coordinates_from_csv (env_disk env)) as [|c cs]; [done|].
    reflexivity.
Qed.

(** The empty coordinate list at the request of [Samples.cached_env] with
    [sample_size = 0]. *)
Lemma C6_empty_inputs_witness :
  exists visual_output,
    comprehensive_real_analysis Samples.sqrt_6dp Samples.json_dump
      Samples.json_load 100 0 Samples.cached_env
    = Success "Comprehensive real-data analysis completed"
        "REAL_DATA_ANALYSIS" (mkSummary 0 0 (PyInt 0)) []
        (1234 # 1000) visual_output.
Proof.
  apply (C6_empty_inputs Samples.sqrt_6dp Samples.json_dump Samples.json_load
           100 0 Samples.cached_env).
  - vm_compute. discriminate.
  - reflexivity.
Defined.

(** ** The top areas *)

Lemma format_top_areas_lookup suitable_areas i :
  format_top_areas suitable_areas !! i
  = format_area (Z.of_nat i + 1) <$> take 10 suitable_areas !! i.
Proof. unfold format_top_areas. by rewrite list_lookup_imap. Qed.

Lemma format_top_areas_length suitable_areas :
  length (format_top_areas suitable_areas)
  = Nat.min 10 (length suitable_areas).
Proof. unfold format_top_areas. by rewrite length_imap, length_take. Qed.

(** C7.  The accepted results are an initial part of the qualifying results
    in completion order.  The [top_areas] of an answer are the first
    [min(10, n)] accepted results, in that order: the entry at position
    [i] is there exactly when [i < 10] and the accepted list has a result
    at position [i]; it is built from that result and carries its score and
    the rank [i + 1].  Nothing is sorted: at the request of
    [Samples.reordered_env] the area of rank 1 has score 65 and the area of
    rank 2 has score 74. *)
Theorem C7_top_areas_by_position (np_sqrt : Q -> Q)
  (json_dump : list WaterFeature -> string)
  (json_load : string -> option (list WaterFeature))
  (max_areas sample_size : Z) (env : Env) :
  (forall water_sources,
     (analysis_loop np_sqrt max_areas sample_size env water_sources).1
     `prefix_of`
     qualifying
       (as_completed (env_completion env)
          (run_tasks np_sqrt env water_sources
             (sampled_coordinates sample_size env))))
  /\ (catalog_of json_dump json_load env <> [] ->
   response_top_areas
     (comprehensive_real_analysis np_sqrt json_dump json_load
        max_areas sample_size env)
   = format_top_areas
       (analysis_loop np_sqrt max_areas sample_size env
          (catalog_of json_dump json_load env)).1)
  /\ (forall suitable_areas : list EnhancedRow,
        length (format_top_areas suitable_areas)
        = Nat.min 10 (length suitable_areas))
  /\ (forall (suitable_areas : list EnhancedRow) (i : nat) (area : Area.AreaDetail),
        format_top_areas suitable_areas !! i = Some area
        <-> (i < 10)%nat
            /\ exists row, suitable_areas !! i = Some row
                           /\ area = format_area (Z.of_nat i + 1) row)
  /\ (forall (i : Z) (row : EnhancedRow),
        Area.rank (format_area i row) = i
        /\ Area.score (format_area i row) = suitability_score row
        /\ Area.category (format_area i row) = suitability_category row
        /\ Area.details (format_area i row) = detailed_reasons row)
  /\ (fun area => (Area.rank area, Area.score area))
       <$> response_top_areas
             (comprehensive_real_analysis Samples.sqrt_6dp Samples.json_dump
                Samples.json_load 100 5000 Samples.reordered_env)
     = [(1, 65); (2, 74)].
Proof.
  split; [|split; [|split; [|split; [|split]]]].
  - intros water_sources. unfold analysis_loop.
    by destruct (collect_prefix max_areas
                   (as_completed (env_completion env)
                      (run_tasks np_sqrt env water_sources
                         (sampled_coordinates sample_size env))) [] 0)
      as (accepted & -> & Hpre).
  - intros Hcat. rewrite endpoint_top_areas.
    by destruct (catalog_of json_dump json_load env).
  - apply format_top_areas_length.
  - intros suitable_areas i area. rewrite format_top_areas_lookup.
    split.
    + intros H. apply fmap_Some in H as (row & Hrow & ->).
      apply lookup_take_Some in Hrow as [Hrow Hi]. eauto.
    + intros (Hi & row & Hrow & ->).
      by rewrite lookup_take_lt, Hrow.
  - intros i row. repeat split.
  - vm_compute. reflexivity.
Qed.

(** ** The landcover bonus through the endpoint *)

Lemma agriculture_no_keyword :
  Scorer.landcover_match (Text.lower "agriculture") = false.
Proof. reflexivity. Qed.

Lemma no_bonus_score row :
  Scorer.landcover_match (Scorer.lc_type_of row) = false ->
  (Scorer.calculate_comprehensive_suitability row).1.1 <= 85.
Proof.
  intros H. rewrite score_decomposition.
  unfold Scorer.landcover_points. rewrite H.
  pose proof (water_points_tier (water_distance_km row)).
  pose proof (slope_points_tier (slope_percent row)).
  pose proof (elevation_points_tier (elevation_m row)).
  pose proof (soil_points_tier (soil_productivity row)).
  pose proof (precipitation_points_tier (annual_precipitation_mm row)).
  pose proof (sunshine_points_tier (sunshine_hours row)).
  lia.
Qed.

Lemma no_bonus_reasons row :
  Scorer.landcover_match (Scorer.lc_type_of row) = false ->
  Text.is_substring "existing agricultural land"
    (Scorer.calculate_comprehensive_suitability row).1.2 = false.
Proof.
  intros H.
  unfold Scorer.calculate_comprehensive_suitability, Scorer.tally_of.
  cbn [fst snd].
  unfold Scorer.score_landcover. rewrite H.
  unfold Scorer.score_sunshine, Scorer.score_precipitation, Scorer.score_soil,
    Scorer.score_elevation, Scorer.score_slope, Scorer.score_water.
  destruct ((1800 <=? sunshine_hours row) && (sunshine_hours row <=? 2800));
    destruct ((400 <=? annual_precipitation_mm row)
              && (annual_precipitation_mm row <=? 800));
    destruct (String.eqb (soil_productivity row) "high");
    destruct (String.eqb (soil_productivity row) "medium-high");
    destruct (elevation_m row <=? 800);
    destruct (elevation_m row <=? 1500);
    destruct (Qle_bool (slope_percent row) 5);
    destruct (Qle_bool (slope_percent row) 10);
    destruct (Qle_bool (water_distance_km row) 5);
    destruct (Qle_bool (water_distance_km row) 10);
    reflexivity.
Qed.

Section NoBonus.

Variable np_sqrt : Q -> Q.

(** Every row computed by a submitted task has the default landcover and no
    landcover bonus. *)
Lemma task_row_no_bonus env water_sources coordinates row :
  Some row ∈ run_tasks np_sqrt env water_sources coordinates ->
  landcover_type (attrs row) = Some "agriculture"
  /\ suitability_score row <= 85
  /\ Text.is_substring "existing agricultural land" (suitability_reasons row)
     = false.
Proof.
  intros H. apply run_tasks_elem in H as (lat & lon & g & H).
  destruct (bounding_check lat lon) eqn:Hb.
  - by rewrite analyze_rejects in H.
  - destruct (analyze_accepts np_sqrt lat lon ∅ water_sources g Hb)
      as (row' & Hrun & _ & _ & Hlc & Hscore & Hreasons & _).
    rewrite Hrun in H. injection H as ->.
    rewrite lookup_empty in Hlc. cbn [default] in Hlc.
    assert (Hm : Scorer.landcover_match (Scorer.lc_type_of (attrs row')) = false).
    { unfold Scorer.lc_type_of. rewrite Hlc. reflexivity. }
    split; [exact Hlc|]. rewrite Hscore, Hreasons.
    split; [by apply no_bonus_score|by apply no_bonus_reasons].
Qed.

Lemma accepted_is_task_row max_areas sample_size env water_sources row :
  row ∈ (analysis_loop np_sqrt max_areas sample_size env water_sources).1 ->
  Some row ∈ run_tasks np_sqrt env water_sources
               (sampled_coordinates sample_size env).
Proof.
  unfold analysis_loop. intros H.
  apply collect_elem in H as [H|[H _]]; [by apply elem_of_nil in H|].
  by eapply as_completed_elem.
Qed.

End NoBonus.

Lemma format_top_areas_elem suitable_areas area :
  area ∈ format_top_areas suitable_areas ->
  exists i row, row ∈ suitable_areas /\ area = format_area i row.
Proof.
  intros H. apply list_elem_of_lookup in H as [i Hi].
  rewrite format_top_areas_lookup in Hi.
  apply fmap_Some in Hi as (row & Hrow & ->).
  apply lookup_take_Some in Hrow as [Hrow _].
  exists (Z.of_nat i + 1), row. split; [|done].
  by eapply list_elem_of_lookup_2.
Qed.

(** C10.  Through the endpoint every coordinate is analysed with the empty
    [original_data], so the landcover of every computed row is the default
    "agriculture"; none of the keywords "farm", "agricultural", "orchard",
    "vineyard" occurs in it, so the landcover bonus is never awarded: every
    computed row, every accepted row and every top area has a score of at
    most 85, and the reason "existing agricultural land" occurs in none of
    them. *)
Theorem C10_no_landcover_bonus (np_sqrt : Q -> Q)
  (json_dump : list WaterFeature -> string)
  (json_load : string -> option (list WaterFeature))
  (max_areas sample_size : Z) (env : Env) :
  (forall keyword, In keyword Scorer.landcover_keywords ->
     Text.is_substring keyword (Text.lower "agriculture") = false)
  /\ (forall water_sources coordinates row,
        Some row ∈ run_tasks np_sqrt env water_sources coordinates ->
        landcover_type (attrs row) = Some "agriculture"
        /\ suitability_score row <= 85
        /\ Text.is_substring "existing agricultural land"
             (suitability_reasons row) = false)
  /\ (forall row,
        row ∈ (analysis_loop np_sqrt max_areas sample_size env
                 (catalog_of json_dump json_load env)).1 ->
        landcover_type (attrs row) = Some "agriculture"
        /\ suitability_score row <= 85
        /\ Text.is_substring "existing agricultural land"
             (suitability_reasons row) = false)
  /\ (forall area,
        area ∈ response_top_areas
                 (comprehensive_real_analysis np_sqrt json_dump json_load
                    max_areas sample_size env) ->
        Area.score area <= 85).
Proof.
  split; [|split; [|split]].
  - intros keyword Hk. cbn in Hk.
    destruct Hk as [<-|[<-|[<-|[<-|[]]]]]; reflexivity.
  - apply task_row_no_bonus.
  - intros row Hrow. eapply task_row_no_bonus.
    by eapply accepted_is_task_row.
  - intros area Harea. rewrite endpoint_top_areas in Harea.
    destruct (catalog_of json_dump json_load env) as [|w ws] eqn:E;
      [by apply elem_of_nil in Harea|].
    apply format_top_areas_elem in Harea as (i & row & Hrow & ->).
    cbn [Area.score format_area].
    apply accepted_is_task_row in Hrow.
    by apply task_row_no_bonus in Hrow as (_ & Hs & _).
Qed.

(** ** The cache file *)

(** *** The text written and read back *)

Lemma append_cons (x : ascii) (a b : string) :
  String x a +:+ b = String x (a +:+ b).
Proof. reflexivity. Qed.

Lemma append_nil (b : string) : "" +:+ b = b.
Proof. reflexivity. Qed.

Lemma append_assoc (a b c : string) : (a +:+ b) +:+ c = a +:+ (b +:+ c).
Proof.
  induction a as [|x a IH]; [reflexivity|].
  rewrite !append_cons. by f_equal.
Qed.

Lemma length_append (a b : string) :
  String.length (a +:+ b) = (String.length a + String.length b)%nat.
Proof.
  induction a as [|x a IH]; [reflexivity|].
  rewrite append_cons. simpl. by f_equal.
Qed.

(** *** String literals *)

Lemma parse_chars_escape_char c s body rest :
  Json.parse_chars s = Some (body, rest) ->
  Json.parse_chars (Json.escape_char c +:+ s) = Some (String c body, rest).
Proof.
  intros H.
  destruct c as [[] [] [] [] [] [] [] []];
    match goal with
    | |- context [Json.escape_char ?c] =>
        let e := eval vm_compute in (Json.escape_char c) in
        change (Json.escape_char c) with e
    end;
    rewrite ?append_cons, ?append_nil; simpl; rewrite H; reflexivity.
Qed.

Lemma parse_chars_escape s k :
  Json.parse_chars (Json.escape s +:+ String Json.quote k) = Some (s, k).
Proof.
  induction s as [|c s IH]; [reflexivity|].
  cbn [Json.escape]. rewrite append_assoc.
  by apply parse_chars_escape_char.
Qed.

Lemma string_text_app s k :
  Json.string_text s +:+ k
  = String Json.quote (Json.escape s +:+ String Json.quote k).
Proof. unfold Json.string_text. by rewrite !append_assoc. Qed.

Lemma parse_string_text s k :
  Json.parse_string (Json.string_text s +:+ k) = Some (s, k).
Proof. rewrite string_text_app. simpl. apply parse_chars_escape. Qed.

(** *** Numerals *)

Lemma digit_char_spec x :
  0 <= x < 10 ->
  Json.is_digit (Json.digit_char x) = true
  /\ Json.is_blank (Json.digit_char x) = false
  /\ Ascii.eqb (Json.digit_char x) "-" = false
  /\ Z.of_nat (nat_of_ascii (Json.digit_char x) - 48) = x.
Proof.
  intros Hx.
  assert (x = 0 \/ x = 1 \/ x = 2 \/ x = 3 \/ x = 4 \/ x = 5 \/ x = 6
          \/ x = 7 \/ x = 8 \/ x = 9) as H by lia.
  repeat destruct H as [->|H]; try subst x; by vm_compute.
Qed.

Lemma digit_in_range n k : 0 <= (n / 10 ^ Z.of_nat k) mod 10 < 10.
Proof. apply Z.mod_pos_bound. lia. Qed.

Lemma length_fixed_digits w n : String.length (Json.fixed_digits w n) = w.
Proof. induction w as [|w IH]; [reflexivity|]. simpl. by rewrite IH. Qed.

Lemma read_digits_fixed w n k :
  Json.read_digits k = ("", k) ->
  Json.read_digits (Json.fixed_digits w n +:+ k) = (Json.fixed_digits w n, k).
Proof.
  intros Hk. induction w as [|w IH]; [exact Hk|].
  cbn [Json.fixed_digits]. rewrite append_cons. cbn [Json.read_digits].
  destruct (digit_char_spec _ (digit_in_range n w)) as (-> & _).
  by rewrite IH.
Qed.

Lemma digits_value_fixed w n acc :
  0 <= n ->
  Json.digits_value (Json.fixed_digits w n) acc
  = acc * 10 ^ Z.of_nat w + n mod 10 ^ Z.of_nat w.
Proof.
  intros Hn. revert acc. induction w as [|w IH]; intros acc.
  - cbn [Json.fixed_digits Json.digits_value]. change (10 ^ Z.of_nat 0) with 1.
    rewrite Z.mod_1_r. lia.
  - cbn [Json.fixed_digits Json.digits_value].
    destruct (digit_char_spec _ (digit_in_range n w)) as (_ & _ & _ & ->).
    rewrite IH. rewrite Nat2Z.inj_succ, Z.pow_succ_r by lia.
    rewrite (Z.mul_comm 10 (10 ^ Z.of_nat w)).
    rewrite (Z.rem_mul_r n (10 ^ Z.of_nat w) 10) by lia.
    ring.
Qed.

Lemma width_from_ge fuel w n : (w <= Json.width_from fuel w n)%nat.
Proof.
  revert w. induction fuel as [|fuel IH]; intros w; [done|].
  cbn [Json.width_from]. destruct (n <? 10 ^ Z.of_nat w); [done|].
  specialize (IH (S w)). lia.
Qed.

Lemma width_from_bound fuel w n :
  n < 10 ^ Z.of_nat (w + fuel) ->
  n < 10 ^ Z.of_nat (Json.width_from fuel w n).
Proof.
  revert w. induction fuel as [|fuel IH]; intros w H.
  - by rewrite Nat.add_0_r in H.
  - cbn [Json.width_from]. destruct (Z.ltb_spec n (10 ^ Z.of_nat w)); [done|].
    apply IH. by replace (S w + fuel)%nat with (w + S fuel)%nat by lia.
Qed.

Lemma below_power_of_ten n : 0 <= n -> n < 10 ^ (Z.log2 n + 1).
Proof.
  intros Hn. destruct (Z.eq_dec n 0) as [->|Hne]; [done|].
  pose proof (Z.log2_spec n ltac:(lia)) as [_ H].
  pose proof (Z.log2_nonneg n).
  assert (2 ^ (Z.log2 n + 1) <= 10 ^ (Z.log2 n + 1))
    by (apply Z.pow_le_mono_l; lia).
  lia.
Qed.

(** The integer part is written with all its digits, at least one. *)
Lemma int_text_shape n :
  0 <= n ->
  exists w, Json.int_text n = Json.fixed_digits (S w) n
            /\ n < 10 ^ Z.of_nat (S w).
Proof.
  intros Hn. unfold Json.int_text.
  set (fuel := S (Z.to_nat (Z.log2 n))).
  pose proof (width_from_ge fuel 1 n) as Hge.
  assert (n < 10 ^ Z.of_nat (Json.width_from fuel 1 n)) as Hlt.
  { apply width_from_bound. pose proof (below_power_of_ten n Hn) as H.
    pose proof (Z.log2_nonneg n).
    assert (10 ^ (Z.log2 n + 1) <= 10 ^ Z.of_nat (1 + fuel))
      by (apply Z.pow_le_mono_r; lia).
    lia. }
  destruct (Json.width_from fuel 1 n) as [|w]; [lia|].
  by exists w.
Qed.

Lemma decimals_from_ge fuel d q : (d <= Json.decimals_from fuel d q)%nat.
Proof.
  revert d. induction fuel as [|fuel IH]; intros d; [done|].
  cbn [Json.decimals_from].
  destruct (_ =? 0); [done|]. specialize (IH (S d)). lia.
Qed.

Lemma read_digits_point s : Json.read_digits ("." +:+ s) = ("", "." +:+ s).
Proof. reflexivity. Qed.

(** A numeral with [d >= 1] decimals reads as the number it denotes. *)
Lemma parse_unsigned_text n d k :
  0 <= n -> (1 <= d)%nat ->
  Json.read_digits k = ("", k) ->
  Json.parse_unsigned
    (Json.int_text (n / 10 ^ Z.of_nat d) +:+ "." +:+ Json.fixed_digits d n +:+ k)
  = Some (Qmake n (Z.to_pos (10 ^ Z.of_nat d)), k).
Proof.
  intros Hn Hd Hk.
  assert (0 < 10 ^ Z.of_nat d) as Hpow by (apply Z.pow_pos_nonneg; lia).
  assert (0 <= n / 10 ^ Z.of_nat d) as Hwhole by (apply Z.div_pos; lia).
  destruct (int_text_shape _ Hwhole) as (w & -> & Hlt).
  unfold Json.parse_unsigned.
  rewrite read_digits_fixed by apply read_digits_point.
  remember (Json.fixed_digits (S w) (n / 10 ^ Z.of_nat d)) as whole eqn:Ew.
  destruct whole as [|c whole]; [discriminate Ew|]. rewrite Ew. clear Ew.
  rewrite append_cons, append_nil. simpl (Ascii.eqb "." ".").
  cbv iota.
  rewrite read_digits_fixed by exact Hk.
  remember (Json.fixed_digits d n) as frac eqn:Ef.
  destruct frac as [|c' frac];
    [destruct d; [lia|discriminate Ef]|]. rewrite Ef. clear Ef.
  rewrite length_fixed_digits, !digits_value_fixed by lia.
  do 3 f_equal.
  rewrite Z.mul_0_l, Z.add_0_l, (Z.mod_small _ _ (conj Hwhole Hlt)).
  rewrite (Z.div_mod n (10 ^ Z.of_nat d)) at 3 by lia. ring.
Qed.

(** **** Finite decimal expansions *)

Lemma divide_pow10_mono b a d d' :
  0 <= d <= d' -> (b | a * 10 ^ d) -> (b | a * 10 ^ d').
Proof.
  intros Hd H. replace d' with (d + (d' - d)) by lia.
  rewrite Z.pow_add_r, Z.mul_assoc by lia. by apply Z.divide_mul_l.
Qed.

Lemma coprime_10 b : b mod 2 <> 0 -> b mod 5 <> 0 -> Z.gcd b 10 = 1.
Proof.
  intros H2 H5.
  pose proof (Z.gcd_nonneg b 10) as Hg.
  assert (Z.gcd b 10 <= 10) as Hle
    by (apply Z.divide_pos_le; [lia|apply Z.gcd_divide_r]).
  destruct (Z.gcd_divide_r b 10) as [k Hk].
  destruct (Z.gcd_divide_l b 10) as [m Hm].
  set (g := Z.gcd b 10) in *.
  assert (g = 0 \/ g = 1 \/ g = 2 \/ g = 3 \/ g = 4 \/ g = 5 \/ g = 6
          \/ g = 7 \/ g = 8 \/ g = 9 \/ g = 10) as Hcases by lia.
  repeat destruct Hcases as [Hc|Hcases]; try lia;
    try (rewrite Hcases in *); try (rewrite Hc in *); try lia.
  - exfalso. apply H2. rewrite Hm. apply Z.mod_mul. lia.
  - exfalso. apply H5. rewrite Hm. apply Z.mod_mul. lia.
  - exfalso. apply H2. rewrite Hm.
    replace (m * 10) with (m * 5 * 2) by ring. apply Z.mod_mul. lia.
Qed.

Lemma gauss_pow10 b a (d : nat) :
  Z.gcd b 10 = 1 -> (b | a * 10 ^ Z.of_nat d) -> (b | a).
Proof.
  intros Hg. induction d as [|d IH]; intros H.
  - by rewrite Z.mul_1_r in H.
  - apply IH. rewrite Nat2Z.inj_succ, Z.pow_succ_r in H by lia.
    apply (Z.gauss b 10); [|exact Hg].
    by replace (10 * (a * 10 ^ Z.of_nat d))
      with (a * (10 * 10 ^ Z.of_nat d)) by ring.
Qed.

(** A denominator that divides some power of ten times [a] divides the
    one with as many factors of ten as the denominator has bits. *)
Lemma divide_pow10_bound (n : nat) b a (d : nat) :
  0 < b <= Z.of_nat n ->
  (b | a * 10 ^ Z.of_nat d) -> (b | a * 10 ^ Z.log2 b).
Proof.
  revert b a d. induction n as [|n IH]; intros b a d Hb H; [lia|].
  pose proof (Z.log2_nonneg b) as Hlog.
  destruct d as [|d].
  { rewrite Z.mul_1_r in H. by apply Z.divide_mul_l. }
  rewrite Nat2Z.inj_succ, Z.pow_succ_r in H by lia.
  destruct (Z.eq_dec (b mod 2) 0) as [E2|N2].
  - apply Z.mod_divide in E2 as [b' ->]; [|lia].
    rewrite (Z.mul_comm b' 2) in *.
    rewrite Z.log2_double by lia.
    replace (a * (10 * 10 ^ Z.of_nat d))
      with (2 * (a * 5 * 10 ^ Z.of_nat d)) in H by ring.
    apply Z.mul_divide_cancel_l in H; [|lia].
    apply IH in H; [|lia].
    rewrite Z.pow_succ_r by apply Z.log2_nonneg.
    replace (a * (10 * 10 ^ Z.log2 b'))
      with (2 * (a * 5 * 10 ^ Z.log2 b')) by ring.
    by apply Z.mul_divide_mono_l.
  - destruct (Z.eq_dec (b mod 5) 0) as [E5|N5].
    + apply Z.mod_divide in E5 as [b' ->]; [|lia].
      rewrite (Z.mul_comm b' 5) in *.
      replace (a * (10 * 10 ^ Z.of_nat d))
        with (5 * (a * 2 * 10 ^ Z.of_nat d)) in H by ring.
      apply Z.mul_divide_cancel_l in H; [|lia].
      apply IH in H; [|lia].
      assert (Z.log2 b' + 1 <= Z.log2 (5 * b')) as Hle.
      { replace (Z.log2 b' + 1) with (Z.log2 (2 * b'))
          by (rewrite Z.log2_double; lia).
        apply Z.log2_le_mono. lia. }
      pose proof (Z.log2_nonneg b').
      apply (divide_pow10_mono _ _ (Z.log2 b' + 1)); [lia|].
      rewrite Z.pow_add_r, Z.pow_1_r by lia.
      replace (a * (10 ^ Z.log2 b' * 10))
        with (5 * (a * 2 * 10 ^ Z.log2 b')) by ring.
      by apply Z.mul_divide_mono_l.
    + apply Z.divide_mul_l. apply (gauss_pow10 b a (S d)).
      * by apply coprime_10.
      * by rewrite Nat2Z.inj_succ, Z.pow_succ_r by lia.
Qed.

Lemma decimals_from_found fuel d0 q d :
  (d0 <= d <= d0 + fuel)%nat ->
  Json.ends_at d q -> Json.ends_at (Json.decimals_from fuel d0 q) q.
Proof.
  revert d0. induction fuel as [|fuel IH]; intros d0 Hd H.
  - by replace d0 with d by lia.
  - cbn [Json.decimals_from].
    destruct (Z.eqb_spec ((Qnum q * 10 ^ Z.of_nat d0) mod Z.pos (Qden q)) 0)
      as [E|N]; [exact E|].
    apply IH; [|exact H].
    assert (d <> d0) by (intros ->; contradiction). lia.
Qed.

(** The writer finds the end of every finite decimal expansion. *)
Lemma finite_decimal_found q : Json.finite_decimal q -> Json.is_decimal q.
Proof.
  intros [d H]. unfold Json.is_decimal, Json.decimals.
  set (b := Z.pos (Qden q)) in *.
  pose proof (Z.log2_nonneg b) as Hlog.
  apply (decimals_from_found _ _ _ (Z.to_nat (Z.max 1 (Z.log2 b)))); [lia|].
  unfold Json.ends_at in *. fold b in H |- *.
  apply Z.mod_divide; [lia|]. apply Z.mod_divide in H; [|lia].
  apply (divide_pow10_mono _ _ (Z.log2 b)); [lia|].
  apply (divide_pow10_bound (Z.to_nat b) b _ d); [lia|exact H].
Qed.

Lemma int_text_head n :
  0 <= n ->
  exists x tail, 0 <= x < 10 /\ Json.int_text n = String (Json.digit_char x) tail.
Proof.
  intros Hn. destruct (int_text_shape n Hn) as (w & -> & _).
  eexists _, _. split; [apply (digit_in_range n w)|reflexivity].
Qed.

Lemma parse_number_unsigned s c s' :
  s = String c s' -> Ascii.eqb c "-" = false ->
  Json.parse_number s
  = '(q, rest) ← Json.parse_unsigned s; Some (Qred q, rest).
Proof. intros -> Hc. unfold Json.parse_number. by rewrite Hc. Qed.

Lemma decimals_positive q : (1 <= Json.decimals q)%nat.
Proof. apply decimals_from_ge. Qed.

(** The numeral of a number with a finite decimal expansion reads as that
    number. *)
Lemma parse_number_text q k :
  Json.is_decimal q ->
  Json.read_digits k = ("", k) ->
  Json.parse_number (Json.number_text q +:+ k) = Some (Qred q, k).
Proof.
  intros Hq Hk. unfold Json.number_text, Json.is_decimal, Json.ends_at in *.
  pose proof (decimals_positive q) as Hd.
  set (d := Json.decimals q) in *.
  assert (0 < 10 ^ Z.of_nat d) as Hpow by (apply Z.pow_pos_nonneg; lia).
  set (scaled := Qnum q * 10 ^ Z.of_nat d / Z.pos (Qden q)).
  assert (Qnum q * 10 ^ Z.of_nat d = Z.pos (Qden q) * scaled) as Hexact
    by (apply Z_div_exact_full_2; [lia|exact Hq]).
  rewrite !append_assoc.
  destruct (Z.ltb_spec (Qnum q) 0) as [Hneg|Hpos].
  - rewrite append_cons, append_nil. unfold Json.parse_number.
    simpl (Ascii.eqb "-" "-"). cbv iota.
    rewrite parse_unsigned_text by (try apply Z.abs_nonneg; done).
    simpl. do 2 f_equal. apply Qred_complete.
    unfold Qeq. simpl. rewrite Z2Pos.id by lia. nia.
  - rewrite append_nil.
    assert (0 <= Z.abs scaled / 10 ^ Z.of_nat d) as Hwhole
      by (apply Z.div_pos; lia).
    destruct (int_text_head _ Hwhole) as (x & tail & Hx & Ehead).
    destruct (digit_char_spec x Hx) as (_ & _ & Hminus & _).
    erewrite parse_number_unsigned;
      [|rewrite Ehead; apply append_cons|exact Hminus].
    rewrite parse_unsigned_text by (try apply Z.abs_nonneg; done).
    simpl. do 2 f_equal. apply Qred_complete.
    unfold Qeq. simpl. rewrite Z2Pos.id by lia. nia.
Qed.

Lemma number_text_head q k :
  exists c s, Json.number_text q +:+ k = String c s /\ Json.is_blank c = false.
Proof.
  unfold Json.number_text. rewrite !append_assoc.
  destruct (Qnum q <? 0).
  - rewrite append_cons. by eexists _, _.
  - rewrite append_nil.
    set (n := Z.abs _ / _).
    assert (0 <= n) as Hn.
    { apply Z.div_pos; [apply Z.abs_nonneg|apply Z.pow_pos_nonneg; lia]. }
    destruct (int_text_head n Hn) as (x & tail & Hx & ->).
    destruct (digit_char_spec x Hx) as (_ & Hblank & _).
    rewrite append_cons. by eexists _, _.
Qed.

(** *** Layout *)

Lemma skip_blanks_app b s :
  Json.all_blank b = true -> Json.skip_blanks (b +:+ s) = Json.skip_blanks s.
Proof.
  induction b as [|c b IH]; intros H; [reflexivity|].
  simpl in H. apply andb_prop in H as [Hc Hb].
  rewrite append_cons. cbn [Json.skip_blanks]. rewrite Hc. by apply IH.
Qed.

Lemma skip_blanks_head c s :
  Json.is_blank c = false -> Json.skip_blanks (String c s) = String c s.
Proof. intros H. cbn [Json.skip_blanks]. by rewrite H. Qed.

Lemma strip_prefix_app token s : Json.strip_prefix token (token +:+ s) = Some s.
Proof.
  induction token as [|c token IH]; [reflexivity|].
  rewrite append_cons. cbn [Json.strip_prefix]. by rewrite Ascii.eqb_refl.
Qed.

Lemma expect_blank token b s :
  Json.all_blank b = true -> Json.expect token (b +:+ s) = Json.expect token s.
Proof. intros H. unfold Json.expect. by rewrite skip_blanks_app. Qed.

Lemma expect_token token c tail s :
  token = String c tail -> Json.is_blank c = false ->
  Json.expect token (token +:+ s) = Some s.
Proof.
  intros E Hc. unfold Json.expect.
  rewrite E at 2. rewrite append_cons, skip_blanks_head by done.
  rewrite <- append_cons, <- E. apply strip_prefix_app.
Qed.

Lemma string_text_head s :
  exists tail, Json.string_text s = String Json.quote tail.
Proof. unfold Json.string_text. rewrite append_cons, append_nil. by eexists. Qed.

Lemma skip_blanks_string_text s k :
  Json.skip_blanks (Json.string_text s +:+ k) = Json.string_text s +:+ k.
Proof.
  destruct (string_text_head s) as (tail & ->).
  rewrite append_cons. by apply skip_blanks_head.
Qed.

Lemma skip_blanks_number_text q k :
  Json.skip_blanks (Json.number_text q +:+ k) = Json.number_text q +:+ k.
Proof.
  destruct (number_text_head q k) as (c & s & -> & Hc).
  by apply skip_blanks_head.
Qed.

(** *** Dictionaries *)

Lemma parse_member_text {A : Type} key value text k (x : A) :
  Json.skip_blanks (text +:+ k) = text +:+ k ->
  value (text +:+ k) = Some (x, k) ->
  Json.parse_member key value (Json.member_text key text +:+ k) = Some (x, k).
Proof.
  intros Hskip Hvalue. unfold Json.parse_member, Json.member_text.
  rewrite !append_assoc.
  rewrite expect_blank by reflexivity.
  destruct (string_text_head key) as (tail & Ekey).
  rewrite (expect_token _ _ _ _ Ekey) by reflexivity. cbn [mbind option_bind].
  rewrite (expect_token ":" _ _ _ eq_refl) by reflexivity. cbn [mbind option_bind].
  rewrite (skip_blanks_app " ") by reflexivity.
  by rewrite Hskip.
Qed.

Lemma parse_member_blank {A : Type} key (value : string -> option (A * string))
  b s :
  Json.all_blank b = true ->
  Json.parse_member key value (b +:+ s) = Json.parse_member key value s.
Proof. intros H. unfold Json.parse_member. by rewrite expect_blank. Qed.

Lemma parse_member_number key q k :
  Json.is_decimal q ->
  Json.read_digits k = ("", k) ->
  Json.parse_member key Json.parse_number
    (Json.member_text key (Json.number_text q) +:+ k)
  = Some (Qred q, k).
Proof.
  intros Hq Hk. apply parse_member_text.
  - apply skip_blanks_number_text.
  - by apply parse_number_text.
Qed.

Lemma parse_member_string key s k :
  Json.parse_member key Json.parse_string
    (Json.member_text key (Json.string_text s) +:+ k)
  = Some (s, k).
Proof.
  apply parse_member_text.
  - apply skip_blanks_string_text.
  - apply parse_string_text.
Qed.

Lemma expect_comma s : Json.expect "," ("," +:+ s) = Some s.
Proof. reflexivity. Qed.

Lemma parse_feature_text w k :
  Json.decimal_feature w ->
  Json.parse_feature (Json.feature_text w +:+ k) = Some (Json.reloaded w, k).
Proof.
  intros [Hlat Hlon]. unfold Json.parse_feature, Json.feature_text.
  rewrite !append_assoc.
  rewrite expect_blank by reflexivity.
  rewrite (expect_token "{" _ _ _ eq_refl) by reflexivity.
  cbn [mbind option_bind].
  rewrite (parse_member_blank _ _ Json.newline) by reflexivity.
  rewrite parse_member_number by (by apply finite_decimal_found || reflexivity).
  cbn [mbind option_bind]. rewrite expect_comma. cbn [mbind option_bind].
  rewrite (parse_member_blank _ _ Json.newline) by reflexivity.
  rewrite parse_member_number by (by apply finite_decimal_found || reflexivity).
  cbn [mbind option_bind]. rewrite expect_comma. cbn [mbind option_bind].
  rewrite (parse_member_blank _ _ Json.newline) by reflexivity.
  rewrite parse_member_string.
  cbn [mbind option_bind]. rewrite expect_comma. cbn [mbind option_bind].
  rewrite (parse_member_blank _ _ Json.newline) by reflexivity.
  rewrite parse_member_string.
  cbn [mbind option_bind]. rewrite expect_comma. cbn [mbind option_bind].
  rewrite (parse_member_blank _ _ Json.newline) by reflexivity.
  rewrite parse_member_string. cbn [mbind option_bind].
  rewrite (expect_blank "}" Json.newline) by reflexivity.
  rewrite expect_blank by reflexivity.
  rewrite (expect_token "}" _ _ _ eq_refl) by reflexivity.
  reflexivity.
Qed.

(** *** Lists *)

Lemma parse_feature_blank b s :
  Json.all_blank b = true -> Json.parse_feature (b +:+ s) = Json.parse_feature s.
Proof. intros H. unfold Json.parse_feature. by rewrite expect_blank. Qed.

Lemma parse_features_blank fuel b s :
  Json.all_blank b = true ->
  Json.parse_features fuel (b +:+ s) = Json.parse_features fuel s.
Proof.
  intros H. destruct fuel as [|fuel]; [reflexivity|].
  cbn [Json.parse_features]. by rewrite parse_feature_blank.
Qed.

Lemma features_text_cons w w' ws :
  Json.features_text (w :: w' :: ws)
  = Json.feature_text w +:+ "," +:+ Json.newline +:+ Json.features_text (w' :: ws).
Proof. unfold Json.features_text. cbn [fmap list_fmap Text.join]. by rewrite append_assoc. Qed.

Lemma parse_features_text fuel w ws :
  Forall Json.decimal_feature (w :: ws) ->
  (length ws < fuel)%nat ->
  Json.parse_features fuel (Json.features_text (w :: ws) +:+ Json.newline +:+ "]")
  = Some (Json.reloaded <$> w :: ws).
Proof.
  revert fuel w. induction ws as [|w' ws IH]; intros fuel w Hall Hfuel.
  - destruct fuel as [|fuel]; [simpl in Hfuel; lia|].
    apply Forall_cons in Hall as [Hw _].
    cbn [Json.parse_features]. unfold Json.features_text.
    cbn [fmap list_fmap Text.join].
    rewrite parse_feature_text by done. reflexivity.
  - destruct fuel as [|fuel]; [simpl in Hfuel; lia|].
    apply Forall_cons in Hall as [Hw Hall].
    cbn [Json.parse_features]. rewrite features_text_cons, !append_assoc.
    rewrite parse_feature_text by done. cbn [mbind option_bind].
    rewrite expect_comma.
    rewrite (parse_features_blank _ Json.newline) by reflexivity.
    rewrite IH by (done || (simpl in Hfuel; lia)). reflexivity.
Qed.

Lemma length_features_text ws :
  (length ws <= String.length (Json.features_text ws))%nat.
Proof.
  induction ws as [|w ws IH]; [done|].
  destruct ws as [|w' ws].
  - unfold Json.features_text. cbn [fmap list_fmap Text.join length].
    unfold Json.feature_text. rewrite append_cons. simpl. lia.
  - rewrite features_text_cons, !length_append.
    unfold Json.feature_text at 1. rewrite append_cons.
    simpl in *. lia.
Qed.

(** Reading the text written for a list of water sources gives the list
    back, entry by entry in the same order, each number in lowest terms. *)
Lemma load_dump ws :
  Forall Json.decimal_feature ws ->
  Json.load (Json.dump ws) = Some (Json.reloaded <$> ws).
Proof.
  intros Hall. destruct ws as [|w ws]; [reflexivity|].
  unfold Json.load, Json.dump.
  set (text := "[" +:+ _).
  assert (length ws < String.length text)%nat as Hfuel.
  { unfold text. rewrite !length_append.
    pose proof (length_features_text (w :: ws)) as H. simpl in *. lia. }
  set (fuel := String.length text) in *. clearbody fuel. unfold text.
  rewrite (expect_token "[" _ _ _ eq_refl) by reflexivity.
  cbn [mbind option_bind].
  assert (Json.expect "]"
            (Json.newline +:+ Json.features_text (w :: ws) +:+ Json.newline +:+ "]")
          = None) as ->.
  { rewrite expect_blank by reflexivity.
    destruct ws; [unfold Json.features_text; cbn [fmap list_fmap Text.join]
                 |rewrite features_text_cons];
      unfold Json.feature_text; rewrite !append_assoc;
      by rewrite expect_blank by reflexivity. }
  rewrite (parse_features_blank _ Json.newline) by reflexivity.
  by apply parse_features_text.
Qed.

Lemma reloaded_same w : Json.same_feature w (Json.reloaded w).
Proof.
  unfold Json.same_feature, Json.reloaded. simpl.
  repeat split; symmetry; apply Qred_correct.
Qed.

Lemma reloaded_lowest_terms w : Json.lowest_terms w -> Json.reloaded w = w.
Proof.
  destruct w. unfold Json.reloaded, Json.lowest_terms. simpl.
  by intros [-> ->].
Qed.

Lemma reloaded_all_same ws : Forall2 Json.same_feature ws (Json.reloaded <$> ws).
Proof.
  induction ws as [|w ws IH]; [constructor|].
  constructor; [apply reloaded_same|exact IH].
Qed.

Lemma reloaded_all_lowest_terms ws :
  Forall Json.lowest_terms ws -> Json.reloaded <$> ws = ws.
Proof.
  induction 1 as [|w ws Hw _ IH]; [reflexivity|].
  cbn [fmap list_fmap]. rewrite reloaded_lowest_terms by done.
  f_equal. exact IH.
Qed.

(** **** The numbers a text can hold *)

Lemma finite_decimal_opp q : Json.finite_decimal q -> Json.finite_decimal (- q).
Proof.
  intros [d H]. exists d. unfold Json.ends_at in *. simpl.
  apply Z.mod_divide; [lia|]. apply Z.mod_divide in H; [|lia].
  rewrite Z.mul_opp_l. by apply Z.divide_opp_r.
Qed.

Lemma finite_decimal_Qred q : Json.finite_decimal q -> Json.finite_decimal (Qred q).
Proof.
  intros [d H]. exists d. unfold Json.ends_at in *.
  pose proof (Qred_correct q) as E. unfold Qeq in E.
  set (r := Qred q) in *.
  apply Z.mod_divide; [lia|]. apply Z.mod_divide in H as [m Hm]; [|lia].
  exists m. nia.
Qed.

Lemma parse_unsigned_finite_decimal s q rest :
  Json.parse_unsigned s = Some (q, rest) -> Json.finite_decimal q.
Proof.
  unfold Json.parse_unsigned.
  destruct (Json.read_digits s) as [int_digits s1].
  destruct int_digits as [|c int_digits]; [discriminate|].
  assert (forall n, Json.finite_decimal (inject_Z n)) as Hint.
  { intros n. exists 0%nat. unfold Json.ends_at. simpl. apply Z.mod_1_r. }
  destruct s1 as [|c1 s1]; [intros [= <- _]; apply Hint|].
  destruct (Ascii.eqb c1 "."); [|intros [= <- _]; apply Hint].
  destruct (Json.read_digits s1) as [frac_digits s2].
  destruct frac_digits as [|c2 frac_digits]; [discriminate|].
  intros [= <- _]. eexists. unfold Json.ends_at.
  cbn [Qnum Qden]. rewrite Z2Pos.id by (apply Z.pow_pos_nonneg; lia).
  apply Z.mod_mul.
  apply Z.pow_nonzero; lia.
Qed.

(** Every number read from a text has a finite decimal expansion. *)
Lemma parse_number_finite_decimal s q rest :
  Json.parse_number s = Some (q, rest) -> Json.finite_decimal q.
Proof.
  unfold Json.parse_number. destruct s as [|c s]; [discriminate|].
  destruct (Ascii.eqb c "-").
  - destruct (Json.parse_unsigned s) as [[x r]|] eqn:E; [|discriminate].
    cbn [mbind option_bind]. intros [= <- _].
    apply finite_decimal_Qred, finite_decimal_opp.
    by eapply parse_unsigned_finite_decimal.
  - destruct (Json.parse_unsigned (String c s)) as [[x r]|] eqn:E;
      [|discriminate].
    cbn [mbind option_bind]. intros [= <- _].
    apply finite_decimal_Qred. by eapply parse_unsigned_finite_decimal.
Qed.

(** *** The loader over the cache file *)

(** C8.  When the loader finds no usable cache, receives an answer with
    status 200 and succeeds in writing the cache file, the file holds the
    JSON text of the list it returns; when moreover every coordinate of the
    list has a finite decimal expansion (as every float has), that text
    parses, and every later call returns what it parses to, whatever the
    network does, and leaves the file as it is: a list with the entries of
    the list written, in the same order, each with equal numbers under
    ['lat'] and ['lon'] and the same strings under ['name'], ['type'] and
    ['source'].  It is the very list written when the coordinates of that
    list are fractions in lowest terms. *)
Theorem C8_cache_round_trip
  (cache cache' : CacheFile) (status_code : Z) (elements : list Element)
  (water_sources : list WaterFeature) :
  (forall text, cache = CacheContent text -> Json.load text = None) ->
  status_code = 200 ->
  get_all_water_sources_from_osm Json.dump Json.load cache
    (Responded status_code (Some elements)) WriteSucceeds
  = (water_sources, cache') ->
  Forall Json.decimal_feature water_sources ->
  water_sources = omap feature_of_element elements
  /\ cache' = CacheContent (Json.dump water_sources)
  /\ exists reloaded,
       Json.load (Json.dump water_sources) = Some reloaded
       /\ (forall http write,
             get_all_water_sources_from_osm Json.dump Json.load cache'
               http write
             = (reloaded, cache'))
       /\ Forall2 Json.same_feature water_sources reloaded
       /\ (Forall Json.lowest_terms water_sources ->
           reloaded = water_sources).
Proof.
  intros Hcache -> Hfirst Hdecimal.
  assert (Hfetch : fetch_from_osm Json.dump cache
                     (Responded 200 (Some elements)) WriteSucceeds
                   = (water_sources, cache')).
  { unfold get_all_water_sources_from_osm in Hfirst.
    destruct cache as [| |text]; try exact Hfirst.
    by rewrite (Hcache text eq_refl) in Hfirst. }
  unfold fetch_from_osm in Hfetch. cbn in Hfetch.
  injection Hfetch as <- <-.
  split; [reflexivity|]. split; [reflexivity|].
  exists (Json.reloaded <$> omap feature_of_element elements).
  pose proof (load_dump _ Hdecimal) as Hload.
  split; [exact Hload|]. split; [|split].
  - intros http write. unfold get_all_water_sources_from_osm.
    by rewrite Hload.
  - apply reloaded_all_same.
  - apply reloaded_all_lowest_terms.
Qed.

(** The round trip for the three sample elements, the later call being made
    while the query service is down. *)
Lemma C8_cache_round_trip_witness :
  exists reloaded,
    get_all_water_sources_from_osm Json.dump Json.load
      (CacheContent
         (Json.dump (omap feature_of_element Samples.three_elements)))
      RequestRaises WriteSucceeds
    = (reloaded,
       CacheContent
         (Json.dump (omap feature_of_element Samples.three_elements)))
    /\ Forall2 Json.same_feature
         (omap feature_of_element Samples.three_elements) reloaded.
Proof.
  destruct (C8_cache_round_trip CacheAbsent
              (CacheContent
                 (Json.dump (omap feature_of_element Samples.three_elements)))
              200 Samples.three_elements
              (omap feature_of_element Samples.three_elements))
    as (_ & _ & reloaded & _ & Hlater & Hsame & _).
  - intros text H. discriminate H.
  - reflexivity.
  - reflexivity.
  - repeat constructor; exists 1%nat; reflexivity.
  - exists reloaded. split; [apply Hlater|exact Hsame].
Defined.

(** The text of the cache file written for the two sample sources, and its
    reading. *)
Example cache_text_of_two_sources :
  Json.dump Samples.two_sources
  = Text.join Json.newline
      [ "[";
        "  {";
        "    " +:+ Json.string_text "lat" +:+ ": 39.9334,";
        "    " +:+ Json.string_text "lon" +:+ ": 32.8597,";
        "    " +:+ Json.string_text "name" +:+ ": "
          +:+ Json.string_text "Ankara Cayi" +:+ ",";
        "    " +:+ Json.string_text "type" +:+ ": "
          +:+ Json.string_text "river" +:+ ",";
        "    " +:+ Json.string_text "source" +:+ ": "
          +:+ Json.string_text "OpenStreetMap";
        "  },";
        "  {";
        "    " +:+ Json.string_text "lat" +:+ ": 41.0082,";
        "    " +:+ Json.string_text "lon" +:+ ": 28.9784,";
        "    " +:+ Json.string_text "name" +:+ ": "
          +:+ Json.string_text "Halic" +:+ ",";
        "    " +:+ Json.string_text "type" +:+ ": "
          +:+ Json.string_text "lake" +:+ ",";
        "    " +:+ Json.string_text "source" +:+ ": "
          +:+ Json.string_text "OpenStreetMap";
        "  }";
        "]" ]
  /\ Json.load (Json.dump Samples.two_sources)
     = Some (Json.reloaded <$> Samples.two_sources).
Proof. split; vm_compute; reflexivity. Qed.

(** * Further properties *)

(** ** The soft cut-off of the collection loop *)

(** The number of results the loop still accepts from the state with
    [accepted] results: at least one, whatever [max_areas] is. *)
Lemma collect_take max_areas completed acc n :
  (collect max_areas completed acc n).1
  = (acc ++ take (Z.to_nat (Z.max 1 (max_areas - Z.of_nat (length acc))))
              (qualifying completed))%list.
Proof.
  revert acc n. induction completed as [|result rest IH]; intros acc n.
  - cbn [collect fst]. unfold qualifying. cbn [omap list_omap].
    by rewrite take_nil, app_nil_r.
  - cbn [collect]. unfold qualifying. cbn [omap list_omap].
    fold (qualifying rest).
    destruct result as [r|]; [|apply IH].
    destruct (60 <=? suitability_score r); [|apply IH].
    destruct (Z.leb_spec max_areas (Z.of_nat (length (acc ++ [r])%list)))
      as [Hm|Hm]; rewrite length_app in Hm; cbn [length] in Hm.
    + cbn [fst].
      replace (Z.to_nat (Z.max 1 (max_areas - Z.of_nat (length acc))))
        with 1%nat by lia.
      cbn. by rewrite take_0.
    + rewrite IH, length_app. cbn [length].
      replace (Z.to_nat (Z.max 1 (max_areas - Z.of_nat (length acc))))
        with (S (Z.to_nat (Z.max 1 (max_areas - Z.of_nat (length acc + 1)))))
        by lia.
      cbn [take]. by rewrite <- app_assoc.
Qed.

(** When fewer results qualify than the loop still accepts, every completed
    future is processed. *)
Lemma collect_processed_all max_areas completed acc n :
  (length (qualifying completed)
   < Z.to_nat (Z.max 1 (max_areas - Z.of_nat (length acc))))%nat ->
  (collect max_areas completed acc n).2 = n + Z.of_nat (length completed).
Proof.
  revert acc n. induction completed as [|result rest IH]; intros acc n Hq.
  - cbn. lia.
  - cbn [collect length]. unfold qualifying in Hq. cbn [omap list_omap] in Hq.
    fold (qualifying rest) in Hq.
    destruct result as [r|]; [|rewrite IH by exact Hq; lia].
    destruct (60 <=? suitability_score r); [|rewrite IH by exact Hq; lia].
    cbn [length] in Hq.
    destruct (Z.leb_spec max_areas (Z.of_nat (length (acc ++ [r])%list)))
      as [Hm|Hm]; rewrite length_app in Hm; cbn [length] in Hm; [lia|].
    rewrite IH; [lia|]. rewrite length_app. cbn [length]. lia.
Qed.

(** Each accepted result costs at least one processed future. *)
Lemma collect_accepted_le_processed max_areas completed acc n :
  Z.of_nat (length (collect max_areas completed acc n).1)
    - Z.of_nat (length acc)
  <= (collect max_areas completed acc n).2 - n.
Proof.
  revert acc n. induction completed as [|result rest IH]; intros acc n.
  - cbn. lia.
  - cbn [collect].
    destruct result as [r|]; [|specialize (IH acc (n + 1)); lia].
    destruct (60 <=? suitability_score r);
      [|specialize (IH acc (n + 1)); lia].
    destruct (max_areas <=? Z.of_nat (length (acc ++ [r])%list)).
    + cbn [fst snd]. rewrite length_app. cbn [length]. lia.
    + specialize (IH (acc ++ [r])%list (n + 1)).
      rewrite length_app in IH. cbn [length] in IH. lia.
Qed.

Lemma as_completed_length {A} (order : list nat) (futures : list A) :
  NoDup order ->
  (length (as_completed order futures) <= length futures)%nat.
Proof.
  intros Hnd. unfold as_completed.
  assert (Hlen : length (omap (fun i => futures !! i) order)
                 = length (filter (fun i => (i < length futures)%nat) order)).
  { clear Hnd. induction order as [|i order IH]; [done|].
    cbn [omap list_omap]. rewrite filter_cons.
    destruct (futures !! i) as [x|] eqn:E.
    - apply lookup_lt_Some in E. rewrite decide_True by done.
      cbn [length]. by f_equal.
    - apply lookup_ge_None in E. rewrite decide_False by lia. exact IH. }
  rewrite Hlen.
  assert (Hsub : filter (fun i => (i < length futures)%nat) order
                 ⊆+ seq 0 (length futures)).
  { apply NoDup_submseteq.
    - by apply NoDup_filter.
    - intros i Hi. apply list_elem_of_filter in Hi as [Hi _].
      apply elem_of_seq. lia. }
  apply submseteq_length in Hsub. by rewrite length_seq in Hsub.
Qed.

Lemma as_completed_permutation {A} (order : list nat) (futures : list A) :
  order ≡ₚ seq 0 (length futures) ->
  as_completed order futures ≡ₚ futures.
Proof.
  intros Hp. unfold as_completed. rewrite Hp.
  assert (H : forall (pre l : list A),
             omap (fun i => (pre ++ l)%list !! i) (seq (length pre) (length l))
             = l).
  { intros pre l. revert pre. induction l as [|x l IH]; intros pre; [done|].
    cbn [length seq omap list_omap].
    rewrite list_lookup_middle by done.
    f_equal. specialize (IH (pre ++ [x])%list).
    rewrite length_app, <- app_assoc in IH. cbn [length app] in IH.
    by rewrite Nat.add_1_r in IH. }
  specialize (H [] futures). cbn [app length] in H. by rewrite H.
Qed.

Lemma run_tasks_length np_sqrt env water_sources coordinates :
  length (run_tasks np_sqrt env water_sources coordinates)
  = length coordinates.
Proof. unfold run_tasks. by rewrite length_imap, length_map. Qed.

(** Rounding to the nearest integer keeps integer bounds. *)
Lemma py_round_lower (a : Z) (q : Q) :
  (inject_Z a <= q)%Q -> a <= Num.py_round q.
Proof.
  intros H. apply Qfloor_resp_le in H. rewrite Qfloor_Z in H.
  unfold Num.py_round.
  destruct (Qcompare _ _); [destruct (Z.even _)| |]; lia.
Qed.

Lemma py_round_upper (b : Z) (q : Q) :
  (q <= inject_Z b)%Q -> Num.py_round q <= b.
Proof.
  intros H. pose proof (Qfloor_resp_le _ _ H) as Hf. rewrite Qfloor_Z in Hf.
  assert (Hstep : (1 # 2 <= q - inject_Z (Qfloor q))%Q -> Qfloor q + 1 <= b).
  { intros Hr. destruct (Z.eq_dec (Qfloor q) b) as [E|E]; [|lia].
    rewrite E in Hr. lra. }
  unfold Num.py_round.
  destruct (Qcompare_spec (q - inject_Z (Qfloor q)) (1 # 2)) as [E|E|E].
  - destruct (Z.even _); [lia|]. apply Hstep. rewrite E. apply Qle_refl.
  - lia.
  - apply Hstep. by apply Qlt_le_weak.
Qed.

(** X1.  The accepted results are exactly the first [max(max_areas, 1)]
    qualifying results in completion order (all of them when fewer
    qualify). *)
Theorem X1_accepted_is_capped_prefix (np_sqrt : Q -> Q)
  (max_areas sample_size : Z) (env : Env) (water_sources : list WaterFeature) :
  (analysis_loop np_sqrt max_areas sample_size env water_sources).1
  = take (Z.to_nat (Z.max max_areas 1))
      (qualifying
         (as_completed (env_completion env)
            (run_tasks np_sqrt env water_sources
               (sampled_coordinates sample_size env)))).
Proof.
  unfold analysis_loop. rewrite collect_take. cbn [app length].
  f_equal. lia.
Qed.

(** X2.  When every task completes at most once, the summary of an answer
    satisfies [0 <= productive_areas <= total_analyzed], and
    [total_analyzed] is at most the number of coordinates analysed. *)
Theorem X2_summary_counts_ordered (np_sqrt : Q -> Q)
  (json_dump : list WaterFeature -> string)
  (json_load : string -> option (list WaterFeature))
  (max_areas sample_size : Z) (env : Env) (summary : Summary) :
  NoDup (env_completion env) ->
  response_summary
    (comprehensive_real_analysis np_sqrt json_dump json_load
       max_areas sample_size env) = Some summary ->
  0 <= productive_areas summary <= total_analyzed summary
  /\ total_analyzed summary
     <= Z.of_nat (length (sampled_coordinates sample_size env)).
Proof.
  intros Hnd H. apply endpoint_summary_inv in H as (_ & Ht & Hp & _).
  rewrite Hp, Ht. unfold analysis_loop.
  set (completed := as_completed (env_completion env) _).
  pose proof (collect_accepted_le_processed max_areas completed [] 0) as Ha.
  pose proof (collect_processed max_areas completed [] 0) as Hb.
  cbn [length] in Ha.
  assert (length completed <= length (sampled_coordinates sample_size env))%nat.
  { subst completed. etrans; [by apply as_completed_length|].
    by rewrite run_tasks_length. }
  lia.
Qed.

(** The counts at the request of [Samples.cached_env]. *)
Lemma X2_summary_counts_ordered_witness :
  0 <= productive_areas (mkSummary 11 2 (PyFloat (1818 # 100)))
    <= total_analyzed (mkSummary 11 2 (PyFloat (1818 # 100)))
  /\ total_analyzed (mkSummary 11 2 (PyFloat (1818 # 100)))
     <= Z.of_nat (length (sampled_coordinates 5000 Samples.cached_env)).
Proof.
  apply (X2_summary_counts_ordered Samples.sqrt_6dp Samples.json_dump
           Samples.json_load 100 5000 Samples.cached_env).
  - apply NoDup_seq.
  - vm_compute. reflexivity.
Defined.

(** X3.  The success rate of an answer is the integer 0 when nothing was
    processed, and otherwise a float between 0 and 100. *)
Theorem X3_success_rate_range (np_sqrt : Q -> Q)
  (json_dump : list WaterFeature -> string)
  (json_load : string -> option (list WaterFeature))
  (max_areas sample_size : Z) (env : Env) (summary : Summary) :
  response_summary
    (comprehensive_real_analysis np_sqrt json_dump json_load
       max_areas sample_size env) = Some summary ->
  (total_analyzed summary = 0 /\ success_rate summary = PyInt 0)
  \/ (0 < total_analyzed summary
      /\ exists q, success_rate summary = PyFloat q /\ (0 <= q <= 100)%Q).
Proof.
  intros H. apply endpoint_summary_inv in H as (_ & Ht & Hp & Hr).
  assert (Hle : 0 <= productive_areas summary <= total_analyzed summary).
  { rewrite Hp, Ht. unfold analysis_loop.
    set (completed := as_completed (env_completion env) _).
    pose proof (collect_accepted_le_processed max_areas completed [] 0) as Ha.
    cbn [length] in Ha. lia. }
  rewrite Hr. unfold success_rate_of.
  destruct (Z.ltb_spec 0 (total_analyzed summary)) as [Hpos|Hzero].
  - right. split; [done|]. eexists. split; [reflexivity|].
    set (x := (inject_Z (productive_areas summary)
               / inject_Z (total_analyzed summary) * 100)%Q).
    assert (Hx : (0 <= x <= 100)%Q).
    { subst x.
      assert (Hd : (0 < inject_Z (total_analyzed summary))%Q)
        by (rewrite <- (Zlt_Qlt 0); exact Hpos).
      assert (Hn : (0 <= inject_Z (productive_areas summary))%Q)
        by (rewrite <- (Zle_Qle 0); lia).
      assert (Hnd : (inject_Z (productive_areas summary)
                     <= inject_Z (total_analyzed summary))%Q)
        by (rewrite <- Zle_Qle; lia).
      assert (Hq : (0 <= inject_Z (productive_areas summary)
                         / inject_Z (total_analyzed summary) <= 1)%Q).
      { split.
        - apply Qle_shift_div_l; [exact Hd|]. lra.
        - apply Qle_shift_div_r; [exact Hd|]. lra. }
      lra. }
    clearbody x. unfold Num.py_round2.
    assert (H0 : 0 <= Num.py_round (x * 100)).
    { apply py_round_lower. change (inject_Z 0) with 0%Q. lra. }
    assert (H1 : Num.py_round (x * 100) <= 10000).
    { apply py_round_upper. change (inject_Z 10000) with 10000%Q. lra. }
    unfold Qle. cbn. lia.
  - left. split; [lia|done].
Qed.

(** The success rate at the request of [Samples.cached_env]. *)
Lemma X3_success_rate_range_witness :
  (total_analyzed (mkSummary 11 2 (PyFloat (1818 # 100))) = 0
   /\ success_rate (mkSummary 11 2 (PyFloat (1818 # 100))) = PyInt 0)
  \/ (0 < total_analyzed (mkSummary 11 2 (PyFloat (1818 # 100)))
      /\ exists q,
          success_rate (mkSummary 11 2 (PyFloat (1818 # 100))) = PyFloat q
          /\ (0 <= q <= 100)%Q).
Proof.
  apply (X3_success_rate_range Samples.sqrt_6dp Samples.json_dump
           Samples.json_load 100 5000 Samples.cached_env).
  vm_compute. reflexivity.
Defined.

(** X4.  When the completion order lists every task once and fewer results
    qualify than the loop accepts, every coordinate is processed and every
    qualifying result is accepted. *)
Theorem X4_exhaustive_run (np_sqrt : Q -> Q)
  (json_dump : list WaterFeature -> string)
  (json_load : string -> option (list WaterFeature))
  (max_areas sample_size : Z) (env : Env) (summary : Summary) :
  env_completion env
    ≡ₚ seq 0 (length (sampled_coordinates sample_size env)) ->
  (length (qualifying
             (run_tasks np_sqrt env (catalog_of json_dump json_load env)
                (sampled_coordinates sample_size env)))
   < Z.to_nat (Z.max max_areas 1))%nat ->
  response_summary
    (comprehensive_real_analysis np_sqrt json_dump json_load
       max_areas sample_size env) = Some summary ->
  total_analyzed summary
    = Z.of_nat (length (sampled_coordinates sample_size env))
  /\ productive_areas summary
     = Z.of_nat
         (length (qualifying
                    (run_tasks np_sqrt env (catalog_of json_dump json_load env)
                       (sampled_coordinates sample_size env)))).
Proof.
  intros Hperm Hfew H.
  apply endpoint_summary_inv in H as (_ & Ht & Hp & _).
  set (futures := run_tasks np_sqrt env (catalog_of json_dump json_load env)
                    (sampled_coordinates sample_size env)) in *.
  assert (Hc : as_completed (env_completion env) futures ≡ₚ futures).
  { apply as_completed_permutation. subst futures.
    by rewrite run_tasks_length. }
  assert (Hq : qualifying (as_completed (env_completion env) futures)
               ≡ₚ qualifying futures).
  { unfold qualifying. by rewrite Hc. }
  split.
  - rewrite Ht. unfold analysis_loop. fold futures.
    rewrite collect_processed_all.
    + rewrite Hc. subst futures. rewrite run_tasks_length. lia.
    + cbn [length]. rewrite Hq. lia.
  - rewrite Hp. unfold analysis_loop. fold futures.
    rewrite collect_take. cbn [app length].
    rewrite take_ge; [by rewrite Hq|]. rewrite Hq. lia.
Qed.

(** The exhaustive run at the request of [Samples.cached_env]. *)
Lemma X4_exhaustive_run_witness :
  total_analyzed (mkSummary 11 2 (PyFloat (1818 # 100)))
    = Z.of_nat (length (sampled_coordinates 5000 Samples.cached_env))
  /\ productive_areas (mkSummary 11 2 (PyFloat (1818 # 100)))
     = Z.of_nat
         (length (qualifying
                    (run_tasks Samples.sqrt_6dp Samples.cached_env
                       (catalog_of Samples.json_dump Samples.json_load
                          Samples.cached_env)
                       (sampled_coordinates 5000 Samples.cached_env)))).
Proof.
  apply (X4_exhaustive_run Samples.sqrt_6dp Samples.json_dump
           Samples.json_load 100 5000 Samples.cached_env).
  - reflexivity.
  - vm_compute. lia.
  - vm_compute. reflexivity.
Defined.

(** ** Sampling *)

Lemma py_slice_to_prefix {A} (n : Z) (l : list A) : py_slice_to n l `prefix_of` l.
Proof. unfold py_slice_to. destruct (0 <=? n); apply prefix_take. Qed.

(** X5.  The coordinates analysed are an initial part of the loaded ones:
    the first [sample_size] of them (all, when there are fewer) for
    [sample_size >= 0]; for a negative [sample_size] the slice counts from
    the end, so the last [-sample_size] coordinates are dropped. *)
Theorem X5_sampling (sample_size : Z) (env : Env) :
  sampled_coordinates sample_size env
    `prefix_of` load_coordinates_from_csv (env_disk env)
  /\ (0 <= sample_size ->
      length (sampled_coordinates sample_size env)
      = Nat.min (Z.to_nat sample_size)
          (length (load_coordinates_from_csv (env_disk env))))
  /\ (sample_size < 0 ->
      length (sampled_coordinates sample_size env)
      = (length (load_coordinates_from_csv (env_disk env))
         - Z.to_nat (- sample_size))%nat).
Proof.
  unfold sampled_coordinates.
  set (coordinates := load_coordinates_from_csv (env_disk env)).
  destruct (Z.ltb_spec sample_size (Z.of_nat (length coordinates))) as [H|H].
  - split; [apply py_slice_to_prefix|].
    unfold py_slice_to. split; intros Hs.
    + rewrite (proj2 (Z.leb_le 0 sample_size)) by done.
      rewrite length_take. lia.
    + rewrite (proj2 (Z.leb_gt 0 sample_size)) by done.
      rewrite length_take. lia.
  - split; [done|]. split; intros Hs; lia.
Qed.

(** ** The loader *)

Lemma water_type_of_cases tags :
  water_type_of tags = "" \/ recognised_type (water_type_of tags).
Proof.
  unfold water_type_of, recognised_type.
  destruct (tags !! "waterway") as [w|].
  - destruct (String.eqb w "river"); [tauto|].
    destruct (String.eqb w "stream"); [tauto|].
    destruct (String.eqb w "dam"); tauto.
  - destruct (bool_decide _); [tauto|].
    destruct (tags !! "water") as [w|]; [|tauto].
    destruct (String.eqb w "lake"); [tauto|].
    destruct (String.eqb w "reservoir"); tauto.
Qed.

Lemma feature_of_element_Some element w :
  feature_of_element element = Some w ->
  el_center element = Some (wf_lat w, wf_lon w)
  /\ wf_name w = default "Unnamed" (default ∅ (el_tags element) !! "name")
  /\ wf_type w = water_type_of (default ∅ (el_tags element))
  /\ recognised_type (wf_type w)
  /\ wf_source w = "OpenStreetMap".
Proof.
  unfold feature_of_element.
  destruct (el_center element) as [[lat lon]|]; [|done].
  destruct (water_type_of_cases (default ∅ (el_tags element))) as [E|E].
  - rewrite E. done.
  - destruct (String.eqb_spec (water_type_of (default ∅ (el_tags element))) "")
      as [E0|E0]; [done|].
    intros [= <-]. cbn. done.
Qed.

Lemma fetch_from_osm_features json_dump cache http write w :
  w ∈ (fetch_from_osm json_dump cache http write).1 ->
  exists elements element,
    http = Responded 200 (Some elements)
    /\ element ∈ elements
    /\ feature_of_element element = Some w.
Proof.
  unfold fetch_from_osm. destruct http as [|code [elements|]]; cbn.
  - intros H. by apply elem_of_nil in H.
  - destruct (Z.eqb_spec code 200) as [->|]; cbn.
    + intros H. apply list_elem_of_omap in H as (element & He & Hw). eauto.
    + intros H. by apply elem_of_nil in H.
  - destruct (code =? 200); intros H; by apply elem_of_nil in H.
Qed.

(** X6.  When no usable cache exists, every water source the loader returns
    comes from an element of the answer that has a centre, carries the
    coordinates of that centre, the element's name or "Unnamed", one of the
    five types river, stream, dam, lake, reservoir, and the source label
    "OpenStreetMap". *)
Theorem X6_loaded_features (json_dump : list WaterFeature -> string)
  (json_load : string -> option (list WaterFeature))
  (cache : CacheFile) (http : HttpOutcome) (write : WriteOutcome)
  (w : WaterFeature) :
  (forall text, cache = CacheContent text -> json_load text = None) ->
  w ∈ (get_all_water_sources_from_osm json_dump json_load cache http write).1 ->
  exists elements element,
    http = Responded 200 (Some elements)
    /\ element ∈ elements
    /\ el_center element = Some (wf_lat w, wf_lon w)
    /\ wf_name w = default "Unnamed" (default ∅ (el_tags element) !! "name")
    /\ recognised_type (wf_type w)
    /\ wf_source w = "OpenStreetMap".
Proof.
  intros Hcache Hw.
  assert (Hf : w ∈ (fetch_from_osm json_dump cache http write).1).
  { unfold get_all_water_sources_from_osm in Hw.
    destruct cache as [| |text]; try exact Hw.
    by rewrite (Hcache text eq_refl) in Hw. }
  apply fetch_from_osm_features in Hf as (elements & element & -> & He & Hw').
  apply feature_of_element_Some in Hw' as (Hc & Hn & _ & Ht & Hs).
  exists elements, element. done.
Qed.

(** The first source loaded from the three sample elements. *)
Lemma X6_loaded_features_witness :
  exists elements element,
    Responded 200 (Some Samples.three_elements) = Responded 200 (Some elements)
    /\ element ∈ elements
    /\ el_center element = Some (398 # 10, 331 # 10)
    /\ "Kizilirmak" = default "Unnamed" (default ∅ (el_tags element) !! "name")
    /\ recognised_type "river"
    /\ "OpenStreetMap" = "OpenStreetMap".
Proof.
  apply (X6_loaded_features Samples.json_dump Samples.json_load CacheAbsent
           (Responded 200 (Some Samples.three_elements)) WriteSucceeds
           (mkWaterFeature (398 # 10) (331 # 10) "Kizilirmak" "river"
              "OpenStreetMap")).
  - intros text H. discriminate H.
  - vm_compute. apply list_elem_of_here.
Defined.

(** X7.  The loader keeps the order of the answer and never returns more
    sources than the answer has elements: without a usable cache, on status
    200, the list returned is the sub-list of recognised elements, in their
    order, whatever happens to the write of the cache. *)
Theorem X7_loaded_order (json_dump : list WaterFeature -> string)
  (json_load : string -> option (list WaterFeature))
  (cache : CacheFile) (elements : list Element) (write : WriteOutcome) :
  (forall text, cache = CacheContent text -> json_load text = None) ->
  (get_all_water_sources_from_osm json_dump json_load cache
     (Responded 200 (Some elements)) write).1
  = omap feature_of_element elements
  /\ (length (get_all_water_sources_from_osm json_dump json_load cache
                (Responded 200 (Some elements)) write).1
      <= length elements)%nat
  /\ (Some <$> (get_all_water_sources_from_osm json_dump json_load cache
                  (Responded 200 (Some elements)) write).1)
       `sublist_of` (feature_of_element <$> elements).
Proof.
  intros Hcache.
  assert (E : (get_all_water_sources_from_osm json_dump json_load cache
                 (Responded 200 (Some elements)) write).1
              = omap feature_of_element elements).
  { unfold get_all_water_sources_from_osm.
    destruct cache as [| |text]; try reflexivity.
    by rewrite (Hcache text eq_refl). }
  rewrite E. split; [done|]. split.
  - clear. induction elements as [|e es IH]; [done|].
    cbn [omap list_omap length]. destruct (feature_of_element e); cbn; lia.
  - clear. induction elements as [|e es IH]; [done|].
    cbn [omap list_omap fmap list_fmap].
    destruct (feature_of_element e) as [w|].
    + cbn. by apply sublist_skip.
    + by apply sublist_cons.
Qed.

(** The order kept for the three sample elements, the write failing. *)
Lemma X7_loaded_order_witness :
  (get_all_water_sources_from_osm Samples.json_dump Samples.json_load
     CacheAbsent (Responded 200 (Some Samples.three_elements))
     (WriteFails CacheUnreadable)).1
  = omap feature_of_element Samples.three_elements.
Proof.
  apply (X7_loaded_order Samples.json_dump Samples.json_load CacheAbsent
           Samples.three_elements (WriteFails CacheUnreadable)).
  intros text H. discriminate H.
Defined.

(** X8.  A [waterway] tag decides alone: an element whose [waterway] value
    is none of river, stream, dam is dropped, even when it is also tagged
    [natural=water] or [water=lake]. *)
Theorem X8_waterway_shadows (centre : option (Q * Q))
  (tags : gmap string string) (waterway : string) :
  tags !! "waterway" = Some waterway ->
  waterway <> "river" -> waterway <> "stream" -> waterway <> "dam" ->
  feature_of_element (mkElement centre (Some tags)) = None.
Proof.
  intros Hw H1 H2 H3. unfold feature_of_element. cbn [el_center el_tags].
  change (default ∅ (Some tags)) with tags.
  destruct centre as [[lat lon]|]; [|done].
  unfold water_type_of. rewrite Hw.
  destruct (String.eqb_spec waterway "river"); [done|].
  destruct (String.eqb_spec waterway "stream"); [done|].
  destruct (String.eqb_spec waterway "dam"); [done|].
  reflexivity.
Qed.

(** A canal that is also tagged [natural=water] is dropped. *)
Lemma X8_waterway_shadows_witness :
  feature_of_element
    (mkElement (Some (398 # 10, 331 # 10))
       (Some (<["waterway" := "canal"]> (<["natural" := "water"]> ∅))))
  = None.
Proof.
  apply (X8_waterway_shadows (Some (398 # 10, 331 # 10))
           (<["waterway" := "canal"]> (<["natural" := "water"]> ∅)) "canal").
  - reflexivity.
  - discriminate.
  - discriminate.
  - discriminate.
Defined.

Lemma fetch_failed_query json_dump cache http write :
  (http = RequestRaises
   \/ (exists status_code body,
         http = Responded status_code body /\ status_code <> 200)
   \/ (exists status_code, http = Responded status_code None)) ->
  fetch_from_osm json_dump cache http write = ([], cache).
Proof.
  unfold fetch_from_osm.
  intros [->|[(code & body & -> & Hcode)|(code & ->)]].
  - reflexivity.
  - by rewrite (proj2 (Z.eqb_neq code 200)).
  - by destruct (code =? 200).
Qed.

(** X9.  Without a usable cache, a failed query (an exception, a status
    other than 200, or an answer that does not parse) makes the loader return
    the empty list and leave the cache file as it was. *)
Theorem X9_failed_query (json_dump : list WaterFeature -> string)
  (json_load : string -> option (list WaterFeature))
  (cache : CacheFile) (http : HttpOutcome) (write : WriteOutcome) :
  (forall text, cache = CacheContent text -> json_load text = None) ->
  (http = RequestRaises
   \/ (exists status_code body,
         http = Responded status_code body /\ status_code <> 200)
   \/ (exists status_code, http = Responded status_code None)) ->
  get_all_water_sources_from_osm json_dump json_load cache http write
  = ([], cache).
Proof.
  intros Hcache Hhttp.
  pose proof (fetch_failed_query json_dump cache http write Hhttp) as Hf.
  unfold get_all_water_sources_from_osm.
  destruct cache as [| |text]; try exact Hf.
  by rewrite (Hcache text eq_refl).
Qed.

(** A query answered with status 504 while the cache file is unreadable. *)
Lemma X9_failed_query_witness :
  get_all_water_sources_from_osm Samples.json_dump Samples.json_load
    CacheUnreadable (Responded 504 None) WriteSucceeds
  = ([], CacheUnreadable).
Proof.
  apply (X9_failed_query Samples.json_dump Samples.json_load CacheUnreadable
           (Responded 504 None) WriteSucceeds).
  - intros text H. discriminate H.
  - right. left. exists 504, None. split; [reflexivity|discriminate].
Defined.

(** X10.  An empty result is cached like any other: after a query with
    status 200 in which no element is recognised, and a successful write,
    the cache holds the empty list (provided its text parses back to it);
    from then on the analysis endpoint answers "Water sources could not be
    retrieved" whatever the network does. *)
Theorem X10_empty_result_is_cached (np_sqrt : Q -> Q)
  (json_dump : list WaterFeature -> string)
  (json_load : string -> option (list WaterFeature))
  (cache : CacheFile) (elements : list Element)
  (max_areas sample_size : Z) (env : Env) :
  (forall text, cache = CacheContent text -> json_load text = None) ->
  omap feature_of_element elements = [] ->
  json_load (json_dump []) = Some [] ->
  env_cache env
  = (get_all_water_sources_from_osm json_dump json_load cache
       (Responded 200 (Some elements)) WriteSucceeds).2 ->
  comprehensive_real_analysis np_sqrt json_dump json_load
    max_areas sample_size env
  = Failure "Water sources could not be retrieved".
Proof.
  intros Hcache Hnone Hcodec Henv.
  assert (Hc : env_cache env = CacheContent (json_dump [])).
  { rewrite Henv. unfold get_all_water_sources_from_osm.
    assert (fetch_from_osm json_dump cache (Responded 200 (Some elements))
              WriteSucceeds = ([], CacheContent (json_dump []))) as Hf.
    { unfold fetch_from_osm. cbn. by rewrite Hnone. }
    destruct cache as [| |text]; try (by rewrite Hf).
    by rewrite (Hcache text eq_refl), Hf. }
  apply endpoint_failure. unfold catalog_of.
  rewrite Hc. unfold get_all_water_sources_from_osm. by rewrite Hcodec.
Qed.

(** The cache left by an answer with one unrecognised element, and the
    analysis made from it while the query service answers again. *)
Lemma X10_empty_result_is_cached_witness :
  comprehensive_real_analysis Samples.sqrt_6dp Samples.json_dump
    Samples.json_load 100 5000
    (mkEnv (CacheContent "[]")
       (Responded 200 (Some Samples.three_elements)) WriteSucceeds
       (fun _ => CsvMissing) (fun _ => Samples.constant_rng 0) (seq 0 11)
       (1234 # 1000))
  = Failure "Water sources could not be retrieved".
Proof.
  apply (X10_empty_result_is_cached Samples.sqrt_6dp Samples.json_dump
           Samples.json_load CacheAbsent
           [mkElement (Some (371 # 10, 352 # 10))
              (Some (<["highway" := "path"]> ∅))]).
  - intros text H. discriminate H.
  - reflexivity.
  - reflexivity.
  - reflexivity.
Defined.

(** ** More on the scorer *)

Lemma water_points_antitone d d' :
  (d <= d')%Q -> Scorer.water_points d' <= Scorer.water_points d.
Proof.
  intros H. unfold Scorer.water_points.
  destruct (Qle_bool d' 5) eqn:E5'.
  - apply Qle_bool_iff in E5'.
    rewrite (proj2 (Qle_bool_iff d 5)) by (by eapply Qle_trans). lia.
  - destruct (Qle_bool d' 10) eqn:E10'.
    + apply Qle_bool_iff in E10'.
      destruct (Qle_bool d 5); [lia|].
      rewrite (proj2 (Qle_bool_iff d 10)) by (by eapply Qle_trans). lia.
    + destruct (Qle_bool d 5); [lia|]. destruct (Qle_bool d 10); lia.
Qed.

Lemma slope_points_antitone x x' :
  (x <= x')%Q -> Scorer.slope_points x' <= Scorer.slope_points x.
Proof.
  intros H. unfold Scorer.slope_points.
  destruct (Qle_bool x' 5) eqn:E5'.
  - apply Qle_bool_iff in E5'.
    rewrite (proj2 (Qle_bool_iff x 5)) by (by eapply Qle_trans). lia.
  - destruct (Qle_bool x' 10) eqn:E10'.
    + apply Qle_bool_iff in E10'.
      destruct (Qle_bool x 5); [lia|].
      rewrite (proj2 (Qle_bool_iff x 10)) by (by eapply Qle_trans). lia.
    + destruct (Qle_bool x 5); [lia|]. destruct (Qle_bool x 10); lia.
Qed.

Lemma elevation_points_antitone m m' :
  m <= m' -> Scorer.elevation_points m' <= Scorer.elevation_points m.
Proof.
  intros H. unfold Scorer.elevation_points.
  destruct (Z.leb_spec m' 800), (Z.leb_spec m' 1500),
    (Z.leb_spec m 800), (Z.leb_spec m 1500); lia.
Qed.

(** X12.  The score never rewards being farther from water, steeper or
    higher: of two rows with the same soil productivity, precipitation,
    sunshine and landcover, the one that is at most as far from water, at
    most as steep and at most as high scores at least as much. *)
Theorem X12_score_monotone (better worse : AttrRow) :
  (water_distance_km better <= water_distance_km worse)%Q ->
  (slope_percent better <= slope_percent worse)%Q ->
  elevation_m better <= elevation_m worse ->
  soil_productivity better = soil_productivity worse ->
  annual_precipitation_mm better = annual_precipitation_mm worse ->
  sunshine_hours better = sunshine_hours worse ->
  landcover_type better = landcover_type worse ->
  (Scorer.calculate_comprehensive_suitability worse).1.1
  <= (Scorer.calculate_comprehensive_suitability better).1.1.
Proof.
  intros Hw Hs He Hq Hp Hh Hl.
  rewrite !score_decomposition. unfold Scorer.lc_type_of.
  rewrite Hq, Hp, Hh, Hl.
  pose proof (water_points_antitone _ _ Hw).
  pose proof (slope_points_antitone _ _ Hs).
  pose proof (elevation_points_antitone _ _ He).
  lia.
Qed.

(** The sample row against the same row twelve kilometres from water. *)
Lemma X12_score_monotone_witness :
  (Scorer.calculate_comprehensive_suitability
     (mkAttrRow (399334 # 10000) (328597 # 10000) 100 2 12 "Kizilirmak"
        "river" (12 # 10) "Loamy" (68 # 10) "high" 600 2000 "Continental"
        (Some "Farmland") "" "OSM")).1.1
  <= (Scorer.calculate_comprehensive_suitability Samples.farmland_row).1.1.
Proof.
  apply (X12_score_monotone Samples.farmland_row
           (mkAttrRow (399334 # 10000) (328597 # 10000) 100 2 12 "Kizilirmak"
              "river" (12 # 10) "Loamy" (68 # 10) "high" 600 2000
              "Continental" (Some "Farmland") "" "OSM"));
    first [reflexivity | discriminate | lia].
Defined.

Lemma tally_ok_award pts reason detail t :
  7 <= pts -> reason <> "" -> tally_ok t ->
  tally_ok (Scorer.award pts reason detail t).
Proof.
  intros Hpts Hr (Hiff & Hrange & Hall). unfold tally_ok, Scorer.award.
  cbn [Scorer.score Scorer.reasons]. split; [|split].
  - split; [lia|]. intros H. by apply app_eq_nil in H as [_ ?].
  - lia.
  - apply Forall_app. split; [done|]. by apply Forall_singleton.
Qed.

Lemma tally_ok_steps row : tally_ok (Scorer.tally_of row).
Proof.
  assert (H0 : tally_ok Scorer.empty_tally).
  { unfold tally_ok. cbn. split; [done|]. split; [by left|constructor]. }
  unfold Scorer.tally_of.
  assert (Hw : tally_ok (Scorer.score_water row Scorer.empty_tally)).
  { unfold Scorer.score_water.
    destruct (Qle_bool _ 5); [by apply tally_ok_award|].
    destruct (Qle_bool _ 10); [by apply tally_ok_award|done]. }
  assert (Hs : tally_ok (Scorer.score_slope row
                           (Scorer.score_water row Scorer.empty_tally))).
  { unfold Scorer.score_slope.
    destruct (Qle_bool _ 5); [by apply tally_ok_award|].
    destruct (Qle_bool _ 10); [by apply tally_ok_award|done]. }
  assert (He : tally_ok (Scorer.score_elevation row
                           (Scorer.score_slope row
                              (Scorer.score_water row Scorer.empty_tally)))).
  { unfold Scorer.score_elevation.
    destruct (_ <=? 800); [by apply tally_ok_award|].
    destruct (_ <=? 1500); [by apply tally_ok_award|done]. }
  set (t3 := Scorer.score_elevation row _) in *.
  assert (Hq : tally_ok (Scorer.score_soil row t3)).
  { unfold Scorer.score_soil.
    destruct (String.eqb _ "high"); [by apply tally_ok_award|].
    destruct (String.eqb _ "medium-high"); [by apply tally_ok_award|done]. }
  set (t4 := Scorer.score_soil row t3) in *.
  assert (Hp : tally_ok (Scorer.score_precipitation row t4)).
  { unfold Scorer.score_precipitation.
    destruct (_ && _); [by apply tally_ok_award|done]. }
  set (t5 := Scorer.score_precipitation row t4) in *.
  assert (Hh : tally_ok (Scorer.score_sunshine row t5)).
  { unfold Scorer.score_sunshine.
    destruct (_ && _); [by apply tally_ok_award|done]. }
  set (t6 := Scorer.score_sunshine row t5) in *.
  unfold Scorer.score_landcover.
  destruct (Scorer.landcover_match _); [by apply tally_ok_award|done].
Qed.

Lemma join_empty sep parts :
  Forall (fun part => part <> "") parts ->
  Text.join sep parts = "" <-> parts = [].
Proof.
  intros Hall. split; [|by intros ->].
  destruct parts as [|p rest]; [done|].
  apply Forall_cons in Hall as [Hp _]. intros H. exfalso. apply Hp.
  destruct rest as [|q rest]; cbn [Text.join] in H; [done|].
  destruct p; [done|discriminate H].
Qed.

(** X13.  The short reason text is empty exactly when the score is 0, and a
    row with a positive score scores at least 7. *)
Theorem X13_reasons_iff_points (row : AttrRow) :
  ((Scorer.calculate_comprehensive_suitability row).1.2 = ""
   <-> (Scorer.calculate_comprehensive_suitability row).1.1 = 0)
  /\ ((Scorer.calculate_comprehensive_suitability row).1.1 = 0
      \/ 7 <= (Scorer.calculate_comprehensive_suitability row).1.1).
Proof.
  destruct (tally_ok_steps row) as (Hiff & Hrange & Hall).
  unfold Scorer.calculate_comprehensive_suitability. cbn [fst snd].
  split; [|exact Hrange].
  rewrite (join_empty ", " _ Hall). symmetry. exact Hiff.
Qed.

(** ** More on the per-coordinate analysis *)

Section AnalysisFields.

Variable np_sqrt : Q -> Q.

(** The elevation and the slope drawn for a coordinate: the first and the
    second draw of the generator, scaled to the band. *)
Lemma quick_elevation_draw lat lon g :
  (quick_elevation_estimate lat lon g).2 = (fun n => g (S n)).
Proof.
  unfold quick_elevation_estimate.
  destruct (Num.Qltb lat 37); [done|].
  destruct (Num.Qltb lat 39); [done|].
  by destruct (Num.Qltb lat 41).
Qed.

Lemma quick_slope_draw elevation lat lon g :
  (quick_slope_estimate elevation lat lon g).2 = (fun n => g (S n)).
Proof.
  unfold quick_slope_estimate.
  destruct (Num.Qltb elevation 200); [done|].
  destruct (Num.Qltb elevation 500); [done|].
  by destruct (Num.Qltb elevation 1000).
Qed.

(** The attributes of the row built for an analysed coordinate. *)
Lemma analyze_fields lat lon original_data water_sources g :
  bounding_check lat lon = false ->
  exists row,
    analyze_coordinate_with_real_water np_sqrt (lat, lon, original_data)
      water_sources g
    = (Some row, fun n => g (S (S (S n))))
    /\ elevation_m (attrs row)
       = Num.py_round (Rand.run (quick_elevation_estimate lat lon) g)
    /\ slope_percent (attrs row)
       = Num.py_round1
           (Rand.run (quick_slope_estimate
                        (Rand.run (quick_elevation_estimate lat lon) g) lat lon)
              (fun n => g (S n)))
    /\ soil_productivity (attrs row)
       = sd_productivity
           (estimate_soil_quality lat lon
              (Rand.run (quick_elevation_estimate lat lon) g))
    /\ annual_precipitation_mm (attrs row)
       = cd_annual_precipitation_mm (get_climate_data lat lon)
    /\ sunshine_hours (attrs row) = cd_sunshine_hours (get_climate_data lat lon)
    /\ water_distance_km (attrs row)
       = Num.py_round1
           (nw_distance_km
              (calculate_distance_to_nearest_water np_sqrt lat lon water_sources))
    /\ nearest_water_name (attrs row)
       = nw_name (calculate_distance_to_nearest_water np_sqrt lat lon
                    water_sources)
    /\ nearest_water_type (attrs row)
       = nw_type (calculate_distance_to_nearest_water np_sqrt lat lon
                    water_sources)
    /\ landcover_type (attrs row)
       = Some (default "agriculture" (original_data !! "type"))
    /\ suitability_score row
       = (Scorer.calculate_comprehensive_suitability (attrs row)).1.1
    /\ suitability_category row
       = Scorer.categorize_suitability (suitability_score row).
Proof.
  intros Hb. unfold analyze_coordinate_with_real_water.
  rewrite Hb. unfold Rand.bind, Rand.run.
  pose proof (quick_elevation_draw lat lon g) as Hg1.
  destruct (quick_elevation_estimate lat lon g) as [elevation g1].
  cbn [fst snd] in *. subst g1.
  pose proof (quick_slope_draw elevation lat lon (fun n => g (S n))) as Hg2.
  destruct (quick_slope_estimate elevation lat lon (fun n => g (S n)))
    as [slope g2].
  cbn [fst snd] in *. subst g2.
  unfold calculate_realistic_urban_distance, Rand.bind, Rand.uniform, Rand.ret.
  match goal with
  | |- context [Scorer.calculate_comprehensive_suitability ?r] =>
      set (enhanced_row := r)
  end.
  destruct (Scorer.calculate_comprehensive_suitability enhanced_row)
    as [[score reasons] detailed] eqn:E.
  eexists. split; [reflexivity|].
  cbn [attrs suitability_score suitability_category].
  rewrite E. subst enhanced_row. cbn. repeat split.
Qed.

End AnalysisFields.

Section DrawsUsed.

Variable np_sqrt : Q -> Q.

(** Each of the three estimators reads the next draw of the generator and
    nothing else of it. *)
Lemma quick_elevation_first_draw lat lon g :
  Rand.run (quick_elevation_estimate lat lon) g
  = Rand.run (quick_elevation_estimate lat lon) (fun _ => g 0%nat).
Proof.
  unfold quick_elevation_estimate, Rand.run.
  destruct (Num.Qltb lat 37); [done|].
  destruct (Num.Qltb lat 39); [done|].
  by destruct (Num.Qltb lat 41).
Qed.

Lemma quick_slope_first_draw elevation lat lon g :
  Rand.run (quick_slope_estimate elevation lat lon) g
  = Rand.run (quick_slope_estimate elevation lat lon) (fun _ => g 0%nat).
Proof.
  unfold quick_slope_estimate, Rand.run.
  destruct (Num.Qltb elevation 200); [done|].
  destruct (Num.Qltb elevation 500); [done|].
  by destruct (Num.Qltb elevation 1000).
Qed.

Lemma urban_distance_first_draw lat lon g :
  Rand.run (calculate_realistic_urban_distance np_sqrt lat lon) g
  = Rand.run (calculate_realistic_urban_distance np_sqrt lat lon)
      (fun _ => g 0%nat).
Proof. reflexivity. Qed.

(** The urban distance of the row built for an analysed coordinate: the
    third draw is its jitter. *)
Lemma analyze_urban_field lat lon original_data water_sources g :
  bounding_check lat lon = false ->
  exists row,
    analyze_coordinate_with_real_water np_sqrt (lat, lon, original_data)
      water_sources g
    = (Some row, fun n => g (S (S (S n))))
    /\ urban_distance_km (attrs row)
       = Num.py_round1
           (Rand.run (calculate_realistic_urban_distance np_sqrt lat lon)
              (fun n => g (S (S n))) / 1000).
Proof.
  intros Hb. unfold analyze_coordinate_with_real_water.
  rewrite Hb. unfold Rand.bind, Rand.run.
  pose proof (quick_elevation_draw lat lon g) as Hg1.
  destruct (quick_elevation_estimate lat lon g) as [elevation g1].
  cbn [fst snd] in *. subst g1.
  pose proof (quick_slope_draw elevation lat lon (fun n => g (S n))) as Hg2.
  destruct (quick_slope_estimate elevation lat lon (fun n => g (S n)))
    as [slope g2].
  cbn [fst snd] in *. subst g2.
  unfold calculate_realistic_urban_distance, Rand.bind, Rand.uniform, Rand.ret.
  match goal with
  | |- context [Scorer.calculate_comprehensive_suitability ?r] =>
      set (enhanced_row := r)
  end.
  destruct (Scorer.calculate_comprehensive_suitability enhanced_row)
    as [[score reasons] detailed] eqn:E.
  eexists. split; [reflexivity|]. reflexivity.
Qed.

End DrawsUsed.

(** X14.  An analysed coordinate uses exactly three draws of the generator,
    in this order: the first gives the elevation, the second the slope, the
    third the jitter of the urban distance; the generator is left three
    draws further.  A rejected coordinate uses none. *)
Theorem X14_draws_consumed (np_sqrt : Q -> Q) (lat lon : Q)
  (original_data : gmap string string) (water_sources : list WaterFeature)
  (g : Rand.Rng) :
  (forall n : nat,
     (analyze_coordinate_with_real_water np_sqrt (lat, lon, original_data)
        water_sources g).2 n
     = if bounding_check lat lon then g n else g (3 + n)%nat)
  /\ (bounding_check lat lon = false ->
      exists row,
        (analyze_coordinate_with_real_water np_sqrt (lat, lon, original_data)
           water_sources g).1 = Some row
        /\ elevation_m (attrs row)
           = Num.py_round
               (Rand.run (quick_elevation_estimate lat lon)
                  (fun _ => g 0%nat))
        /\ slope_percent (attrs row)
           = Num.py_round1
               (Rand.run
                  (quick_slope_estimate
                     (Rand.run (quick_elevation_estimate lat lon)
                        (fun _ => g 0%nat)) lat lon)
                  (fun _ => g 1%nat))
        /\ urban_distance_km (attrs row)
           = Num.py_round1
               (Rand.run (calculate_realistic_urban_distance np_sqrt lat lon)
                  (fun _ => g 2%nat) / 1000)).
Proof.
  split.
  - intros n. destruct (bounding_check lat lon) eqn:Hb.
    + unfold analyze_coordinate_with_real_water. by rewrite Hb.
    + destruct (analyze_fields np_sqrt lat lon original_data water_sources g Hb)
        as (row & -> & _).
      reflexivity.
  - intros Hb.
    destruct (analyze_fields np_sqrt lat lon original_data water_sources g Hb)
      as (row & Hrun & He & Hs & _).
    destruct (analyze_urban_field np_sqrt lat lon original_data water_sources
                g Hb) as (row' & Hrun' & Hu).
    rewrite Hrun in Hrun'. injection Hrun' as <-.
    exists row. rewrite Hrun. split; [reflexivity|].
    rewrite He, Hs, Hu.
    rewrite (quick_elevation_first_draw lat lon g).
    rewrite (quick_slope_first_draw _ lat lon (fun n => g (S n))).
    rewrite (urban_distance_first_draw np_sqrt lat lon (fun n => g (S (S n)))).
    repeat split.
Qed.

(** The three draws at the first fallback coordinate, the draws being
    0.5, 0.25, 0.75, ... *)
Lemma X14_draws_consumed_witness :
  exists row,
    (analyze_coordinate_with_real_water Samples.sqrt_6dp
       (399334 # 10000, 328597 # 10000, ∅) Samples.two_sources
       (fun n => match n with
                 | O => 1 # 2
                 | S O => 1 # 4
                 | _ => 3 # 4
                 end)).1 = Some row
    /\ elevation_m (attrs row) = 500
    /\ slope_percent (attrs row) = 62 # 10.
Proof.
  destruct (proj2 (X14_draws_consumed Samples.sqrt_6dp (399334 # 10000)
                     (328597 # 10000) ∅ Samples.two_sources
                     (fun n => match n with
                               | O => 1 # 2
                               | S O => 1 # 4
                               | _ => 3 # 4
                               end)))
    as (row & Hrow & He & Hs & _); [reflexivity|].
  exists row. split; [exact Hrow|]. split.
  - rewrite He. vm_compute. reflexivity.
  - rewrite Hs. vm_compute. reflexivity.
Defined.

Lemma uniform_range (low high u : Q) :
  (low <= high)%Q -> (0 <= u <= 1)%Q ->
  (low <= low + (high - low) * u <= high)%Q.
Proof. intros H [H0 H1]. split; nra. Qed.

(** X15.  With draws in [[0, 1]], the elevation estimate lies in the range
    of the latitude band (50..300, 800..1200, 200..800, 1000..1800), the
    slope estimate in the range of the elevation band (1..3, 2..6, 5..10,
    8..20), and so the row of every analysed coordinate has
    [50 <= elevation_m <= 1800] and [1 <= slope_percent <= 20]. *)
Theorem X15_estimate_ranges (np_sqrt : Q -> Q) (lat lon : Q)
  (original_data : gmap string string) (water_sources : list WaterFeature)
  (g : Rand.Rng) (row : EnhancedRow) :
  (forall n, 0 <= g n <= 1)%Q ->
  Rand.run (analyze_coordinate_with_real_water np_sqrt
              (lat, lon, original_data) water_sources) g = Some row ->
  50 <= elevation_m (attrs row) <= 1800
  /\ (1 <= slope_percent (attrs row) <= 20)%Q
  /\ ((lat < 37)%Q -> 50 <= elevation_m (attrs row) <= 300)
  /\ ((37 <= lat)%Q -> (lat < 39)%Q -> 800 <= elevation_m (attrs row) <= 1200)
  /\ ((39 <= lat)%Q -> (lat < 41)%Q -> 200 <= elevation_m (attrs row) <= 800)
  /\ ((41 <= lat)%Q -> 1000 <= elevation_m (attrs row) <= 1800).
Proof.
  intros Hg Hrun.
  destruct (bounding_check lat lon) eqn:Hb;
    [by rewrite analyze_rejects in Hrun|].
  destruct (analyze_fields np_sqrt lat lon original_data water_sources g Hb)
    as (row' & Hrun' & He & Hs & _).
  unfold Rand.run in Hrun. rewrite Hrun' in Hrun. injection Hrun as ->.
  rewrite He, Hs. clear He Hs Hrun'.
  pose proof (Hg 0%nat) as Hu0. pose proof (Hg 1%nat) as Hu1.
  assert (Hround : forall (a b : Z) (q : Q),
             (inject_Z a <= q <= inject_Z b)%Q -> a <= Num.py_round q <= b).
  { intros a b q [Ha Hq]. split; [by apply py_round_lower|by apply py_round_upper]. }
  assert (Hslope : (1 <= Num.py_round1
                          (Rand.run (quick_slope_estimate
                                       (Rand.run (quick_elevation_estimate lat lon) g)
                                       lat lon) (fun n => g (S n))) <= 20)%Q).
  { set (elevation := Rand.run (quick_elevation_estimate lat lon) g).
    unfold quick_slope_estimate, Rand.run, Rand.uniform.
    assert (Hr : forall s, (1 <= s <= 20)%Q -> (1 <= Num.py_round1 s <= 20)%Q).
    { intros s Hs'. unfold Num.py_round1.
      destruct (Hround 10 200 (s * 10)%Q) as [? ?].
      { change (inject_Z 10) with 10%Q. change (inject_Z 200) with 200%Q. lra. }
      unfold Qle. cbn. lia. }
    destruct (Num.Qltb elevation 200); [|destruct (Num.Qltb elevation 500);
      [|destruct (Num.Qltb elevation 1000)]]; cbn [fst]; apply Hr; lra. }
  split; [|split; [exact Hslope|]].
  - unfold quick_elevation_estimate, Rand.run, Rand.uniform.
    destruct (Num.Qltb lat 37); [|destruct (Num.Qltb lat 39);
      [|destruct (Num.Qltb lat 41)]]; cbn [fst];
      match goal with
      | |- _ <= Num.py_round ?q <= _ =>
          assert (inject_Z 50 <= q <= inject_Z 1800)%Q
            by (change (inject_Z 50) with 50%Q;
                change (inject_Z 1800) with 1800%Q; lra)
      end; by apply Hround.
  - unfold quick_elevation_estimate, Rand.run, Rand.uniform.
    split; [|split; [|split]].
    + intros H1. rewrite (proj2 (Qltb_lt lat 37) H1). cbn [fst].
      apply (Hround 50 300). change (inject_Z 50) with 50%Q.
      change (inject_Z 300) with 300%Q. lra.
    + intros H1 H2.
      rewrite (proj2 (Qltb_ge lat 37) H1), (proj2 (Qltb_lt lat 39) H2).
      cbn [fst]. apply (Hround 800 1200). change (inject_Z 800) with 800%Q.
      change (inject_Z 1200) with 1200%Q. lra.
    + intros H1 H2.
      rewrite (proj2 (Qltb_ge lat 37)) by lra.
      rewrite (proj2 (Qltb_ge lat 39) H1), (proj2 (Qltb_lt lat 41) H2).
      cbn [fst]. apply (Hround 200 800). change (inject_Z 200) with 200%Q.
      change (inject_Z 800) with 800%Q. lra.
    + intros H1.
      rewrite (proj2 (Qltb_ge lat 37)) by lra.
      rewrite (proj2 (Qltb_ge lat 39)) by lra.
      rewrite (proj2 (Qltb_ge lat 41) H1).
      cbn [fst]. apply (Hround 1000 1800). change (inject_Z 1000) with 1000%Q.
      change (inject_Z 1800) with 1800%Q. lra.
Qed.

(** The ranges at the first fallback coordinate, every draw being 1/2. *)
Lemma X15_estimate_ranges_witness :
  50 <= elevation_m (attrs Samples.ankara_row) <= 1800
  /\ (1 <= slope_percent (attrs Samples.ankara_row) <= 20)%Q
  /\ 200 <= elevation_m (attrs Samples.ankara_row) <= 800.
Proof.
  destruct (X15_estimate_ranges Samples.sqrt_6dp (399334 # 10000)
              (328597 # 10000) ∅ Samples.two_sources
              (Samples.constant_rng (1 # 2)) Samples.ankara_row)
    as (H1 & H2 & _ & _ & H3 & _).
  - intros n. unfold Samples.constant_rng. split; discriminate.
  - vm_compute. reflexivity.
  - split; [exact H1|]. split; [exact H2|].
    apply H3; [discriminate|reflexivity].
Defined.

(** ** What the pipeline can score *)

Section PipelineBounds.

Variable np_sqrt : Q -> Q.

Lemma run_tasks_elem_rng env water_sources coordinates result :
  result ∈ run_tasks np_sqrt env water_sources coordinates ->
  exists i lat lon,
    result = Rand.run (analyze_coordinate_with_real_water np_sqrt
                         (lat, lon, ∅) water_sources) (env_rng env i).
Proof.
  unfold run_tasks. intros H.
  apply list_elem_of_lookup in H as [i Hi].
  rewrite list_lookup_imap in Hi.
  destruct (_ !! i) as [coord|] eqn:Ec; [|done].
  change (map ?f coordinates) with (f <$> coordinates) in Ec.
  rewrite list_lookup_fmap in Ec.
  destruct (coordinates !! i) as [[lat lon]|]; [|done].
  cbn in Ec, Hi. injection Ec as <-. injection Hi as <-.
  by exists i, lat, lon.
Qed.

(** The climate of a latitude band gives 8 points south of 37 degrees, 7
    points between 37 and 41 degrees, and 15 points from 41 degrees on. *)
Lemma climate_points lat lon :
  let climate := get_climate_data lat lon in
  ((lat < 37)%Q ->
   Scorer.precipitation_points (cd_annual_precipitation_mm climate) = 8
   /\ Scorer.sunshine_points (cd_sunshine_hours climate) = 0)
  /\ ((37 <= lat)%Q -> (lat < 41)%Q ->
      Scorer.precipitation_points (cd_annual_precipitation_mm climate) = 0
      /\ Scorer.sunshine_points (cd_sunshine_hours climate) = 7)
  /\ ((41 <= lat)%Q ->
      Scorer.precipitation_points (cd_annual_precipitation_mm climate) = 8
      /\ Scorer.sunshine_points (cd_sunshine_hours climate) = 7).
Proof.
  cbv zeta. unfold get_climate_data. split; [|split].
  - intros H. by rewrite (proj2 (Qltb_lt lat 37) H).
  - intros H1 H2. rewrite (proj2 (Qltb_ge lat 37) H1).
    destruct (Num.Qltb lat 39); [done|].
    by rewrite (proj2 (Qltb_lt lat 41) H2).
  - intros H. rewrite (proj2 (Qltb_ge lat 37)) by lra.
    rewrite (proj2 (Qltb_ge lat 39)) by lra.
    by rewrite (proj2 (Qltb_ge lat 41) H).
Qed.

(** From 41 degrees north on, with non-negative draws, the elevation
    estimate is at least 1000 m: the soil is "low", the elevation is out of
    the first tier and the slope is out of the first tier. *)
Lemma north_band_points lat lon g :
  (41 <= lat)%Q -> (0 <= g 0%nat)%Q -> (0 <= g 1%nat)%Q ->
  let elevation := Rand.run (quick_elevation_estimate lat lon) g in
  Scorer.soil_points (sd_productivity (estimate_soil_quality lat lon elevation))
  = 0
  /\ Scorer.elevation_points (Num.py_round elevation) <= 10
  /\ Scorer.slope_points
       (Num.py_round1
          (Rand.run (quick_slope_estimate elevation lat lon) (fun n => g (S n))))
     <= 15.
Proof.
  intros Hlat Hu0 Hu1. cbv zeta.
  assert (He : (1000 <= Rand.run (quick_elevation_estimate lat lon) g)%Q).
  { unfold quick_elevation_estimate, Rand.run, Rand.uniform.
    rewrite (proj2 (Qltb_ge lat 37)) by lra.
    rewrite (proj2 (Qltb_ge lat 39)) by lra.
    rewrite (proj2 (Qltb_ge lat 41) Hlat). cbn [fst]. lra. }
  set (elevation := Rand.run (quick_elevation_estimate lat lon) g) in *.
  clearbody elevation.
  split; [|split].
  - unfold estimate_soil_quality.
    rewrite (proj2 (Qltb_ge elevation 200)) by lra.
    rewrite (proj2 (Qltb_ge elevation 500)) by lra.
    by rewrite (proj2 (Qltb_ge elevation 1000) He).
  - assert (1000 <= Num.py_round elevation)
      by (apply py_round_lower; change (inject_Z 1000) with 1000%Q; lra).
    unfold Scorer.elevation_points.
    rewrite (proj2 (Z.leb_gt (Num.py_round elevation) 800)) by lia.
    destruct (_ <=? 1500); lia.
  - unfold quick_slope_estimate, Rand.run, Rand.uniform.
    rewrite (proj2 (Qltb_ge elevation 200)) by lra.
    rewrite (proj2 (Qltb_ge elevation 500)) by lra.
    rewrite (proj2 (Qltb_ge elevation 1000) He). cbn [fst].
    set (slope := (8 + (20 - 8) * g 1%nat)%Q).
    assert (Hs : 80 <= Num.py_round (slope * 10)).
    { apply py_round_lower. change (inject_Z 80) with 80%Q. subst slope. lra. }
    unfold Scorer.slope_points, Num.py_round1.
    assert (Qle_bool (Num.py_round (slope * 10) # 10) 5 = false) as ->.
    { destruct (Qle_bool _ 5) eqn:E; [|done].
      apply Qle_bool_iff in E. unfold Qle in E. cbn in E. lia. }
    destruct (Qle_bool _ 10); lia.
Qed.

(** A task of the endpoint scores at most 78 when its draws are
    non-negative. *)
Lemma task_score_bound lat lon water_sources g row :
  (forall n, 0 <= g n)%Q ->
  Rand.run (analyze_coordinate_with_real_water np_sqrt (lat, lon, ∅)
              water_sources) g = Some row ->
  suitability_score row <= 78
  /\ suitability_category row
     = Scorer.categorize_suitability (suitability_score row).
Proof.
  intros Hg Hrun.
  destruct (bounding_check lat lon) eqn:Hb;
    [by rewrite analyze_rejects in Hrun|].
  destruct (analyze_fields np_sqrt lat lon ∅ water_sources g Hb)
    as (row' & Hrun' & He & Hs & Hq & Hp & Hh & _ & _ & _ & Hlc & Hscore & Hcat).
  unfold Rand.run in Hrun. rewrite Hrun' in Hrun. injection Hrun as ->.
  split; [|exact Hcat].
  rewrite Hscore, score_decomposition, He, Hs, Hq, Hp, Hh.
  unfold Scorer.lc_type_of. rewrite Hlc, lookup_empty.
  change (Scorer.landcover_points _) with 0.
  destruct (climate_points lat lon) as (Hsouth & Hmid & Hnorth).
  pose proof (water_points_tier (water_distance_km (attrs row))) as Hw.
  pose proof (slope_points_tier
                (Num.py_round1
                   (Rand.run (quick_slope_estimate
                                (Rand.run (quick_elevation_estimate lat lon) g)
                                lat lon) (fun n => g (S n))))) as Hsl.
  pose proof (elevation_points_tier
                (Num.py_round (Rand.run (quick_elevation_estimate lat lon) g)))
    as Hel.
  pose proof (soil_points_tier
                (sd_productivity
                   (estimate_soil_quality lat lon
                      (Rand.run (quick_elevation_estimate lat lon) g)))) as Hso.
  destruct (Qlt_le_dec lat 37) as [H37|H37].
  - destruct (Hsouth H37) as [-> ->]. lia.
  - destruct (Qlt_le_dec lat 41) as [H41|H41].
    + destruct (Hmid H37 H41) as [-> ->]. lia.
    + destruct (Hnorth H41) as [-> ->].
      destruct (north_band_points lat lon g H41 (Hg 0%nat) (Hg 1%nat))
        as (-> & ? & ?).
      lia.
Qed.

End PipelineBounds.

(** X16.  With non-negative draws, no coordinate analysed through the
    endpoint scores more than 78, so the category "HIGHLY PRODUCTIVE" is
    never produced; every top area of an answer has a score between 60 and
    78 and the category "PRODUCTIVE" or "MODERATELY PRODUCTIVE". *)
Theorem X16_endpoint_score_ceiling (np_sqrt : Q -> Q)
  (json_dump : list WaterFeature -> string)
  (json_load : string -> option (list WaterFeature))
  (max_areas sample_size : Z) (env : Env) :
  (forall i n, 0 <= env_rng env i n)%Q ->
  (forall water_sources coordinates row,
     Some row ∈ run_tasks np_sqrt env water_sources coordinates ->
     suitability_score row <= 78
     /\ suitability_category row <> "HIGHLY PRODUCTIVE")
  /\ Forall (fun area =>
               60 <= Area.score area <= 78
               /\ (Area.category area = "PRODUCTIVE"
                   \/ Area.category area = "MODERATELY PRODUCTIVE"))
       (response_top_areas
          (comprehensive_real_analysis np_sqrt json_dump json_load
             max_areas sample_size env)).
Proof.
  intros Hg.
  assert (Htask : forall water_sources coordinates row,
             Some row ∈ run_tasks np_sqrt env water_sources coordinates ->
             suitability_score row <= 78
             /\ suitability_category row
                = Scorer.categorize_suitability (suitability_score row)).
  { intros ws coords row Hrow.
    apply run_tasks_elem_rng in Hrow as (i & lat & lon & Hrow).
    symmetry in Hrow. eapply task_score_bound; [|exact Hrow]. apply Hg. }
  split.
  - intros ws coords row Hrow. destruct (Htask ws coords row Hrow) as [Hs Hc].
    split; [exact Hs|]. rewrite Hc.
    destruct (categorize_cases (suitability_score row))
      as [[? E]|[[? E]|[[? E]|[? E]]]]; rewrite E; first [lia|discriminate].
  - apply Forall_forall. intros area Harea.
    rewrite endpoint_top_areas in Harea.
    destruct (catalog_of json_dump json_load env) as [|w ws] eqn:E;
      [by apply elem_of_nil in Harea|].
    apply format_top_areas_elem in Harea as (i & row & Hrow & ->).
    cbn [Area.score Area.category format_area].
    assert (H60 : 60 <= suitability_score row).
    { unfold analysis_loop in Hrow.
      apply collect_elem in Hrow as [Hrow|[_ Hs]]; [|exact Hs].
      by apply elem_of_nil in Hrow. }
    apply accepted_is_task_row in Hrow.
    destruct (Htask _ _ _ Hrow) as [Hs Hc].
    split; [lia|]. rewrite Hc.
    destruct (categorize_cases (suitability_score row))
      as [[? Ec]|[[? Ec]|[[? Ec]|[? Ec]]]]; rewrite Ec;
      first [lia | by left | by right].
Qed.

(** The ceiling at the request of [Samples.cached_env]. *)
Lemma X16_endpoint_score_ceiling_witness :
  Forall (fun area =>
            60 <= Area.score area <= 78
            /\ (Area.category area = "PRODUCTIVE"
                \/ Area.category area = "MODERATELY PRODUCTIVE"))
    (response_top_areas
       (comprehensive_real_analysis Samples.sqrt_6dp Samples.json_dump
          Samples.json_load 100 5000 Samples.cached_env)).
Proof.
  apply (X16_endpoint_score_ceiling Samples.sqrt_6dp Samples.json_dump
           Samples.json_load 100 5000 Samples.cached_env).
  intros i n. discriminate.
Defined.

(** The ceiling is reached: south of 37 degrees, next to water, with draws
    0, the score is 78. *)
Example score_78_reached :
  suitability_score
    <$> Rand.run (analyze_coordinate_with_real_water Samples.sqrt_6dp
                    (369864 # 10000, 353253 # 10000, ∅)
                    [mkWaterFeature (369864 # 10000) (353253 # 10000) "Seyhan"
                       "river" "OpenStreetMap"])
          (Samples.constant_rng 0)
  = Some 78.
Proof. vm_compute. reflexivity. Qed.

(** X17.  The climate of an analysed row is fixed by its latitude band, and
    so are its climate points: south of 37 degrees the precipitation is in
    the ideal range and the sunshine is not (8 points), between 37 and 41
    degrees only the sunshine is (7 points), and from 41 degrees on both are
    (15 points). *)
Theorem X17_climate_by_band (np_sqrt : Q -> Q) (lat lon : Q)
  (original_data : gmap string string) (water_sources : list WaterFeature)
  (g : Rand.Rng) (row : EnhancedRow) :
  Rand.run (analyze_coordinate_with_real_water np_sqrt
              (lat, lon, original_data) water_sources) g = Some row ->
  ((lat < 37)%Q ->
   RuleTable.precipitation_tier (annual_precipitation_mm (attrs row)) 8
   /\ RuleTable.sunshine_tier (sunshine_hours (attrs row)) 0)
  /\ ((37 <= lat)%Q -> (lat < 41)%Q ->
      RuleTable.precipitation_tier (annual_precipitation_mm (attrs row)) 0
      /\ RuleTable.sunshine_tier (sunshine_hours (attrs row)) 7)
  /\ ((41 <= lat)%Q ->
      RuleTable.precipitation_tier (annual_precipitation_mm (attrs row)) 8
      /\ RuleTable.sunshine_tier (sunshine_hours (attrs row)) 7).
Proof.
  intros Hrun.
  destruct (bounding_check lat lon) eqn:Hb;
    [by rewrite analyze_rejects in Hrun|].
  destruct (analyze_fields np_sqrt lat lon original_data water_sources g Hb)
    as (row' & Hrun' & _ & _ & _ & Hp & Hh & _).
  unfold Rand.run in Hrun. rewrite Hrun' in Hrun. injection Hrun as ->.
  rewrite Hp, Hh.
  destruct (climate_points lat lon) as (Hsouth & Hmid & Hnorth).
  pose proof (precipitation_points_spec
                (cd_annual_precipitation_mm (get_climate_data lat lon))) as Hps.
  pose proof (sunshine_points_spec
                (cd_sunshine_hours (get_climate_data lat lon))) as Hhs.
  split; [|split].
  - intros H. destruct (Hsouth H) as [E1 E2]. by rewrite E1, E2 in *.
  - intros H1 H2. destruct (Hmid H1 H2) as [E1 E2]. by rewrite E1, E2 in *.
  - intros H. destruct (Hnorth H) as [E1 E2]. by rewrite E1, E2 in *.
Qed.

(** The climate of the sample row, between 39 and 41 degrees. *)
Lemma X17_climate_by_band_witness :
  RuleTable.precipitation_tier
    (annual_precipitation_mm (attrs Samples.ankara_row)) 0
  /\ RuleTable.sunshine_tier (sunshine_hours (attrs Samples.ankara_row)) 7.
Proof.
  destruct (X17_climate_by_band Samples.sqrt_6dp (399334 # 10000)
              (328597 # 10000) ∅ Samples.two_sources
              (Samples.constant_rng (1 # 2)) Samples.ankara_row)
    as (_ & H & _).
  - vm_compute. reflexivity.
  - apply H; [discriminate|reflexivity].
Defined.

(** X18.  Analysed against an empty catalog, a coordinate gets the
    placeholder water source: the name and type "unknown" and the distance
    0, which earns the 25 points of the first water tier. *)
Theorem X18_empty_catalog_row (np_sqrt : Q -> Q) (lat lon : Q)
  (original_data : gmap string string) (g : Rand.Rng) (row : EnhancedRow) :
  Rand.run (analyze_coordinate_with_real_water np_sqrt
              (lat, lon, original_data) []) g = Some row ->
  nearest_water_name (attrs row) = "unknown"
  /\ nearest_water_type (attrs row) = "unknown"
  /\ (water_distance_km (attrs row) == 0)%Q
  /\ RuleTable.water_tier (water_distance_km (attrs row)) 25
  /\ 25 <= suitability_score row.
Proof.
  intros Hrun.
  destruct (bounding_check lat lon) eqn:Hb;
    [by rewrite analyze_rejects in Hrun|].
  destruct (analyze_fields np_sqrt lat lon original_data [] g Hb)
    as (row' & Hrun' & _ & _ & _ & _ & _ & Hd & Hn & Ht & _ & Hscore & _).
  unfold Rand.run in Hrun. rewrite Hrun' in Hrun. injection Hrun as ->.
  cbn in Hd, Hn, Ht.
  split; [exact Hn|]. split; [exact Ht|].
  assert (Hw : Scorer.water_points (water_distance_km (attrs row)) = 25)
    by (by rewrite Hd).
  split; [by rewrite Hd|].
  split.
  - pose proof (water_points_spec (water_distance_km (attrs row))) as Hspec.
    by rewrite Hw in Hspec.
  - rewrite Hscore, score_decomposition, Hw.
    pose proof (slope_points_tier (slope_percent (attrs row))).
    pose proof (elevation_points_tier (elevation_m (attrs row))).
    pose proof (soil_points_tier (soil_productivity (attrs row))).
    pose proof (precipitation_points_tier (annual_precipitation_mm (attrs row))).
    pose proof (sunshine_points_tier (sunshine_hours (attrs row))).
    pose proof (landcover_points_tier (Scorer.lc_type_of (attrs row))).
    lia.
Qed.

(** The empty catalog at the first fallback coordinate. *)
Lemma X18_empty_catalog_row_witness :
  nearest_water_name (attrs Samples.unknown_water_row) = "unknown"
  /\ nearest_water_type (attrs Samples.unknown_water_row) = "unknown"
  /\ (water_distance_km (attrs Samples.unknown_water_row) == 0)%Q
  /\ RuleTable.water_tier (water_distance_km (attrs Samples.unknown_water_row)) 25
  /\ 25 <= suitability_score Samples.unknown_water_row.
Proof.
  apply (X18_empty_catalog_row Samples.sqrt_6dp (399334 # 10000)
           (328597 # 10000) ∅ (Samples.constant_rng (1 # 2))
           Samples.unknown_water_row).
  vm_compute. reflexivity.
Defined.

(** ** More on the nearest-water scan *)

(** X19.  The distance returned by the scan does not depend on the order
    of the water sources: two catalogs with the same sources give equal
    distances (the source named may differ when several are equally
    near). *)
Theorem X19_distance_order_independent (np_sqrt : Q -> Q) (lat lon : Q)
  (water_sources water_sources' : list WaterFeature) :
  water_sources ≡ₚ water_sources' ->
  (nw_distance_km
     (calculate_distance_to_nearest_water np_sqrt lat lon water_sources)
   == nw_distance_km
        (calculate_distance_to_nearest_water np_sqrt lat lon water_sources'))%Q.
Proof.
  intros Hperm. unfold calculate_distance_to_nearest_water.
  pose proof (scanned_fold np_sqrt lat lon water_sources) as H.
  pose proof (scanned_fold np_sqrt lat lon water_sources') as H'.
  destruct water_sources as [|x l].
  - apply Permutation_nil_l in Hperm. subst water_sources'. reflexivity.
  - destruct water_sources' as [|x' l'];
      [by apply Permutation_nil_r in Hperm|].
    apply scanned_cons in H as (i & f & (Hi & Hmin & _) & ->).
    apply scanned_cons in H' as (i' & f' & (Hi' & Hmin' & _) & ->).
    cbn [snd entry_of nw_distance_km].
    apply Qle_antisym.
    + apply Hmin. rewrite Hperm. by eapply list_elem_of_lookup_2.
    + apply Hmin'. rewrite <- Hperm. by eapply list_elem_of_lookup_2.
Qed.

(** The two sample sources in both orders, seen from the second fallback
    coordinate. *)
Lemma X19_distance_order_independent_witness :
  (nw_distance_km
     (calculate_distance_to_nearest_water Samples.sqrt_6dp
        (410082 # 10000) (289784 # 10000) Samples.two_sources)
   == nw_distance_km
        (calculate_distance_to_nearest_water Samples.sqrt_6dp
           (410082 # 10000) (289784 # 10000) (reverse Samples.two_sources)))%Q.
Proof.
  apply (X19_distance_order_independent Samples.sqrt_6dp).
  symmetry. apply reverse_Permutation.
Defined.

(** ** The coordinates loaded from the CSV files *)

Lemma coordinates_of_frame_elem df c :
  c ∈ coordinates_of_frame df ->
  exists row,
    row ∈ df_rows df
    /\ ((In "lat" (df_columns df) /\ In "lon" (df_columns df)
         /\ c = (row "lat", row "lon"))
        \/ (In "latitude" (df_columns df) /\ In "longitude" (df_columns df)
            /\ c = (row "latitude", row "longitude"))).
Proof.
  unfold coordinates_of_frame, has_column.
  destruct (bool_decide ("lat" ∈ df_columns df)) eqn:E1;
    [destruct (bool_decide ("lon" ∈ df_columns df)) eqn:E2|]; cbn [andb].
  - intros H. change (map ?f ?l) with (f <$> l) in H.
    apply list_elem_of_fmap in H as (row & -> & Hrow).
    exists row. split; [done|]. left.
    apply bool_decide_eq_true in E1, E2.
    rewrite <- !list_elem_of_In. done.
  - destruct (bool_decide ("latitude" ∈ df_columns df)) eqn:E3;
      [destruct (bool_decide ("longitude" ∈ df_columns df)) eqn:E4|];
      cbn [andb]; intros H; try (by apply elem_of_nil in H).
    change (map ?f ?l) with (f <$> l) in H.
    apply list_elem_of_fmap in H as (row & -> & Hrow).
    exists row. split; [done|]. right.
    apply bool_decide_eq_true in E3, E4.
    rewrite <- !list_elem_of_In. done.
  - destruct (bool_decide ("latitude" ∈ df_columns df)) eqn:E3;
      [destruct (bool_decide ("longitude" ∈ df_columns df)) eqn:E4|];
      cbn [andb]; intros H; try (by apply elem_of_nil in H).
    change (map ?f ?l) with (f <$> l) in H.
    apply list_elem_of_fmap in H as (row & -> & Hrow).
    exists row. split; [done|]. right.
    apply bool_decide_eq_true in E3, E4.
    rewrite <- !list_elem_of_In. done.
Qed.

(** X20.  No coordinate is invented: the list loaded from the CSV files is
    either the list of the 11 fallback coordinates, or every coordinate of
    it is read from a row of one of the three named files, from the columns
    [lat] and [lon] or from the columns [latitude] and [longitude].  When
    none of the three files can be read, the fallback list is returned. *)
Theorem X20_loaded_coordinates (disk : string -> CsvFile) :
  (load_coordinates_from_csv disk = sample_coordinates
   \/ forall c, c ∈ load_coordinates_from_csv disk ->
        exists csv_file df row,
          In csv_file csv_files
          /\ disk csv_file = CsvFrame df
          /\ row ∈ df_rows df
          /\ ((In "lat" (df_columns df) /\ In "lon" (df_columns df)
               /\ c = (row "lat", row "lon"))
              \/ (In "latitude" (df_columns df)
                  /\ In "longitude" (df_columns df)
                  /\ c = (row "latitude", row "longitude"))))
  /\ ((forall csv_file df, In csv_file csv_files ->
         disk csv_file <> CsvFrame df) ->
      load_coordinates_from_csv disk = sample_coordinates
      /\ length (load_coordinates_from_csv disk) = 11%nat).
Proof.
  unfold load_coordinates_from_csv.
  set (read := fun csv_file : string =>
                 match disk csv_file with
                 | CsvFrame df => coordinates_of_frame df
                 | _ => []
                 end).
  split.
  - destruct (flat_map read csv_files) as [|c0 cs] eqn:E; [by left|].
    right. intros c Hc. rewrite <- E in Hc.
    apply list_elem_of_In, in_flat_map in Hc as (csv_file & Hfile & Hc).
    subst read. cbn beta in Hc.
    destruct (disk csv_file) as [| |df] eqn:Ed; try done.
    apply list_elem_of_In, coordinates_of_frame_elem in Hc as (row & Hrow & Hcols).
    by exists csv_file, df, row.
  - intros Hnone.
    assert (flat_map read csv_files = []) as ->; [|done].
    assert (Hall : forall csv_file, In csv_file csv_files -> read csv_file = []).
    { intros csv_file Hfile. subst read. cbn beta.
      destruct (disk csv_file) as [| |df] eqn:Ed; try done.
      by destruct (Hnone csv_file df Hfile). }
    clear Hnone. induction csv_files as [|f fs IH]; [done|].
    cbn [flat_map]. rewrite (Hall f) by (by left).
    apply IH. intros csv_file Hfile. apply Hall. by right.
Qed.

(** The two coordinates read from the one file of [Samples.one_csv_disk]. *)
Example one_csv_loaded :
  load_coordinates_from_csv Samples.one_csv_disk = [(38, 27); (40, 33)]%Q.
Proof. reflexivity. Qed.
